(** * wallet-qr-generator: layout, configuration, address classification and
      batch generation, embedded from the Python sources

    Python [int] is unbounded and is modelled as [Z]; [str] is modelled as
    [string] (code points below 256); a [dict] with string keys as stdpp's
    [gmap string _]; a raised exception as the [Raise] branch of [result]. *)

From Stdlib Require Import ZArith Lia String Ascii List Bool.
From stdpp Require Import base strings gmap list pretty.

Local Open Scope string_scope.
Set Warnings "-register-all".

(* ===================================================================== *)
(** ** Python values and exceptions *)
(* ===================================================================== *)

(** JSON-like values: what a [Dict[str, Any]] holds in this program. *)
Inductive PyVal : Type :=
| PNone
| PBool (b : bool)
| PInt (z : Z)
| PStr (s : string)
| PList (l : list PyVal)
| PDict (d : gmap string PyVal).

(** Truth value of a [str] in a condition: non-empty. *)
Definition truthy_str (s : string) : bool :=
  match s with
  | EmptyString => false
  | String _ _ => true
  end.

(** wallet_qr/exceptions.py, together with the classes of Python and of the
    libraries that the code can meet, given by name.  Every class here
    derives from [Exception]. *)
Module Exceptions.

Inductive exc_class : Type :=
| WalletQRException
| InvalidAddressError
| GenerationError
| ConfigError
| FileError
| Other (name : string).

(** An exception instance; [exc_msg] is what [str(e)] gives. *)
Record PyExc : Type := MkExc { exc_cls : exc_class; exc_msg : string }.

Inductive result (A : Type) : Type :=
| Return (a : A)
| Raise (e : PyExc).
Arguments Return {A} a.
Arguments Raise {A} e.

Definition bind {A B} (m : result A) (k : A -> result B) : result B :=
  match m with
  | Return a => k a
  | Raise e => Raise e
  end.

(** [try: body  except Exception as e: handler(e)] *)
Definition try_except {A} (body : result A) (handler : PyExc -> result A)
  : result A :=
  match body with
  | Return a => Return a
  | Raise e => handler e
  end.

Definition is_return {A} (m : result A) : bool :=
  match m with Return _ => true | Raise _ => false end.

End Exceptions.
Export Exceptions.

(** stdpp's monad notation: [x ← m; k] runs [m] and stops at the first
    exception raised. *)
#[global] Instance result_ret : MRet result := fun A a => Return a.
#[global] Instance result_bind : MBind result := fun A B k m => bind m k.

(* ===================================================================== *)
(** ** wallet_qr/styles.py *)
(* ===================================================================== *)

Module Styles.

Local Open Scope Z_scope.

(** [@dataclass class QRConfig], typed by its field annotations. *)
Record QRConfig : Type := MkQRConfig {
  version : Z;
  error_correction : string;
  box_size : Z;
  border : Z;
  fill_color : string;
  back_color : string;
  title : string;
  subtitle : string;
  show_address : bool;
  show_qr_border : bool;
  add_logo : bool;
  logo_path : option string;
  logo_size : Z;
  watermark : string;
  custom_css : gmap string PyVal
}.

(** The dataclass defaults: [QRConfig()]. *)
Definition default_config : QRConfig := {|
  version := 5;
  error_correction := "H";
  box_size := 12;
  border := 4;
  fill_color := "#2E86C1";
  back_color := "white";
  title := "CRYPTO WALLET";
  subtitle := "";
  show_address := true;
  show_qr_border := true;
  add_logo := false;
  logo_path := None;
  logo_size := 80;
  watermark := "";
  custom_css := ∅
|}.

(** Keyword-style functional updates, as the presets use them. *)
Definition set_title (t : string) (c : QRConfig) : QRConfig :=
  MkQRConfig (version c) (error_correction c) (box_size c) (border c)
    (fill_color c) (back_color c) t (subtitle c) (show_address c)
    (show_qr_border c) (add_logo c) (logo_path c) (logo_size c)
    (watermark c) (custom_css c).

Definition set_subtitle (t : string) (c : QRConfig) : QRConfig :=
  MkQRConfig (version c) (error_correction c) (box_size c) (border c)
    (fill_color c) (back_color c) (title c) t (show_address c)
    (show_qr_border c) (add_logo c) (logo_path c) (logo_size c)
    (watermark c) (custom_css c).

Definition set_show_address (b : bool) (c : QRConfig) : QRConfig :=
  MkQRConfig (version c) (error_correction c) (box_size c) (border c)
    (fill_color c) (back_color c) (title c) (subtitle c) b
    (show_qr_border c) (add_logo c) (logo_path c) (logo_size c)
    (watermark c) (custom_css c).

Definition set_watermark (t : string) (c : QRConfig) : QRConfig :=
  MkQRConfig (version c) (error_correction c) (box_size c) (border c)
    (fill_color c) (back_color c) (title c) (subtitle c) (show_address c)
    (show_qr_border c) (add_logo c) (logo_path c) (logo_size c)
    t (custom_css c).

Definition set_custom_css (d : gmap string PyVal) (c : QRConfig) : QRConfig :=
  MkQRConfig (version c) (error_correction c) (box_size c) (border c)
    (fill_color c) (back_color c) (title c) (subtitle c) (show_address c)
    (show_qr_border c) (add_logo c) (logo_path c) (logo_size c)
    (watermark c) d.

(** The six entries of [presets] in [QRConfig.from_preset]; fields a preset
    does not pass keep the dataclass default. *)
Definition preset_professional : QRConfig := {|
  version := 5; error_correction := "H"; box_size := 12; border := 4;
  fill_color := "#2E86C1"; back_color := "white";
  title := "CRYPTO WALLET ADDRESS";
  subtitle := "Secure Digital Asset Storage";
  show_address := true; show_qr_border := true; add_logo := true;
  logo_path := None; logo_size := 100; watermark := ""; custom_css := ∅ |}.

Definition preset_minimalist : QRConfig := {|
  version := 4; error_correction := "Q"; box_size := 15; border := 3;
  fill_color := "black"; back_color := "white";
  title := ""; subtitle := "";
  show_address := false; show_qr_border := false; add_logo := false;
  logo_path := None; logo_size := 80; watermark := ""; custom_css := ∅ |}.

Definition preset_dark : QRConfig := {|
  version := 5; error_correction := "H"; box_size := 10; border := 4;
  fill_color := "#27AE60"; back_color := "#1C2833";
  title := "CRYPTO WALLET"; subtitle := "Scan to Transfer";
  show_address := true; show_qr_border := true; add_logo := false;
  logo_path := None; logo_size := 80; watermark := ""; custom_css := ∅ |}.

Definition preset_gradient : QRConfig := {|
  version := 4; error_correction := "H"; box_size := 12; border := 3;
  fill_color := "#FF6B6B"; back_color := "white";
  title := "WALLET ADDRESS"; subtitle := "Digital Currency";
  show_address := true; show_qr_border := true; add_logo := false;
  logo_path := None; logo_size := 80; watermark := "";
  custom_css := {[ "gradient" := PBool true ]} |}.

Definition preset_business : QRConfig := {|
  version := 6; error_correction := "H"; box_size := 10; border := 4;
  fill_color := "#2C3E50"; back_color := "white";
  title := "BUSINESS WALLET"; subtitle := "Official Corporate Address";
  show_address := true; show_qr_border := true; add_logo := true;
  logo_path := None; logo_size := 120; watermark := ""; custom_css := ∅ |}.

Definition preset_premium : QRConfig := {|
  version := 7; error_correction := "H"; box_size := 14; border := 6;
  fill_color := "#F39C12"; back_color := "#FEF9E7";
  title := "PREMIUM WALLET"; subtitle := "Gold Standard Security";
  show_address := true; show_qr_border := true; add_logo := true;
  logo_path := None; logo_size := 150; watermark := "VERIFIED";
  custom_css := ∅ |}.

Definition presets : list (string * QRConfig) :=
  [ ("professional", preset_professional);
    ("minimalist", preset_minimalist);
    ("dark", preset_dark);
    ("gradient", preset_gradient);
    ("business", preset_business);
    ("premium", preset_premium) ].

(** [str.lower()] on code points below 256: A-Z and the accented capitals
    0xC0-0xDE (but not the multiplication sign 0xD7) move up by 32. *)
Definition lower_ascii (c : ascii) : ascii :=
  let n := nat_of_ascii c in
  if ((65 <=? n) && (n <=? 90))%nat
     || ((192 <=? n) && (n <=? 222) && negb (n =? 215))%nat
  then ascii_of_nat (n + 32) else c.

Fixpoint lower (s : string) : string :=
  match s with
  | EmptyString => EmptyString
  | String c s' => String (lower_ascii c) (lower s')
  end.

Fixpoint assoc_get {A} (k : string) (l : list (string * A)) : option A :=
  match l with
  | [] => None
  | (k', v) :: l' => if String.eqb k' k then Some v else assoc_get k l'
  end.

(** [QRConfig.from_preset]: an unknown name falls back to [cls()]. *)
Definition from_preset (preset : string) : QRConfig :=
  match assoc_get (lower preset) presets with
  | Some c => c
  | None => default_config
  end.

(** [QRConfig.to_dict] *)
Definition opt_str_val (o : option string) : PyVal :=
  match o with
  | None => PNone
  | Some s => PStr s
  end.

Definition to_dict (self : QRConfig) : gmap string PyVal :=
  list_to_map
    [ ("version", PInt (version self));
      ("error_correction", PStr (error_correction self));
      ("box_size", PInt (box_size self));
      ("border", PInt (border self));
      ("fill_color", PStr (fill_color self));
      ("back_color", PStr (back_color self));
      ("title", PStr (title self));
      ("subtitle", PStr (subtitle self));
      ("show_address", PBool (show_address self));
      ("show_qr_border", PBool (show_qr_border self));
      ("add_logo", PBool (add_logo self));
      ("logo_path", opt_str_val (logo_path self));
      ("logo_size", PInt (logo_size self));
      ("watermark", PStr (watermark self));
      ("custom_css", PDict (custom_css self)) ].

(** The parameters of the generated [__init__], in declaration order. *)
Definition field_names : list string :=
  [ "version"; "error_correction"; "box_size"; "border"; "fill_color";
    "back_color"; "title"; "subtitle"; "show_address"; "show_qr_border";
    "add_logo"; "logo_path"; "logo_size"; "watermark"; "custom_css" ].

(** [QRConfig.from_dict]: the class called with the entries of [data] as
    keyword arguments.  A keyword that is no field raises TypeError (the
    map keeps no insertion order, so one of the offending keys is named);
    a missing keyword takes the default.  Python stores the values
    unchecked; a value outside a field's annotation has no counterpart in
    the typed record and is reported as [IllTyped]. *)
Inductive from_dict_outcome : Type :=
| Built (c : QRConfig)
| UnexpectedKeyword (k : string)
| IllTyped (field : string).

Definition as_int (v : PyVal) : option Z :=
  match v with PInt z => Some z | _ => None end.
Definition as_str (v : PyVal) : option string :=
  match v with PStr s => Some s | _ => None end.
Definition as_bool (v : PyVal) : option bool :=
  match v with PBool b => Some b | _ => None end.
Definition as_opt_str (v : PyVal) : option (option string) :=
  match v with PNone => Some None | PStr s => Some (Some s) | _ => None end.
Definition as_dict (v : PyVal) : option (gmap string PyVal) :=
  match v with PDict d => Some d | _ => None end.

(** One keyword argument: the passed value converted, or the default. *)
Definition kwarg {A} (data : gmap string PyVal) (name : string)
    (conv : PyVal -> option A) (default : A)
    (k : A -> from_dict_outcome) : from_dict_outcome :=
  match data !! name with
  | None => k default
  | Some v => match conv v with
              | Some a => k a
              | None => IllTyped name
              end
  end.

Definition unexpected_keyword (data : gmap string PyVal) : option string :=
  head (filter (fun k => negb (existsb (String.eqb k) field_names))
               (map fst (map_to_list data))).

Definition from_dict (data : gmap string PyVal) : from_dict_outcome :=
  match unexpected_keyword data with
  | Some k => UnexpectedKeyword k
  | None =>
    kwarg data "version" as_int (version default_config) (fun a1 =>
    kwarg data "error_correction" as_str (error_correction default_config) (fun a2 =>
    kwarg data "box_size" as_int (box_size default_config) (fun a3 =>
    kwarg data "border" as_int (border default_config) (fun a4 =>
    kwarg data "fill_color" as_str (fill_color default_config) (fun a5 =>
    kwarg data "back_color" as_str (back_color default_config) (fun a6 =>
    kwarg data "title" as_str (title default_config) (fun a7 =>
    kwarg data "subtitle" as_str (subtitle default_config) (fun a8 =>
    kwarg data "show_address" as_bool (show_address default_config) (fun a9 =>
    kwarg data "show_qr_border" as_bool (show_qr_border default_config) (fun a10 =>
    kwarg data "add_logo" as_bool (add_logo default_config) (fun a11 =>
    kwarg data "logo_path" as_opt_str (logo_path default_config) (fun a12 =>
    kwarg data "logo_size" as_int (logo_size default_config) (fun a13 =>
    kwarg data "watermark" as_str (watermark default_config) (fun a14 =>
    kwarg data "custom_css" as_dict (custom_css default_config) (fun a15 =>
    Built (MkQRConfig a1 a2 a3 a4 a5 a6 a7 a8 a9 a10 a11 a12 a13 a14 a15))))))))))))))))
  end.

(** [@dataclass class Layout] *)
Record Layout : Type := MkLayout {
  width : Z;
  height : Z;
  padding : Z;
  qr_position : Z * Z;
  title_position : Z * Z;
  subtitle_position : Z * Z;
  address_position : Z * Z;
  logo_position : Z * Z;
  watermark_position : Z * Z
}.

(** [Layout.auto(qr_size, config)] *)
Definition auto (qr_size : Z * Z) (config : QRConfig) : Layout :=
  let '(qr_width, qr_height) := qr_size in
  let height_extra := 40 in
  let height_extra :=
    if truthy_str (title config) then height_extra + 60 else height_extra in
  let height_extra :=
    if truthy_str (subtitle config) then height_extra + 30 else height_extra in
  let height_extra :=
    if show_address config then height_extra + 80 else height_extra in
  let height_extra :=
    if truthy_str (watermark config) then height_extra + 30 else height_extra in
  let padding := 40 in
  let width := qr_width + padding * 2 in
  let height := qr_height + padding * 2 + height_extra in
  let qr_x := padding in
  let qr_y := padding + (if truthy_str (title config) then 60 else 20) in
  let title_y := 30 in
  let subtitle_y := title_y + 40 in
  {| width := width;
     height := height;
     padding := padding;
     qr_position := (qr_x, qr_y);
     title_position := (padding, title_y);
     subtitle_position := (padding, subtitle_y);
     address_position := (padding, qr_y + qr_height + 20);
     logo_position := (width - padding - 50, 30);
     watermark_position := (width - padding - 100, height - 30) |}.

(** The per-element increments the specification lists. *)
Definition increments (config : QRConfig) : Z :=
  (if truthy_str (title config) then 60 else 0)
  + (if truthy_str (subtitle config) then 30 else 0)
  + (if show_address config then 80 else 0)
  + (if truthy_str (watermark config) then 30 else 0).

(** The four optional text elements, how one is switched on in a
    configuration (a text for the three text fields, the flag for the
    address block), and the increment the specification gives each. *)
Inductive Element : Type :=
| ElTitle
| ElSubtitle
| ElAddress
| ElWatermark.

Definition enabled (e : Element) (config : QRConfig) : bool :=
  match e with
  | ElTitle => truthy_str (title config)
  | ElSubtitle => truthy_str (subtitle config)
  | ElAddress => show_address config
  | ElWatermark => truthy_str (watermark config)
  end.

Definition enable (e : Element) (text : string) (config : QRConfig)
  : QRConfig :=
  match e with
  | ElTitle => set_title text config
  | ElSubtitle => set_subtitle text config
  | ElAddress => set_show_address true config
  | ElWatermark => set_watermark text config
  end.

Definition increment (e : Element) : Z :=
  match e with
  | ElTitle => 60
  | ElSubtitle => 30
  | ElAddress => 80
  | ElWatermark => 30
  end.

(** A position lies on a [w] by [h] canvas. *)
Definition within (w h : Z) (p : Z * Z) : Prop :=
  0 <= fst p < w /\ 0 <= snd p < h.

Definition positions (l : Layout) : list (Z * Z) :=
  [ qr_position l; title_position l; subtitle_position l;
    address_position l; logo_position l; watermark_position l ].

End Styles.

(* ===================================================================== *)
(** ** Regular expressions, as far as [re.match] is used here *)
(* ===================================================================== *)

Module Re.

(** Pattern syntax: the constructs the six address patterns are built
    from.  A character set is a list of inclusive ranges. *)
Inductive regex : Type :=
| Eps
| Lit (c : ascii)
| Cls (ranges : list (ascii * ascii))
| Seq (r1 r2 : regex)
| Alt (r1 r2 : regex)
| Rep (r : regex) (lo : nat) (hi : option nat)
| Eol.

Definition in_range (c : ascii) (r : ascii * ascii) : bool :=
  ((nat_of_ascii (fst r) <=? nat_of_ascii c)
   && (nat_of_ascii c <=? nat_of_ascii (snd r)))%nat.

Definition in_class (c : ascii) (ranges : list (ascii * ascii)) : bool :=
  existsb (in_range c) ranges.

(** A literal string. *)
Fixpoint str (s : string) : regex :=
  match s with
  | EmptyString => Eps
  | String c s' => Seq (Lit c) (str s')
  end.

(** [$]: at the end of the subject, or just before a final newline. *)
Definition newline : string := String (ascii_of_nat 10) EmptyString.

Definition at_end (s : string) : bool :=
  String.eqb s "" || String.eqb s newline.

(** [r{lo,n}] by backtracking, greedy: one more round of [m] first, and
    stopping here only when [lo] rounds are done. *)
Definition rep_m (m : string -> (string -> bool) -> bool)
  : nat -> nat -> string -> (string -> bool) -> bool :=
  fix go (lo n : nat) (s : string) (k : string -> bool) : bool :=
    match n with
    | O => (lo =? 0)%nat && k s
    | S n' => m s (fun s' => go (Nat.pred lo) n' s' k)
              || ((lo =? 0)%nat && k s)
    end.

(** The matcher in continuation-passing style: [m r s k] tries [r] at the
    front of [s] and hands every possible rest to [k].  An unbounded
    repetition never needs more than [lo] rounds plus one per character. *)
Fixpoint m (r : regex) (s : string) (k : string -> bool) : bool :=
  match r with
  | Eps => k s
  | Lit c =>
      match s with
      | String c' s' => Ascii.eqb c c' && k s'
      | EmptyString => false
      end
  | Cls ranges =>
      match s with
      | String c' s' => in_class c' ranges && k s'
      | EmptyString => false
      end
  | Seq r1 r2 => m r1 s (fun s' => m r2 s' k)
  | Alt r1 r2 => m r1 s k || m r2 s k
  | Rep r' lo hi =>
      rep_m (m r') lo
        (match hi with
         | Some h => h
         | None => lo + String.length s
         end)%nat s k
  | Eol => at_end s && k s
  end.

(** [re.match(pattern, s)] as a truth value: the pattern must match at the
    start of [s]; what follows the match is not looked at. *)
Definition re_match (pattern : regex) (s : string) : bool :=
  m pattern s (fun _ => true).

(** The least number of characters a match consumes. *)
Fixpoint min_len (r : regex) : nat :=
  match r with
  | Eps => 0
  | Lit _ => 1
  | Cls _ => 1
  | Seq r1 r2 => min_len r1 + min_len r2
  | Alt r1 r2 => Nat.min (min_len r1) (min_len r2)
  | Rep r' lo _ => lo * min_len r'
  | Eol => 0
  end.

End Re.

(* ===================================================================== *)
(** ** wallet_qr/utils.py *)
(* ===================================================================== *)

Module Utils.

Import Re.

(** [str.isspace()] for one code point below 256. *)
Definition is_space (c : ascii) : bool :=
  let n := nat_of_ascii c in
  (((9 <=? n) && (n <=? 13)) || ((28 <=? n) && (n <=? 32))
   || (n =? 133) || (n =? 160))%nat.

Fixpoint lstrip (s : string) : string :=
  match s with
  | EmptyString => EmptyString
  | String c s' => if is_space c then lstrip s' else s
  end.

Fixpoint rstrip (s : string) : string :=
  match s with
  | EmptyString => EmptyString
  | String c s' =>
      match rstrip s' with
      | EmptyString => if is_space c then EmptyString
                       else String c EmptyString
      | r => String c r
      end
  end.

(** [str.strip()] *)
Definition strip (s : string) : string := rstrip (lstrip s).

Definition ch (s : string) : ascii :=
  match s with
  | String c _ => c
  | EmptyString => Ascii.zero
  end.

(** [a-b] and a single character of a set. *)
Definition rg (a b : string) : ascii * ascii := (ch a, ch b).
Definition one (a : string) : ascii * ascii := (ch a, ch a).

(** The [patterns] dict, in insertion order.  The leading [^] of each
    pattern is implied by [re.match]. *)
Definition patterns : list (string * regex) :=
  [ (* ^(bc1|[13])[a-zA-HJ-NP-Z0-9]{25,39}$ *)
    ("bitcoin",
     Seq (Alt (str "bc1") (Cls [one "1"; one "3"]))
    (Seq (Rep (Cls [rg "a" "z"; rg "A" "H"; rg "J" "N"; rg "P" "Z";
                    rg "0" "9"]) 25 (Some 39))
         Eol));
    (* ^0x[a-fA-F0-9]{40}$ *)
    ("ethereum",
     Seq (str "0x")
    (Seq (Rep (Cls [rg "a" "f"; rg "A" "F"; rg "0" "9"]) 40 (Some 40))
         Eol));
    (* ^[LM3][a-km-zA-HJ-NP-Z1-9]{26,33}$ *)
    ("litecoin",
     Seq (Cls [one "L"; one "M"; one "3"])
    (Seq (Rep (Cls [rg "a" "k"; rg "m" "z"; rg "A" "H"; rg "J" "N";
                    rg "P" "Z"; rg "1" "9"]) 26 (Some 33))
         Eol));
    (* ^[1-9A-HJ-NP-Za-km-z]{32,44}$ *)
    ("solana",
     Seq (Rep (Cls [rg "1" "9"; rg "A" "H"; rg "J" "N"; rg "P" "Z";
                    rg "a" "k"; rg "m" "z"]) 32 (Some 44))
         Eol);
    (* ^[A-Za-z0-9+/]+={0,2}$ *)
    ("base64",
     Seq (Rep (Cls [rg "A" "Z"; rg "a" "z"; rg "0" "9"; one "+"; one "/"])
              1 None)
    (Seq (Rep (Lit (ch "=")) 0 (Some 2))
         Eol));
    (* ^[A-Za-z0-9\-_+=/.]+$ *)
    ("generic",
     Seq (Rep (Cls [rg "A" "Z"; rg "a" "z"; rg "0" "9"; one "-"; one "_";
                    one "+"; one "="; one "/"; one "."]) 1 None)
         Eol) ].

(** [for coin_type, pattern in patterns.items(): if re.match(...)] *)
Fixpoint first_match (ps : list (string * regex)) (address : string)
  : option string :=
  match ps with
  | [] => None
  | (coin_type, pattern) :: ps' =>
      if re_match pattern address then Some coin_type
      else first_match ps' address
  end.

(** [validate_wallet_address(address)] *)
Definition validate_wallet_address (address : string) : bool * string :=
  if negb (truthy_str address) || (String.length address <? 10)%nat
  then (false, "invalid")
  else
    let address := strip address in
    match first_match patterns address with
    | Some coin_type => (true, coin_type)
    | None => (false, "unknown")
    end.

(** Character predicates used to state the inputs of the claims. *)
Definition is_hex_digit (c : ascii) : bool :=
  let n := nat_of_ascii c in
  (((48 <=? n) && (n <=? 57)) || ((65 <=? n) && (n <=? 70))
   || ((97 <=? n) && (n <=? 102)))%nat.

Definition is_alnum (c : ascii) : bool :=
  let n := nat_of_ascii c in
  (((48 <=? n) && (n <=? 57)) || ((65 <=? n) && (n <=? 90))
   || ((97 <=? n) && (n <=? 122)))%nat.

Fixpoint all_chars (p : ascii -> bool) (s : string) : bool :=
  match s with
  | EmptyString => true
  | String c s' => p c && all_chars p s'
  end.

(** [\w] of a [str] pattern, for one code point below 256: letters, digits
    and other numeric characters, and the underscore. *)
Definition is_word (c : ascii) : bool :=
  let n := nat_of_ascii c in
  (is_alnum c || (n =? 95) || (n =? 170) || (n =? 178) || (n =? 179)
   || (n =? 181) || (n =? 185) || (n =? 186)
   || ((188 <=? n) && (n <=? 190)) || ((192 <=? n) && (n <=? 214))
   || ((216 <=? n) && (n <=? 246)) || (248 <=? n))%nat.

(** [re.sub(r'[^\w\-]', '_', style)] *)
Fixpoint safe_name (style : string) : string :=
  match style with
  | EmptyString => EmptyString
  | String c s' =>
      String (if is_word c || Ascii.eqb c (ch "-") then c else ch "_")
             (safe_name s')
  end.

(** [f"{index:03d}"] for an index that is not negative. *)
Definition fmt_03d (index : nat) : string :=
  let d := pretty index in
  match String.length d with
  | 1%nat => "00" ++ d
  | 2%nat => "0" ++ d
  | _ => d
  end.

Fixpoint take_str (n : nat) (s : string) : string :=
  match n, s with
  | S n', String c s' => String c (take_str n' s')
  | _, _ => EmptyString
  end.

(** [generate_filename(address, style, index)]; [md5_hexdigest] stands for
    [hashlib.md5(address.encode()).hexdigest()]. *)
Definition generate_filename (md5_hexdigest : string -> string)
    (address style : string) (index : option nat) : string :=
  let short_hash := take_str 8 (md5_hexdigest address) in
  let safe_style := safe_name style in
  match index with
  | Some i => "qr_" ++ fmt_03d i ++ "_" ++ safe_style ++ "_" ++ short_hash
              ++ ".png"
  | None => "qr_" ++ safe_style ++ "_" ++ short_hash ++ ".png"
  end.

End Utils.

(* ===================================================================== *)
(** ** wallet_qr/generator.py *)
(* ===================================================================== *)

Module Generator.

Import Styles Utils.
Local Open Scope Z_scope.

(** [qrcode.constants.ERROR_CORRECT_*] *)
Inductive ErrorCorrect : Type :=
| ERROR_CORRECT_L
| ERROR_CORRECT_M
| ERROR_CORRECT_Q
| ERROR_CORRECT_H.

Definition Color : Type := Z * Z * Z.

(** The libraries the generator calls (qrcode, PIL, os, hashlib), one
    operation per call site or drawing stage.  An operation that can raise
    returns a [result]; an image that is drawn on is passed through. *)
Record Backend (Image : Type) : Type := MkBackend {
  (* [img.size] *)
  img_size : Image -> Z * Z;
  (* [QRCode(version, error_correction, box_size, border)], [add_data],
     [make(fit=True)], then [make_image(fill, back).convert("RGB")] *)
  qrcode_image :
    Z -> ErrorCorrect -> Z -> Z -> string -> string -> string -> result Image;
  (* the same up to [make(fit=True)], then [get_matrix()] *)
  qrcode_matrix :
    Z -> ErrorCorrect -> Z -> Z -> string -> result (list (list bool));
  (* [Image.new("RGB", size, color)] *)
  image_new : Z * Z -> string -> result Image;
  (* the body of the [try] in [_add_logo] *)
  logo_overlay : QRConfig -> Image -> result Image;
  (* [_create_background(size, style)] *)
  create_background : QRConfig -> Z * Z -> string -> result Image;
  (* the drawing of [_add_emboss_effect] *)
  emboss_effect : QRConfig -> Image -> result Image;
  (* [final_img.paste(qr_img, position)] *)
  paste : Image -> Image -> Z * Z -> result Image;
  (* the three text blocks of [generate] *)
  draw_title : QRConfig -> Layout -> Image -> result Image;
  draw_subtitle : QRConfig -> Layout -> Image -> result Image;
  draw_address : QRConfig -> Layout -> string -> Image -> result Image;
  (* the drawing of [_add_watermark] *)
  watermark_overlay : Image -> string -> result Image;
  (* [final_img.save(output_path, quality=95, optimize=True)] *)
  save : Image -> string -> result unit;
  (* [os.path.getsize(output_path)] *)
  getsize : string -> result Z;
  (* [format_file_size]: floating-point formatting *)
  format_file_size : Z -> string;
  (* [hashlib.md5(address.encode()).hexdigest()] *)
  md5_hexdigest : string -> string;
  (* [os.makedirs(output_dir, exist_ok=True)] *)
  makedirs : string -> result unit
}.

Arguments img_size {Image} _ _.
Arguments qrcode_image {Image} _ _ _ _ _ _ _ _.
Arguments qrcode_matrix {Image} _ _ _ _ _ _.
Arguments image_new {Image} _ _ _.
Arguments logo_overlay {Image} _ _ _.
Arguments create_background {Image} _ _ _ _.
Arguments emboss_effect {Image} _ _ _.
Arguments paste {Image} _ _ _ _.
Arguments draw_title {Image} _ _ _ _.
Arguments draw_subtitle {Image} _ _ _ _.
Arguments draw_address {Image} _ _ _ _ _.
Arguments watermark_overlay {Image} _ _ _.
Arguments save {Image} _ _ _.
Arguments getsize {Image} _ _.
Arguments format_file_size {Image} _ _.
Arguments md5_hexdigest {Image} _ _.
Arguments makedirs {Image} _ _.

(** [self.gradients] *)
Definition gradients : list (string * list Color) :=
  [ ("sunset", [(255, 107, 107); (255, 167, 38); (255, 193, 7)]);
    ("ocean", [(41, 128, 185); (52, 152, 219); (93, 173, 226)]);
    ("forest", [(39, 174, 96); (46, 204, 113); (88, 214, 141)]);
    ("royal", [(142, 68, 173); (155, 89, 182); (165, 105, 189)]);
    ("fire", [(231, 76, 60); (235, 152, 78); (241, 196, 15)]) ].

(** [self.gradients["sunset"]] *)
Definition sunset : list Color :=
  match assoc_get "sunset" gradients with
  | Some colors => colors
  | None => []
  end.

(** [self.gradients.get(self.config.custom_css.get("gradient_name",
    "sunset"), self.gradients["sunset"])]: a value that is no string is no
    key of [gradients]; a list or a dict cannot be hashed and makes the
    lookup raise. *)
Definition gradient_colors (config : QRConfig) : result (list Color) :=
  match custom_css config !! "gradient_name" with
  | None => Return sunset
  | Some (PStr name) =>
      match assoc_get name gradients with
      | Some colors => Return colors
      | None => Return sunset
      end
  | Some (PList _) =>
      Raise (MkExc (Other "TypeError") "unhashable type: 'list'")
  | Some (PDict _) =>
      Raise (MkExc (Other "TypeError") "unhashable type: 'dict'")
  | Some _ => Return sunset
  end.

(** [l[i]] *)
Definition index {A} (l : list A) (i : nat) : result A :=
  match l !! i with
  | Some a => Return a
  | None => Raise (MkExc (Other "IndexError") "list index out of range")
  end.

(** [for x in xs: body], threading the value the body updates. *)
Fixpoint for_each {S X} (xs : list X) (body : X -> S -> result S) (s : S)
  : result S :=
  match xs with
  | [] => Return s
  | x :: xs' => s' ← body x s; for_each xs' body s'
  end.

Definition name_error (name : string) : PyExc :=
  MkExc (Other "NameError") ("name '" ++ name ++ "' is not defined").

Section WithBackend.

Context {Image : Type} (B : Backend Image) (config : QRConfig).

(** [ec_map.get(self.config.error_correction, ERROR_CORRECT_H)] *)
Definition ec_level : ErrorCorrect :=
  if String.eqb (error_correction config) "L" then ERROR_CORRECT_L
  else if String.eqb (error_correction config) "M" then ERROR_CORRECT_M
  else if String.eqb (error_correction config) "Q" then ERROR_CORRECT_Q
  else ERROR_CORRECT_H.

(** [_create_base_qr] *)
Definition _create_base_qr (data : string) : result Image :=
  try_except
    (qrcode_image B (version config) ec_level (box_size config)
       (border config) data (fill_color config) (back_color config))
    (fun e => Raise (MkExc GenerationError
                       ("Failed to create base QR code: " ++ exc_msg e))).

(** The body of the two nested loops of [_create_gradient_qr] for one
    module.  For a dark module the color and the corner of the box are
    computed, and then the arguments of [draw.rectangle] are evaluated:
    the last of them reads the name [self_config], which is bound
    nowhere, so the call is never made. *)
Definition gradient_module (matrix : list (list bool))
    (colors : list Color) (y x : nat) (img : Image) : result Image :=
  row ← index matrix y;
  dark ← index row x;
  if (dark : bool) then
    let color_idx := ((x + y) mod length colors)%nat in
    color ← index colors color_idx;
    let x_pos := border config * box_size config
                 + Z.of_nat x * box_size config in
    let y_pos := border config * box_size config
                 + Z.of_nat y * box_size config in
    Raise (name_error "self_config")
  else Return img.

(** [_create_gradient_qr] *)
Definition _create_gradient_qr (data : string) : result Image :=
  try_except
    (matrix ← qrcode_matrix B (version config) ERROR_CORRECT_H
               (box_size config) (border config) data;
     let size := Z.of_nat (length matrix) * box_size config
                 + 2 * border config * box_size config in
     img ← image_new B (size, size) (back_color config);
     colors ← gradient_colors config;
     for_each (seq 0 (length matrix)) (fun y img =>
       for_each (seq 0 (length matrix)) (fun x img =>
         gradient_module matrix colors y x img) img) img)
    (fun e => Raise (MkExc GenerationError
                       ("Failed to create gradient QR code: " ++ exc_msg e))).

(** [_add_logo]: every failure inside is printed as a warning and the QR
    image is returned as it was. *)
Definition _add_logo (qr_img : Image) : Image :=
  if negb (add_logo config)
     || negb (match logo_path config with
              | Some p => truthy_str p
              | None => false
              end)
  then qr_img
  else match logo_overlay B config qr_img with
       | Return img => img
       | Raise _ => qr_img
       end.

(** [_add_emboss_effect] *)
Definition _add_emboss_effect (img : Image) : result Image :=
  if negb (show_qr_border config) then Return img
  else emboss_effect B config img.

(** [_add_watermark] *)
Definition _add_watermark (img : Image) (text : string) : result Image :=
  if negb (truthy_str text) then Return img
  else watermark_overlay B img text.

(** ["gradient" in self.config.custom_css] *)
Definition has_gradient : bool :=
  bool_decide (is_Some (custom_css config !! "gradient")).

(** What [generate] returns. *)
Record GenerationResult : Type := MkResult {
  filepath : string;
  size_bytes : Z;
  size_formatted : string;
  dimensions : Z * Z;
  address : string;
  style : string
}.

(** The body of the [try] block of [generate]. *)
Definition generate_body (data output_path : string)
  : result GenerationResult :=
  qr_img ← (if has_gradient then _create_gradient_qr data
            else _create_base_qr data);
  let qr_img := if add_logo config then _add_logo qr_img else qr_img in
  let layout := auto (img_size B qr_img) config in
  final_img ← create_background B config (width layout, height layout)
                 (if has_gradient then "gradient" else "solid");
  final_img ← (if show_qr_border config then _add_emboss_effect final_img
               else Return final_img);
  final_img ← paste B final_img qr_img (qr_position layout);
  final_img ← (if truthy_str (title config)
               then draw_title B config layout final_img
               else Return final_img);
  final_img ← (if truthy_str (subtitle config)
               then draw_subtitle B config layout final_img
               else Return final_img);
  final_img ← (if show_address config
               then draw_address B config layout data final_img
               else Return final_img);
  final_img ← (if truthy_str (watermark config)
               then _add_watermark final_img (watermark config)
               else Return final_img);
  _ ← save B final_img output_path;
  file_size ← getsize B output_path;
  Return {| filepath := output_path;
            size_bytes := file_size;
            size_formatted := format_file_size B file_size;
            dimensions := img_size B final_img;
            address := data;
            style := if has_gradient then "gradient" else "standard" |}.

(** [generate]: the whole body runs inside [try], and
    [except Exception as e] raises [GenerationError] from it.
    [show_info] only prints a line first and is left out. *)
Definition generate (data output_path : string)
  : result GenerationResult :=
  try_except (generate_body data output_path)
    (fun e => Raise (MkExc GenerationError
                       ("Failed to generate QR code: " ++ exc_msg e))).

(** The stages of [generate], in the order of its [try] block, each on
    what the stages before it produced: the QR image, ... *)
Definition qr_stage (data : string) : result Image :=
  if has_gradient then _create_gradient_qr data else _create_base_qr data.

(** ... the logo, which cannot raise: [_add_logo] catches what is raised
    inside it, prints a warning and returns the QR image as it was, ... *)
Definition logo_stage (qr_img : Image) : Image :=
  if add_logo config then _add_logo qr_img else qr_img.

Definition layout_stage (qr_img : Image) : Layout :=
  auto (img_size B qr_img) config.

(** ... the background, ... *)
Definition background_stage (layout : Layout) : result Image :=
  create_background B config (width layout, height layout)
    (if has_gradient then "gradient" else "solid").

(** ... the steps that draw on the final image: the emboss frame, the
    pasted QR image, the title, the subtitle, the address and the
    watermark, ... *)
Definition canvas_stages (data : string) (qr_img : Image) (layout : Layout)
  : list (Image -> result Image) :=
  [ (fun final_img => if show_qr_border config
                      then _add_emboss_effect final_img
                      else Return final_img);
    (fun final_img => paste B final_img qr_img (qr_position layout));
    (fun final_img => if truthy_str (title config)
                      then draw_title B config layout final_img
                      else Return final_img);
    (fun final_img => if truthy_str (subtitle config)
                      then draw_subtitle B config layout final_img
                      else Return final_img);
    (fun final_img => if show_address config
                      then draw_address B config layout data final_img
                      else Return final_img);
    (fun final_img => if truthy_str (watermark config)
                      then _add_watermark final_img (watermark config)
                      else Return final_img) ].

Definition run_stage (stage : Image -> result Image) (final_img : Image)
  : result Image :=
  stage final_img.

(** ... and then [final_img.save] and [os.path.getsize].

    [stage_raises data output_path cause]: in a call of
    [generate data output_path] some stage raises [cause], the stages
    before it having returned. *)
Inductive stage_raises (data output_path : string) (cause : PyExc) : Prop :=
| qr_raises :
    qr_stage data = Raise cause ->
    stage_raises data output_path cause
| background_raises (qr_img : Image) :
    qr_stage data = Return qr_img ->
    background_stage (layout_stage (logo_stage qr_img)) = Raise cause ->
    stage_raises data output_path cause
| canvas_raises (qr_img background img : Image)
    (before after : list (Image -> result Image))
    (stage : Image -> result Image) :
    qr_stage data = Return qr_img ->
    background_stage (layout_stage (logo_stage qr_img)) = Return background ->
    canvas_stages data (logo_stage qr_img)
      (layout_stage (logo_stage qr_img)) = (before ++ stage :: after)%list ->
    for_each before run_stage background = Return img ->
    stage img = Raise cause ->
    stage_raises data output_path cause
| save_raises (qr_img background final_img : Image) :
    qr_stage data = Return qr_img ->
    background_stage (layout_stage (logo_stage qr_img)) = Return background ->
    for_each (canvas_stages data (logo_stage qr_img)
                (layout_stage (logo_stage qr_img)))
             run_stage background = Return final_img ->
    save B final_img output_path = Raise cause ->
    stage_raises data output_path cause
| getsize_raises (qr_img background final_img : Image) :
    qr_stage data = Return qr_img ->
    background_stage (layout_stage (logo_stage qr_img)) = Return background ->
    for_each (canvas_stages data (logo_stage qr_img)
                (layout_stage (logo_stage qr_img)))
             run_stage background = Return final_img ->
    save B final_img output_path = Return tt ->
    getsize B output_path = Raise cause ->
    stage_raises data output_path cause.

(** [os.path.join(output_dir, filename)] on a POSIX system, for a file
    name that does not start with a slash. *)
Fixpoint ends_with_slash (s : string) : bool :=
  match s with
  | EmptyString => false
  | String c EmptyString => Ascii.eqb c (ch "/")
  | String _ s' => ends_with_slash s'
  end.

Definition path_join (output_dir filename : string) : string :=
  if negb (truthy_str output_dir) || ends_with_slash output_dir
  then output_dir ++ filename
  else output_dir ++ "/" ++ filename.

(** What a run of [generate_batch] leaves behind: the [results] list,
    the calls made to the progress callback (index, total, address) and
    the lines printed by the [except] branch, each in order of time. *)
Record BatchRun : Type := MkBatchRun {
  results : list GenerationResult;
  callback_calls : list (nat * nat * string);
  printed : list string
}.

Definition error_line (i : nat) (e : PyExc) : string :=
  "Error generating QR for address " ++ pretty i ++ ": " ++ exc_msg e.

(** The output path of item [i]. *)
Definition item_path (output_dir : string) (i : nat) (addr : string)
  : string :=
  path_join output_dir
    (generate_filename (md5_hexdigest B) addr "batch" (Some i)).

(** One round of the loop of [generate_batch]: the [try] block appends
    the result and then calls the callback, when there is one; an
    exception from [generate] or from the callback is printed, and what
    was appended before it stays. *)
Definition batch_step (output_dir : string) (total : nat)
    (progress_callback : option (nat -> nat -> string -> result unit))
    (run : BatchRun) (item : nat * string) : BatchRun :=
  let '(i, addr) := item in
  match generate addr (item_path output_dir i addr) with
  | Raise e =>
      MkBatchRun (results run) (callback_calls run)
                 (printed run ++ [error_line i e])%list
  | Return r =>
      let results' := (results run ++ [r])%list in
      match progress_callback with
      | None => MkBatchRun results' (callback_calls run) (printed run)
      | Some callback =>
          let calls' := (callback_calls run ++ [(i, total, addr)])%list in
          match callback i total addr with
          | Return _ => MkBatchRun results' calls' (printed run)
          | Raise e =>
              MkBatchRun results' calls' (printed run ++ [error_line i e])%list
          end
      end
  end.

(** [enumerate(addresses, start)] *)
Fixpoint enumerate (start : nat) (addresses : list string)
  : list (nat * string) :=
  match addresses with
  | [] => []
  | a :: rest => (start, a) :: enumerate (S start) rest
  end.

(** [generate_batch]: [os.makedirs] runs before the loop and outside any
    [try]. *)
Definition generate_batch (addresses : list string) (output_dir : string)
    (progress_callback : option (nat -> nat -> string -> result unit))
  : result BatchRun :=
  _ ← makedirs B output_dir;
  let total := length addresses in
  Return (fold_left (batch_step output_dir total progress_callback)
                    (enumerate 1 addresses)
                    (MkBatchRun [] [] [])).

(** Per-item views of a batch, to state what the loop adds up to:
    the result of an item when its generation succeeds, ... *)
Definition item_result (output_dir : string) (item : nat * string)
  : option GenerationResult :=
  match generate (snd item) (item_path output_dir (fst item) (snd item)) with
  | Return r => Some r
  | Raise _ => None
  end.

Definition succeeds (output_dir : string) (item : nat * string) : bool :=
  is_return
    (generate (snd item) (item_path output_dir (fst item) (snd item))).

(** ... and the line printed for it, when [generate] or the callback
    raises. *)
Definition item_line (output_dir : string) (total : nat)
    (progress_callback : option (nat -> nat -> string -> result unit))
    (item : nat * string) : option string :=
  match generate (snd item) (item_path output_dir (fst item) (snd item)) with
  | Raise e => Some (error_line (fst item) e)
  | Return _ =>
      match progress_callback with
      | None => None
      | Some callback =>
          match callback (fst item) total (snd item) with
          | Return _ => None
          | Raise e => Some (error_line (fst item) e)
          end
      end
  end.

(** The callback calls a batch adds up to: one per item that succeeds,
    when there is a callback. *)
Definition calls_made (output_dir : string) (total : nat)
    (progress_callback : option (nat -> nat -> string -> result unit))
    (items : list (nat * string)) : list (nat * nat * string) :=
  match progress_callback with
  | None => []
  | Some _ => map (fun it => (fst it, total, snd it))
                  (List.filter (succeeds output_dir) items)
  end.

(** A module matrix has a dark module in the square the loops scan. *)
Definition has_dark_module (matrix : list (list bool)) : Prop :=
  exists (y x : nat) (row : list bool),
    matrix !! y = Some row /\ row !! x = Some true
    /\ (x < length matrix)%nat.

End WithBackend.

End Generator.

(* ===================================================================== *)
(** ** Stand-ins for the libraries, to run the generator on examples *)
(* ===================================================================== *)

Module Scenario.

Import Styles Generator.
Local Open Scope Z_scope.

(** An image is represented by its pixel size. *)
Definition Img : Type := Z * Z.

(** No QR symbol holds more than 2953 bytes (version 40, level L). *)
Definition qr_capacity : nat := 2953.

Definition qr_check (box : Z) (data : string) : result unit :=
  if box <=? 0 then
    Raise (MkExc (Other "ValueError")
             "Invalid box size (was 0, expected larger than 0)")
  else if (qr_capacity <? String.length data)%nat then
    Raise (MkExc (Other "DataOverflowError") "")
  else Return tt.

(** Modules per side of a symbol of version [v]. *)
Definition modules (v : Z) : Z := 17 + 4 * v.

(** A stand-in module matrix: dark where [x + y] is even, so the corner
    module is dark as in every QR symbol. *)
Definition checker (n : nat) : list (list bool) :=
  map (fun y => map (fun x => Nat.even (x + y)) (seq 0 n)) (seq 0 n).

Definition lib : Backend Img := {|
  img_size := fun img => img;
  qrcode_image := fun v _ box brd data _ _ =>
    _ ← qr_check box data;
    Return ((modules v + 2 * brd) * box, (modules v + 2 * brd) * box);
  qrcode_matrix := fun v _ box _ data =>
    _ ← qr_check box data;
    Return (checker (Z.to_nat (modules v)));
  image_new := fun size _ => Return size;
  logo_overlay := fun _ img => Return img;
  create_background := fun _ size _ => Return size;
  emboss_effect := fun _ img => Return img;
  paste := fun img _ _ => Return img;
  draw_title := fun _ _ img => Return img;
  draw_subtitle := fun _ _ img => Return img;
  draw_address := fun _ _ _ img => Return img;
  watermark_overlay := fun img _ => Return img;
  save := fun _ _ => Return tt;
  getsize := fun _ => Return 20480;
  format_file_size := fun _ => "20.0 KB";
  md5_hexdigest := fun _ => "d41d8cd98f00b204e9800998ecf8427e";
  makedirs := fun _ => Return tt
|}.

(** The same libraries on a file system that cannot be written:
    [os.makedirs] and [Image.save] raise PermissionError. *)
Definition permission_denied (path : string) : PyExc :=
  MkExc (Other "PermissionError")
        ("[Errno 13] Permission denied: '" ++ path ++ "'").

Definition read_only_lib : Backend Img := {|
  img_size := img_size lib;
  qrcode_image := qrcode_image lib;
  qrcode_matrix := qrcode_matrix lib;
  image_new := image_new lib;
  logo_overlay := logo_overlay lib;
  create_background := create_background lib;
  emboss_effect := emboss_effect lib;
  paste := paste lib;
  draw_title := draw_title lib;
  draw_subtitle := draw_subtitle lib;
  draw_address := draw_address lib;
  watermark_overlay := watermark_overlay lib;
  save := fun _ path => Raise (permission_denied path);
  getsize := getsize lib;
  format_file_size := format_file_size lib;
  md5_hexdigest := md5_hexdigest lib;
  makedirs := fun path => Raise (permission_denied path)
|}.

(** The same libraries when the logo file cannot be opened. *)
Definition no_logo_lib : Backend Img := {|
  img_size := img_size lib;
  qrcode_image := qrcode_image lib;
  qrcode_matrix := qrcode_matrix lib;
  image_new := image_new lib;
  logo_overlay := fun _ _ =>
    Raise (MkExc (Other "FileNotFoundError")
             "[Errno 2] No such file or directory: 'logo.png'");
  create_background := create_background lib;
  emboss_effect := emboss_effect lib;
  paste := paste lib;
  draw_title := draw_title lib;
  draw_subtitle := draw_subtitle lib;
  draw_address := draw_address lib;
  watermark_overlay := watermark_overlay lib;
  save := save lib;
  getsize := getsize lib;
  format_file_size := format_file_size lib;
  md5_hexdigest := md5_hexdigest lib;
  makedirs := makedirs lib
|}.

(** A configuration with a logo file. *)
Definition logo_config : QRConfig :=
  MkQRConfig 5 "H" 12 4 "#2E86C1" "white" "CRYPTO WALLET" "" true true
             true (Some "logo.png") 80 "" ∅.

Fixpoint replicate_str (n : nat) (c : ascii) : string :=
  match n with
  | O => EmptyString
  | S n' => String c (replicate_str n' c)
  end.

Definition eth_address : string :=
  "0x742d35Cc6634C0532925a3b844Bc9e90a3b9e0a1".
Definition btc_address : string :=
  "bc1qar0srrr7xfkvy5l643lydnw9re59gtzzwf5mdq".
(** 3000 characters: too long for any QR symbol. *)
Definition oversized : string := replicate_str 3000 (Utils.ch "a").

Definition batch3 : list string := [eth_address; oversized; btc_address].

(** A progress callback that returns normally. *)
Definition quiet_callback : nat -> nat -> string -> result unit :=
  fun _ _ _ => Return tt.

(** A progress callback that raises on every call. *)
Definition failing_callback : nat -> nat -> string -> result unit :=
  fun _ _ _ => Raise (MkExc (Other "RuntimeError") "display closed").

End Scenario.

(* ===================================================================== *)
(** ** generator.py: the address text of [generate] and the emboss frame *)
(* ===================================================================== *)

Module Render.

Import Styles Utils.
Local Open Scope Z_scope.

(** [s[n:]] for [n] not negative *)
Fixpoint drop_str (n : nat) (s : string) : string :=
  match n, s with
  | O, _ => s
  | S n', String _ s' => drop_str n' s'
  | S _, EmptyString => EmptyString
  end.

(** [s[i:j]] for [0 <= i <= j] *)
Definition slice (i j : nat) (s : string) : string :=
  take_str (j - i) (drop_str i s).

(** [s[-n:]] for [n] positive: the last [n] characters, or all of [s] *)
Definition last_chars (n : nat) (s : string) : string :=
  drop_str (String.length s - n) s.

(** [range(start, stop, step)] for a positive [step], as a list *)
Fixpoint range_fuel (fuel start stop step : nat) : list nat :=
  match fuel with
  | O => []
  | S fuel' =>
      if (start <? stop)%nat
      then start :: range_fuel fuel' (start + step) stop step
      else []
  end.

Definition range (start stop step : nat) : list nat :=
  range_fuel stop start stop step.

(** The shortened address: [f"{data[:15]}...{data[-15:]}"] when the
    address is longer than 30 characters. *)
Definition display_addr (data : string) : string :=
  if (30 <? String.length data)%nat
  then take_str 15 data ++ "..." ++ last_chars 15 data
  else data.

(** [chunks = [data[i:i+50] for i in range(0, len(data), 50)]] *)
Definition chunks (data : string) : list string :=
  map (fun i => slice i (i + 50) data) (range 0 (String.length data) 50).

(** The lines the full address is drawn in: the chunks when it is longer
    than 50 characters, else the address itself. *)
Definition full_address_lines (data : string) : list string :=
  if (50 <? String.length data)%nat then chunks data else [data].

(** [enumerate(chunks)] with each row's position
    [(layout.padding, full_addr_y + i * 15)] *)
Fixpoint rows_from (x y : Z) (i : nat) (lines : list string)
  : list ((Z * Z) * string) :=
  match lines with
  | [] => []
  | l :: rest => ((x, y + Z.of_nat i * 15), l) :: rows_from x y (S i) rest
  end.

(** Every text the address block of [generate] draws, with its position:
    the label at [layout.address_position], the shortened address 25 below
    it, the lines of the full address from 30 further down.  ([_load_font]
    always returns a font, so each of the three is drawn.) *)
Definition address_block (layout : Layout) (data : string)
  : list ((Z * Z) * string) :=
  let addr_y := snd (address_position layout) + 25 in
  let full_addr_y := addr_y + 30 in
  (address_position layout, "Wallet Address:")
  :: ((padding layout, addr_y), display_addr data)
  :: rows_from (padding layout) full_addr_y 0 (full_address_lines data).

(** One hexadecimal digit. *)
Definition hex_value (c : ascii) : option Z :=
  let n := nat_of_ascii c in
  if ((48 <=? n) && (n <=? 57))%nat then Some (Z.of_nat n - 48)
  else if ((65 <=? n) && (n <=? 70))%nat then Some (Z.of_nat n - 55)
  else if ((97 <=? n) && (n <=? 102))%nat then Some (Z.of_nat n - 87)
  else None.

(** The white space [int] skips around a number: the white space of C
    (tab to carriage return, and the blank), and, of the other code points
    below 256, the two that Unicode counts as white space (NEL and the
    no-break space), which [int] turns into blanks first.  The separators
    0x1c to 0x1f, which [str.strip] removes, are not skipped. *)
Definition is_int_space (c : ascii) : bool :=
  let n := nat_of_ascii c in
  (((9 <=? n) && (n <=? 13)) || (n =? 32) || (n =? 133) || (n =? 160))%nat.

Fixpoint int_lstrip (s : string) : string :=
  match s with
  | EmptyString => EmptyString
  | String c s' => if is_int_space c then int_lstrip s' else s
  end.

Fixpoint int_rstrip (s : string) : string :=
  match s with
  | EmptyString => EmptyString
  | String c s' =>
      match int_rstrip s' with
      | EmptyString => if is_int_space c then EmptyString
                       else String c EmptyString
      | r => String c r
      end
  end.

(** [int(s, 16)] for a string of at most two characters, which is all that
    a slice [s[i:i+2]] can be; [None] stands for ValueError.  The white
    space that [int] skips around the number is dropped, a sign may come
    first, and what is left must be hexadecimal digits (within two
    characters there is no room for a [0x] prefix with a digit or for an
    underscore between digits). *)
Definition int16 (s : string) : option Z :=
  match int_rstrip (int_lstrip s) with
  | String c EmptyString => hex_value c
  | String c1 (String c2 EmptyString) =>
      if Ascii.eqb c1 (ch "+") then hex_value c2
      else if Ascii.eqb c1 (ch "-") then Z.opp <$> hex_value c2
      else h1 ← hex_value c1; h2 ← hex_value c2; Some (16 * h1 + h2)
  | _ => None
  end.

(** The first lines of [_add_emboss_effect]:
    [r, g, b = [int(border_color[i:i+2], 16) for i in (1, 3, 5)]] and the
    light and dark variants; [None] when one of the conversions raises
    ValueError. *)
Definition emboss_colors (fill_color : string)
  : option ((Z * Z * Z) * (Z * Z * Z)) :=
  r ← int16 (slice 1 3 fill_color);
  g ← int16 (slice 3 5 fill_color);
  b ← int16 (slice 5 7 fill_color);
  Some ((Z.min 255 (r + 40), Z.min 255 (g + 40), Z.min 255 (b + 40)),
        (Z.max 0 (r - 40), Z.max 0 (g - 40), Z.max 0 (b - 40))).

(** Every component of a color lies between [lo] and [hi]. *)
Definition rgb_in (lo hi : Z) (color : Z * Z * Z) : Prop :=
  let '(r, g, b) := color in
  lo <= r <= hi /\ lo <= g <= hi /\ lo <= b <= hi.

(** The [rect] of [_add_emboss_effect] on an image of the given size:
    left, top, right, bottom. *)
Definition emboss_rect (config : QRConfig) (img_size : Z * Z)
  : Z * Z * Z * Z :=
  (border config * box_size config - 15,
   border config * box_size config - 15,
   fst img_size - border config * box_size config + 15,
   snd img_size - border config * box_size config + 15).

(** The frame [rect] goes around the rectangle that starts at [pos] and has
    size [size]. *)
Definition encloses (rect : Z * Z * Z * Z) (pos size : Z * Z) : Prop :=
  let '(x0, y0, x1, y1) := rect in
  x0 <= fst pos /\ y0 <= snd pos
  /\ fst pos + fst size <= x1 /\ snd pos + snd size <= y1.

End Render.

(* ===================================================================== *)
(** ** Notions used to state facts about patterns and file names *)
(* ===================================================================== *)

Module Notions.

Import Re Utils.

(** The characters a pattern can consume. *)
Fixpoint chars_of (r : regex) (c : ascii) : bool :=
  match r with
  | Eps | Eol => false
  | Lit c' => Ascii.eqb c' c
  | Cls ranges => in_class c ranges
  | Seq r1 r2 | Alt r1 r2 => chars_of r1 c || chars_of r2 c
  | Rep r' _ _ => chars_of r' c
  end.

(** Every way through the pattern ends with [$]. *)
Fixpoint eol_last (r : regex) : bool :=
  match r with
  | Eol => true
  | Seq _ r2 => eol_last r2
  | Alt r1 r2 => eol_last r1 && eol_last r2
  | _ => false
  end.

(** The alphabet of the generic pattern: [A-Za-z0-9\-_+=/.] *)
Definition is_generic (c : ascii) : bool :=
  in_class c [rg "A" "Z"; rg "a" "z"; rg "0" "9"; one "-"; one "_";
              one "+"; one "="; one "/"; one "."].

Definition is_digit (c : ascii) : bool :=
  ((48 <=? nat_of_ascii c) && (nat_of_ascii c <=? 57))%nat.

(** The number a string of decimal digits stands for, read from the left
    with [acc] the value so far. *)
Fixpoint digits_value (acc : N) (s : string) : N :=
  match s with
  | EmptyString => acc
  | String c s' => digits_value (10 * acc + (N_of_ascii c - 48))%N s'
  end.

(** The digits a string starts with. *)
Fixpoint leading_digits (s : string) : string :=
  match s with
  | EmptyString => EmptyString
  | String c s' =>
      if is_digit c then String c (leading_digits s') else EmptyString
  end.

(** The index written into a batch file name: the digits after [qr_]. *)
Definition filename_index (filename : string) : nat :=
  N.to_nat (digits_value 0 (leading_digits (Render.drop_str 3 filename))).

(** The continuation [k] accepts a rest of [s] that follows characters of
    the set [cs]. *)
Definition consumed (cs : ascii -> bool) (s : string) (k : string -> bool)
  : Prop :=
  exists p s', s = p ++ s' /\ k s' = true /\ all_chars cs p = true.

Definition starts_with (prefix s : string) : bool :=
  String.eqb (take_str (String.length prefix) s) prefix.

End Notions.

(* ===================================================================== *)
(** ** styles.py: StyleManager *)
(* ===================================================================== *)

Module Manager.

Import Styles.

(** [self.styles]: style name to configuration. *)
Definition preset_names : list string :=
  ["professional"; "minimalist"; "dark"; "gradient"; "business"; "premium"].

(** [_load_default_styles] *)
Definition default_styles : gmap string QRConfig :=
  list_to_map (map (fun name => (name, from_preset name)) preset_names).

(** [get_style]: [self.styles.get(name.lower())] *)
Definition get_style (styles : gmap string QRConfig) (name : string)
  : option QRConfig :=
  styles !! lower name.

(** [add_style]: [self.styles[name.lower()] = config] *)
Definition add_style (styles : gmap string QRConfig) (name : string)
    (config : QRConfig) : gmap string QRConfig :=
  <[lower name := config]> styles.

(** [save_styles]: the document handed to [json.dump], one plain dict per
    style. *)
Definition save_styles (styles : gmap string QRConfig)
  : gmap string (gmap string PyVal) :=
  to_dict <$> styles.

Definition built (o : from_dict_outcome) : option QRConfig :=
  match o with
  | Built c => Some c
  | _ => None
  end.

(** [load_styles] on the document [json.load] gives: every entry goes
    through [QRConfig.from_dict] first, and only when all of them are built
    is [self.styles] updated, new entries replacing old ones of the same
    name.  [None]: some [from_dict] raised, or met a value the typed record
    cannot hold, and the styles are as before. *)
Definition load_styles (styles_data : gmap string (gmap string PyVal))
    (styles : gmap string QRConfig) : option (gmap string QRConfig) :=
  if decide (map_Forall (fun _ d => is_Some (built (from_dict d))) styles_data)
  then Some (omap (fun d => built (from_dict d)) styles_data ∪ styles)
  else None.

End Manager.

(* ===================================================================== *)
(** ** cli.py: what the command line turns into addresses and a style *)
(* ===================================================================== *)

Module Cli.

Import Styles Utils Notions.
Local Open Scope Z_scope.

(** [_load_addresses] on the lines of the file: blank lines and lines
    starting with [#] are dropped, the rest is trimmed, and the addresses
    that do not validate are skipped. *)
Definition _load_addresses (lines : list string) : list string :=
  let addresses :=
    map strip
        (List.filter (fun line => truthy_str (strip line)
                                  && negb (starts_with "#" line)) lines) in
  List.filter (fun addr => fst (validate_wallet_address addr)) addresses.

(** The parsed arguments [_create_qr_config] reads; an option that was not
    given is [None]. *)
Record Args : Type := MkArgs {
  arg_style : string;
  arg_color : string;
  arg_background : string;
  arg_error_correction : string;
  arg_border : Z;
  arg_no_address : bool;
  arg_no_border : bool;
  arg_logo : option string;
  arg_logo_size : Z;
  arg_watermark : option string;
  arg_size : Z;
  arg_title : option string;
  arg_subtitle : option string
}.

(** [size_map.get(self.args.size, (6, 16))] *)
Definition size_map (size : Z) : Z * Z :=
  if size =? 1 then (2, 8) else if size =? 2 then (3, 10)
  else if size =? 3 then (4, 12) else if size =? 4 then (5, 14)
  else if size =? 5 then (6, 16) else if size =? 6 then (7, 18)
  else if size =? 7 then (8, 20) else if size =? 8 then (9, 22)
  else if size =? 9 then (10, 24) else if size =? 10 then (12, 26)
  else (6, 16).

Definition truthy_opt (o : option string) : bool :=
  match o with
  | Some s => truthy_str s
  | None => false
  end.

(** [_create_qr_config].  When [--watermark] is not given the code stores
    [None] in the field; the generator and the layout only test the field
    for truth, and the empty string, false as well, stands for it here. *)
Definition _create_qr_config (args : Args) : QRConfig :=
  let config := from_preset (arg_style args) in
  {| fill_color := arg_color args;
     back_color := arg_background args;
     error_correction := arg_error_correction args;
     border := arg_border args;
     show_address := negb (arg_no_address args);
     show_qr_border := negb (arg_no_border args);
     add_logo := truthy_opt (arg_logo args);
     logo_path := arg_logo args;
     logo_size := arg_logo_size args;
     watermark := default "" (arg_watermark args);
     version := fst (size_map (arg_size args));
     box_size := snd (size_map (arg_size args));
     title := if truthy_opt (arg_title args)
              then default "" (arg_title args) else title config;
     subtitle := if truthy_opt (arg_subtitle args)
                 then default "" (arg_subtitle args) else subtitle config;
     custom_css := if String.eqb (arg_style args) "gradient"
                   then {[ "gradient" := PBool true;
                           "gradient_name" := PStr "sunset" ]}
                   else custom_css config |}.

(** The same arguments with another [--style]. *)
Definition with_style (style : string) (args : Args) : Args :=
  MkArgs style (arg_color args) (arg_background args)
    (arg_error_correction args) (arg_border args) (arg_no_address args)
    (arg_no_border args) (arg_logo args) (arg_logo_size args)
    (arg_watermark args) (arg_size args) (arg_title args)
    (arg_subtitle args).

(** The argument defaults of the parser. *)
Definition default_args (style : string) : Args := {|
  arg_style := style; arg_color := "#2E86C1"; arg_background := "white";
  arg_error_correction := "H"; arg_border := 4; arg_no_address := false;
  arg_no_border := false; arg_logo := None; arg_logo_size := 100;
  arg_watermark := None; arg_size := 5; arg_title := None;
  arg_subtitle := None |}.

End Cli.

(* ===================================================================== *)
(** * Properties *)
(* ===================================================================== *)

(** ** Layout.auto *)

Section LayoutFacts.

Import Styles.
Local Open Scope Z_scope.

Variables (qr_width qr_height : Z) (config : QRConfig).

Lemma auto_width :
  width (auto (qr_width, qr_height) config) = qr_width + 2 * 40.
Proof. unfold auto; simpl. lia. Qed.

Lemma auto_padding : padding (auto (qr_width, qr_height) config) = 40.
Proof. reflexivity. Qed.

(** The height always holds one more 40 than the two paddings: the
    [height_extra] counter starts at 40, not at 0. *)
Lemma auto_height :
  height (auto (qr_width, qr_height) config)
  = qr_height + 2 * 40 + 40 + increments config.
Proof.
  unfold auto, increments; simpl.
  destruct (truthy_str (title config)), (truthy_str (subtitle config)),
           (show_address config), (truthy_str (watermark config)); lia.
Qed.

Lemma auto_qr_position :
  qr_position (auto (qr_width, qr_height) config)
  = (40, if truthy_str (title config) then 100 else 60).
Proof. unfold auto; simpl. destruct (truthy_str (title config)); reflexivity. Qed.

End LayoutFacts.

Lemma increments_enable (e : Styles.Element) (text : string)
    (c : Styles.QRConfig) :
  Styles.enabled e c = false ->
  truthy_str text = true ->
  Styles.increments (Styles.enable e text c)
  = (Styles.increments c + Styles.increment e)%Z.
Proof.
  intros Hoff Htext. unfold Styles.increments.
  destruct e; simpl in *; rewrite ?Hoff, ?Htext; lia.
Qed.

(** C1 (as amended): for every QR pixel size and configuration the layout is
    [qr_width + 2*40] wide and [qr_height + 2*40 + 40 + increments] high,
    the extra 40 being the base value of [height_extra]; with the minimalist
    preset the height is [qr_height + 120]. *)
Theorem C1_auto_dimensions (qr_width qr_height : Z) (config : Styles.QRConfig) :
  Styles.width (Styles.auto (qr_width, qr_height) config)
    = (qr_width + 2 * Styles.padding (Styles.auto (qr_width, qr_height) config))%Z
  /\ Styles.padding (Styles.auto (qr_width, qr_height) config) = 40%Z
  /\ Styles.height (Styles.auto (qr_width, qr_height) config)
     = (qr_height + 2 * 40 + 40 + Styles.increments config)%Z
  /\ Styles.height (Styles.auto (qr_width, qr_height) Styles.preset_minimalist)
     = (qr_height + 2 * 40 + 40)%Z.
Proof.
  rewrite auto_padding, auto_width, !auto_height.
  repeat split; try reflexivity.
  change (Styles.increments Styles.preset_minimalist) with 0%Z. lia.
Qed.

(** C1 fails as stated: a 585 by 585 QR image (what the minimalist preset
    renders for a version 4 symbol) with no text element at all gets a
    canvas 705 high, not 585 + 2*40 = 665. *)
Lemma C1_counterexample :
  Styles.increments Styles.preset_minimalist = 0%Z
  /\ Styles.height (Styles.auto (585, 585)%Z Styles.preset_minimalist) = 705%Z
  /\ Styles.height (Styles.auto (585, 585)%Z Styles.preset_minimalist)
     <> (585 + 2 * 40 + Styles.increments Styles.preset_minimalist)%Z.
Proof. repeat split. vm_compute. discriminate. Qed.

(** C7: switching on one more optional text element (title, subtitle,
    address block or watermark) in a configuration that has it off adds
    exactly that element's increment (60, 30, 80, 30) to the height, which
    therefore grows strictly, and leaves the width as it is. *)
Theorem C7_auto_enable_element (qr_size : Z * Z) (config : Styles.QRConfig)
    (e : Styles.Element) (text : string)
    (Hoff : Styles.enabled e config = false)
    (Htext : truthy_str text = true) :
  Styles.height (Styles.auto qr_size (Styles.enable e text config))
    = (Styles.height (Styles.auto qr_size config) + Styles.increment e)%Z
  /\ (Styles.height (Styles.auto qr_size config)
      < Styles.height (Styles.auto qr_size (Styles.enable e text config)))%Z
  /\ Styles.width (Styles.auto qr_size (Styles.enable e text config))
     = Styles.width (Styles.auto qr_size config).
Proof.
  destruct qr_size as [w h].
  rewrite !auto_height, !auto_width, (increments_enable e text config Hoff Htext).
  destruct e; simpl; lia.
Qed.

Lemma C7_auto_enable_element_witness :
  Styles.enabled Styles.ElWatermark Styles.preset_dark = false
  /\ truthy_str "VERIFIED" = true
  /\ Styles.height (Styles.auto (450, 450)%Z
       (Styles.enable Styles.ElWatermark "VERIFIED" Styles.preset_dark))
     = (Styles.height (Styles.auto (450, 450)%Z Styles.preset_dark) + 30)%Z.
Proof.
  split; [reflexivity | split; [reflexivity |]].
  apply (C7_auto_enable_element (450, 450)%Z Styles.preset_dark
           Styles.ElWatermark "VERIFIED"); reflexivity.
Defined.

(** C9 (as amended): for a QR image at least 60 pixels wide and of
    non-negative height, every position of the layout (QR block, title,
    subtitle, address, logo, watermark) lies within
    [0, width) x [0, height). *)
Theorem C9_auto_positions_within (qr_width qr_height : Z)
    (config : Styles.QRConfig)
    (Hw : (60 <= qr_width)%Z) (Hh : (0 <= qr_height)%Z) :
  Forall (Styles.within
            (Styles.width (Styles.auto (qr_width, qr_height) config))
            (Styles.height (Styles.auto (qr_width, qr_height) config)))
         (Styles.positions (Styles.auto (qr_width, qr_height) config)).
Proof.
  unfold Styles.positions, Styles.within, Styles.auto; simpl.
  destruct (truthy_str (Styles.title config)),
           (truthy_str (Styles.subtitle config)),
           (Styles.show_address config),
           (truthy_str (Styles.watermark config));
    repeat constructor; simpl; lia.
Qed.

(** The bound on the width cannot be lowered: the watermark position starts
    60 pixels left of the right edge of the QR block. *)
Lemma auto_positions_need_width (qr_width qr_height : Z)
    (config : Styles.QRConfig) :
  (qr_width < 60)%Z ->
  ~ Forall (Styles.within
              (Styles.width (Styles.auto (qr_width, qr_height) config))
              (Styles.height (Styles.auto (qr_width, qr_height) config)))
           (Styles.positions (Styles.auto (qr_width, qr_height) config)).
Proof.
  intros Hw H. rewrite Forall_forall in H.
  specialize (H (Styles.watermark_position
                   (Styles.auto (qr_width, qr_height) config))).
  destruct H as [[Hx _] _].
  - unfold Styles.positions.
    do 5 apply list_elem_of_further. apply list_elem_of_here.
  - unfold Styles.auto in Hx. simpl in Hx. lia.
Qed.

Lemma C9_auto_positions_within_witness :
  (60 <= 585)%Z /\ (0 <= 585)%Z
  /\ Forall (Styles.within
               (Styles.width (Styles.auto (585, 585)%Z Styles.preset_premium))
               (Styles.height (Styles.auto (585, 585)%Z Styles.preset_premium)))
            (Styles.positions (Styles.auto (585, 585)%Z Styles.preset_premium)).
Proof.
  split; [lia | split; [lia |]].
  apply (C9_auto_positions_within 585 585 Styles.preset_premium); lia.
Defined.

(** C9 fails as stated: at the degenerate size (0, 0) the logo position is
    (-10, 30) and the watermark position starts at x = -60, both left of
    the canvas. *)
Lemma C9_counterexample :
  Styles.logo_position (Styles.auto (0, 0)%Z Styles.default_config)
    = (-10, 30)%Z
  /\ ~ Forall (Styles.within
                 (Styles.width (Styles.auto (0, 0)%Z Styles.default_config))
                 (Styles.height (Styles.auto (0, 0)%Z Styles.default_config)))
              (Styles.positions (Styles.auto (0, 0)%Z Styles.default_config)).
Proof.
  split; [reflexivity |].
  intros H. rewrite Forall_forall in H.
  specialize (H (-10, 30)%Z).
  assert (Hin : (-10, 30)%Z ∈ Styles.positions
                  (Styles.auto (0, 0)%Z Styles.default_config)).
  { vm_compute. do 4 apply list_elem_of_further. apply list_elem_of_here. }
  destruct (H Hin) as [[Hneg _] _]. simpl in Hneg. lia.
Qed.

(** ** QRConfig.to_dict / QRConfig.from_dict *)

Lemma to_dict_no_unexpected_keyword (c : Styles.QRConfig) :
  Styles.unexpected_keyword (Styles.to_dict c) = None.
Proof. destruct c as [? ? ? ? ? ? ? ? ? ? ? [p|] ? ? ?]; vm_compute; reflexivity. Qed.

(** C5: for every configuration, [from_dict (to_dict config)] builds a
    configuration equal to [config] in every field, the [custom_css] map
    included. *)
Theorem C5_from_dict_to_dict (config : Styles.QRConfig) :
  Styles.from_dict (Styles.to_dict config) = Styles.Built config.
Proof.
  unfold Styles.from_dict. rewrite to_dict_no_unexpected_keyword.
  destruct config as [? ? ? ? ? ? ? ? ? ? ? [p|] ? ? ?]; vm_compute; reflexivity.
Qed.

Lemma from_dict_to_dict_presets :
  Forall (fun p => Styles.from_dict (Styles.to_dict (snd p)) = Styles.Built (snd p))
         Styles.presets.
Proof. repeat constructor; vm_compute; reflexivity. Qed.

Example from_dict_defaults :
  Styles.from_dict {[ "title" := PStr "CUSTOM WALLET" ]}
  = Styles.Built (Styles.set_title "CUSTOM WALLET" Styles.default_config).
Proof. vm_compute. reflexivity. Qed.

Example from_dict_unexpected :
  Styles.from_dict {[ "colour" := PStr "red" ]} = Styles.UnexpectedKeyword "colour".
Proof. vm_compute. reflexivity. Qed.

Example from_preset_case : Styles.from_preset "Minimalist" = Styles.preset_minimalist.
Proof. vm_compute. reflexivity. Qed.

Example from_preset_unknown : Styles.from_preset "neon" = Styles.default_config.
Proof. vm_compute. reflexivity. Qed.

(** ** The matcher *)

Section Matcher.

Import Re.

Lemma m_str (p s : string) (k : string -> bool) :
  m (str p) (p ++ s) k = k s.
Proof.
  induction p as [|c p IH]; [reflexivity |].
  change (String c p ++ s) with (String c (p ++ s)). simpl.
  rewrite Ascii.eqb_refl. apply IH.
Qed.

Lemma rep_m_0 mr lo s k : rep_m mr lo 0 s k = (lo =? 0)%nat && k s.
Proof. reflexivity. Qed.

Lemma rep_m_S mr lo n s k :
  rep_m mr lo (S n) s k
  = mr s (fun s' => rep_m mr (Nat.pred lo) n s' k) || ((lo =? 0)%nat && k s).
Proof. reflexivity. Qed.

(** A run of characters of the set is accepted by a repetition of the set
    whose bounds allow its length. *)
Lemma rep_class_run (ranges : list (ascii * ascii)) (k : string -> bool)
    (t : string) (Hk : k t = true) :
  forall (s : string) (lo n : nat),
    Utils.all_chars (fun c => in_class c ranges) s = true ->
    (lo <= String.length s)%nat -> (String.length s <= n)%nat ->
    rep_m (m (Cls ranges)) lo n (s ++ t) k = true.
Proof.
  induction s as [|c s IH]; intros lo n Hall Hlo Hn.
  - change ("" ++ t) with t. simpl in Hlo.
    assert (lo = 0%nat) as -> by lia.
    destruct n; rewrite ?rep_m_0, ?rep_m_S, Hk;
      [reflexivity | apply orb_true_r].
  - change (String c s ++ t) with (String c (s ++ t)).
    simpl in Hall, Hlo, Hn.
    apply andb_true_iff in Hall as [Hc Hall].
    destruct n as [|n]; [lia |]. rewrite rep_m_S.
    change (m (Cls ranges) (String c (s ++ t))
              (fun s' => rep_m (m (Cls ranges)) (Nat.pred lo) n s' k))
      with (in_class c ranges
            && rep_m (m (Cls ranges)) (Nat.pred lo) n (s ++ t) k).
    rewrite Hc, IH; [reflexivity | assumption | lia | lia].
Qed.

(** Whatever rest the matcher hands on is shorter than the subject by at
    least [min_len]. *)
Lemma rep_m_consumes (mr : string -> (string -> bool) -> bool) (d : nat)
    (Hmr : forall s k, mr s k = true ->
             exists s', k s' = true
               /\ (d + String.length s' <= String.length s)%nat) :
  forall (n lo : nat) (s : string) (k : string -> bool),
    rep_m mr lo n s k = true ->
    exists s', k s' = true
      /\ (lo * d + String.length s' <= String.length s)%nat.
Proof.
  induction n as [|n IH]; intros lo s k H.
  - rewrite rep_m_0 in H. apply andb_true_iff in H as [Hlo Hk].
    apply Nat.eqb_eq in Hlo. subst lo. exists s. split; [assumption | lia].
  - rewrite rep_m_S in H. apply orb_true_iff in H as [H | H].
    + apply Hmr in H as (s1 & H1 & Hlen1).
      apply IH in H1 as (s2 & H2 & Hlen2).
      exists s2. split; [assumption |].
      destruct lo as [|lo]; simpl in *; lia.
    + apply andb_true_iff in H as [Hlo Hk].
      apply Nat.eqb_eq in Hlo. subst lo. exists s. split; [assumption | lia].
Qed.

Lemma m_consumes (r : regex) :
  forall (s : string) (k : string -> bool),
    m r s k = true ->
    exists s', k s' = true
      /\ (min_len r + String.length s' <= String.length s)%nat.
Proof.
  induction r as [| c | ranges | r1 IH1 r2 IH2 | r1 IH1 r2 IH2
                  | r IH lo hi | ]; intros s k H; simpl in H.
  - exists s. split; [assumption | simpl; lia].
  - destruct s as [|c' s]; [discriminate |].
    apply andb_true_iff in H as [_ Hk].
    exists s. split; [assumption | simpl; lia].
  - destruct s as [|c' s]; [discriminate |].
    apply andb_true_iff in H as [_ Hk].
    exists s. split; [assumption | simpl; lia].
  - apply IH1 in H as (s1 & H1 & Hlen1).
    apply IH2 in H1 as (s2 & H2 & Hlen2).
    exists s2. split; [assumption | simpl; lia].
  - apply orb_true_iff in H as [H | H].
    + apply IH1 in H as (s1 & H1 & Hlen1).
      exists s1. split; [assumption | simpl; lia].
    + apply IH2 in H as (s1 & H1 & Hlen1).
      exists s1. split; [assumption | simpl; lia].
  - apply (rep_m_consumes (m r) (min_len r) IH) in H as (s1 & H1 & Hlen1).
    exists s1. split; [assumption | simpl; lia].
  - apply andb_true_iff in H as [_ Hk].
    exists s. split; [assumption | simpl; lia].
Qed.

(** A subject shorter than the least match length is not matched. *)
Lemma re_match_too_short (pattern : regex) (s : string) :
  (String.length s < min_len pattern)%nat -> re_match pattern s = false.
Proof.
  intros Hlen. unfold re_match.
  destruct (m pattern s (fun _ => true)) eqn:E; [| reflexivity].
  apply m_consumes in E as (s' & _ & Hle). lia.
Qed.

End Matcher.

(** ** validate_wallet_address *)

Section Validate.

Import Re Utils.

Lemma all_chars_impl (p q : ascii -> bool) (s : string) :
  (forall c, p c = true -> q c = true) ->
  all_chars p s = true -> all_chars q s = true.
Proof.
  intros Hpq. induction s as [|c s IH]; simpl; [reflexivity |].
  intros H. apply andb_true_iff in H as [Hc Hs].
  rewrite (Hpq c Hc), (IH Hs). reflexivity.
Qed.

Lemma length_append (s t : string) :
  String.length (s ++ t) = (String.length s + String.length t)%nat.
Proof.
  induction s as [|c s IH]; [reflexivity |].
  change (String c s ++ t) with (String c (s ++ t)). simpl. now rewrite IH.
Qed.

Lemma append_empty_r (s : string) : s ++ "" = s.
Proof.
  induction s as [|c s IH]; [reflexivity |].
  change (String c s ++ "") with (String c (s ++ "")). now rewrite IH.
Qed.

Ltac by_cases_on_char c :=
  destruct c as [[|] [|] [|] [|] [|] [|] [|] [|]];
  vm_compute; intros; congruence.

Lemma hex_in_class (c : ascii) :
  is_hex_digit c = true ->
  in_class c [rg "a" "f"; rg "A" "F"; rg "0" "9"] = true.
Proof. by_cases_on_char c. Qed.

Lemma hex_not_space (c : ascii) :
  is_hex_digit c = true -> negb (is_space c) = true.
Proof. by_cases_on_char c. Qed.

Lemma alnum_in_base64_class (c : ascii) :
  is_alnum c = true ->
  in_class c [rg "A" "Z"; rg "a" "z"; rg "0" "9"; one "+"; one "/"] = true.
Proof. by_cases_on_char c. Qed.

Lemma alnum_not_space (c : ascii) :
  is_alnum c = true -> negb (is_space c) = true.
Proof. by_cases_on_char c. Qed.

Lemma rstrip_id (s : string) :
  all_chars (fun c => negb (is_space c)) s = true -> rstrip s = s.
Proof.
  induction s as [|c s IH]; simpl; [reflexivity |].
  intros H. apply andb_true_iff in H as [Hc Hs].
  rewrite (IH Hs). apply negb_true_iff in Hc. rewrite Hc.
  destruct s; reflexivity.
Qed.

Lemma rstrip_trailing_space (s : string) :
  all_chars (fun c => negb (is_space c)) s = true -> rstrip (s ++ " ") = s.
Proof.
  induction s as [|c s IH]; [reflexivity |].
  change (String c s ++ " ") with (String c (s ++ " ")). simpl.
  intros H. apply andb_true_iff in H as [Hc Hs].
  rewrite (IH Hs). apply negb_true_iff in Hc. rewrite Hc.
  destruct s; reflexivity.
Qed.

Lemma lstrip_id (c : ascii) (s : string) :
  negb (is_space c) = true -> lstrip (String c s) = String c s.
Proof. intros H. apply negb_true_iff in H. simpl. now rewrite H. Qed.

(** The bitcoin pattern needs [b], [1] or [3] in front. *)
Lemma bitcoin_rejects_0 (s : string) :
  re_match (Seq (Alt (str "bc1") (Cls [one "1"; one "3"]))
              (Seq (Rep (Cls [rg "a" "z"; rg "A" "H"; rg "J" "N";
                              rg "P" "Z"; rg "0" "9"]) 25 (Some 39)) Eol))
           (String "0" s) = false.
Proof. reflexivity. Qed.

Lemma ethereum_accepts (h : string) :
  String.length h = 40%nat ->
  all_chars is_hex_digit h = true ->
  re_match (Seq (str "0x")
              (Seq (Rep (Cls [rg "a" "f"; rg "A" "F"; rg "0" "9"])
                      40 (Some 40)) Eol))
           ("0x" ++ h) = true.
Proof.
  intros Hlen Hhex. unfold re_match.
  change (m (Seq (str "0x") ?r) ?s ?k) with (m (str "0x") s (fun s' => m r s' k)).
  rewrite m_str.
  change (m (Seq (Rep ?c 40 (Some 40)) Eol) h ?k)
    with (rep_m (m c) 40 40 h (fun s' => m Eol s' k)).
  rewrite <- (append_empty_r h).
  apply rep_class_run; [reflexivity | | lia | lia].
  revert Hhex. apply all_chars_impl, hex_in_class.
Qed.

End Validate.

(** C6: every string made of "0x" and exactly 40 hexadecimal digits is
    classified as (true, "ethereum"): the bitcoin pattern, tried first,
    does not match it. *)
Theorem C6_ethereum_shape (h : string)
    (Hlen : String.length h = 40%nat)
    (Hhex : Utils.all_chars Utils.is_hex_digit h = true) :
  Utils.validate_wallet_address ("0x" ++ h) = (true, "ethereum").
Proof.
  unfold Utils.validate_wallet_address.
  assert (Hstrip : Utils.strip ("0x" ++ h) = "0x" ++ h).
  { unfold Utils.strip.
    change ("0x" ++ h) with (String "0" (String "x" h)).
    rewrite lstrip_id by reflexivity.
    apply rstrip_id. simpl.
    revert Hhex. apply all_chars_impl, hex_not_space. }
  rewrite Hstrip, length_append, Hlen.
  change (negb (truthy_str ("0x" ++ h)) || (String.length "0x" + 40 <? 10)%nat)
    with false.
  cbv iota. unfold Utils.patterns, Utils.first_match.
  change ("0x" ++ h) with (String "0" (String "x" h)) at 1.
  rewrite bitcoin_rejects_0.
  rewrite (ethereum_accepts h Hlen Hhex). reflexivity.
Qed.

Lemma C6_ethereum_shape_witness :
  String.length "742d35Cc6634C0532925a3b844Bc9e90a3b9e0a1" = 40%nat
  /\ Utils.validate_wallet_address "0x742d35Cc6634C0532925a3b844Bc9e90a3b9e0a1"
     = (true, "ethereum").
Proof.
  split; [reflexivity |].
  apply (C6_ethereum_shape "742d35Cc6634C0532925a3b844Bc9e90a3b9e0a1");
    reflexivity.
Defined.

Lemma short_alnum_is_base64 (s : string) :
  String.length s = 9%nat ->
  Utils.all_chars Utils.is_alnum s = true ->
  Utils.first_match Utils.patterns s = Some "base64".
Proof.
  intros Hlen Halnum. unfold Utils.patterns, Utils.first_match.
  rewrite !re_match_too_short by (rewrite Hlen; vm_compute; lia).
  unfold Re.re_match.
  change (Re.m (Re.Seq (Re.Rep ?c 1 None) ?r) s ?k)
    with (Re.rep_m (Re.m c) 1 (1 + String.length s) s (fun s' => Re.m r s' k)).
  rewrite <- (append_empty_r s) at 2.
  rewrite rep_class_run; [reflexivity | reflexivity | | lia | lia].
  revert Halnum. apply all_chars_impl, alnum_in_base64_class.
Qed.

(** Nine alphanumeric characters followed by a space have raw length 10
    and trimmed length 9, and are classified as valid, of family "base64":
    the base64 pattern is tried before the generic one. *)
Lemma nine_alnum_and_space_is_base64 (s : string)
    (Hlen : String.length s = 9%nat)
    (Halnum : Utils.all_chars Utils.is_alnum s = true) :
  (10 <= String.length (s ++ " "))%nat
  /\ (String.length (Utils.strip (s ++ " ")) < 10)%nat
  /\ Utils.validate_wallet_address (s ++ " ") = (true, "base64").
Proof.
  assert (Hstrip : Utils.strip (s ++ " ") = s).
  { unfold Utils.strip.
    destruct s as [|c s]; [discriminate |].
    simpl in Halnum. apply andb_true_iff in Halnum as [Hc Hs].
    change (String c s ++ " ") with (String c (s ++ " ")).
    rewrite lstrip_id by (apply alnum_not_space, Hc).
    change (String c (s ++ " ")) with (String c s ++ " ").
    apply rstrip_trailing_space. simpl.
    rewrite (alnum_not_space c Hc). simpl.
    revert Hs. apply all_chars_impl, alnum_not_space. }
  rewrite Hstrip, length_append, Hlen.
  split; [simpl; lia | split; [lia |]].
  unfold Utils.validate_wallet_address.
  rewrite Hstrip, length_append, Hlen.
  destruct s as [|c s]; [discriminate |].
  change (negb (truthy_str (String c s ++ " "))
          || (9 + String.length " " <? 10)%nat) with false.
  cbv iota. rewrite (short_alnum_is_base64 _ Hlen Halnum). reflexivity.
Qed.

Example nine_alnum_and_space_example :
  String.length "abcdefghi " = 10%nat
  /\ String.length (Utils.strip "abcdefghi ") = 9%nat
  /\ Utils.validate_wallet_address "abcdefghi " = (true, "base64").
Proof.
  destruct (nine_alnum_and_space_is_base64 "abcdefghi" eq_refl eq_refl)
    as (_ & _ & H).
  split; [reflexivity | split; [reflexivity | exact H]].
Qed.

(** C10: the 10-character minimum of [validate_wallet_address] is tested
    on the raw input, before trimming.  Every input of raw length below 10
    is (false, "invalid"); and there is an input of raw length at least 10
    whose trimmed form is shorter than 10 characters and which is valid, of
    family "generic", rather than (false, "invalid"): nine characters, one
    of them a hyphen, followed by a space. *)
Theorem C10_min_length_before_trimming :
  (forall address : string,
     (String.length address < 10)%nat ->
     Utils.validate_wallet_address address = (false, "invalid"))
  /\ exists address : string,
       (10 <= String.length address)%nat
       /\ (String.length (Utils.strip address) < 10)%nat
       /\ Utils.validate_wallet_address address = (true, "generic")
       /\ Utils.validate_wallet_address address <> (false, "invalid").
Proof.
  split.
  - intros address Hlen. unfold Utils.validate_wallet_address.
    apply Nat.ltb_lt in Hlen. rewrite Hlen, orb_true_r. reflexivity.
  - exists "abc-defgh ".
    split; [vm_compute; lia |]. split; [vm_compute; lia |].
    split; [vm_compute; reflexivity | vm_compute; discriminate].
Qed.

(** The family is "generic" for a short trimmed form only when it holds a
    character outside the base64 alphabet. *)
Example validate_short_generic :
  Utils.validate_wallet_address "abc-defgh " = (true, "generic").
Proof. vm_compute. reflexivity. Qed.

Example validate_short_raw :
  Utils.validate_wallet_address "abcdefghi" = (false, "invalid").
Proof. vm_compute. reflexivity. Qed.

(** The cases of [test_address_validation] in tests/test_generator.py. *)
Example validate_test_ethereum :
  Utils.validate_wallet_address "0x1234567890abcdef1234567890abcdef12345678"
  = (true, "ethereum").
Proof. vm_compute. reflexivity. Qed.

Example validate_test_bitcoin :
  Utils.validate_wallet_address "bc1qar0srrr7xfkvy5l643lydnw9re59gtzzwf5mdq"
  = (true, "bitcoin").
Proof. vm_compute. reflexivity. Qed.

Example validate_test_litecoin :
  Utils.validate_wallet_address "Lc7g9hUJ8GJgUPUg7nz9JN6bgh8J7hK9t8"
  = (true, "litecoin").
Proof. vm_compute. reflexivity. Qed.

Example validate_test_ton :
  Utils.validate_wallet_address
    "UQDe1kBdULQE3RBtE24jIZYDD7nPov5S-xM-PA3dCzGXHc7X"
  = (true, "generic").
Proof. vm_compute. reflexivity. Qed.

Example validate_test_invalid :
  map Utils.validate_wallet_address
      [""; "short"; "address with spaces"; "0xinvalid"]
  = [(false, "invalid"); (false, "invalid"); (false, "unknown");
     (false, "invalid")].
Proof. vm_compute. reflexivity. Qed.

Example generate_filename_batch :
  Utils.generate_filename (fun _ => "d41d8cd98f00b204e9800998ecf8427e")
    "" "batch" (Some 7%nat)
  = "qr_007_batch_d41d8cd9.png".
Proof. vm_compute. reflexivity. Qed.

(** ** QRGenerator *)

Section GeneratorFacts.

Import Styles Generator.

Context {Image : Type} (B : Backend Image) (config : QRConfig).

Lemma assoc_get_Forall {A} (P : A -> Prop) (l : list (string * A)) k v :
  Forall (fun p => P (snd p)) l -> assoc_get k l = Some v -> P v.
Proof.
  induction 1 as [|[k' v'] l Hp _ IH]; simpl; [discriminate |].
  destruct (String.eqb k' k); [| exact IH].
  intros [= <-]. exact Hp.
Qed.

(** Every palette has three colors. *)
Lemma gradient_colors_length (colors : list Color) :
  gradient_colors config = Return colors -> length colors = 3%nat.
Proof.
  unfold gradient_colors.
  destruct (custom_css config !! "gradient_name") as [[| | |name| |]|];
    try discriminate; try (intros [= <-]; reflexivity).
  destruct (assoc_get name gradients) as [named|] eqn:E;
    intros [= <-]; [| reflexivity].
  revert E. apply (assoc_get_Forall (fun c => length c = 3%nat)).
  repeat constructor.
Qed.

(** At a dark module the loop body raises NameError, whatever the image. *)
Lemma gradient_module_dark (matrix : list (list bool))
    (colors : list Color) (y x : nat) (row : list bool) (img : Image) :
  length colors = 3%nat ->
  matrix !! y = Some row -> row !! x = Some true ->
  gradient_module config matrix colors y x img
  = Raise (name_error "self_config").
Proof.
  intros Hlen Hy Hx. unfold gradient_module, index.
  rewrite Hy. simpl. rewrite Hx. simpl.
  destruct (colors !! ((x + y) mod length colors)%nat)
    as [color|] eqn:E; [reflexivity |].
  apply lookup_ge_None in E. rewrite Hlen in E.
  pose proof (Nat.mod_upper_bound (x + y) 3). lia.
Qed.

(** A loop whose body raises at some element raises. *)
Lemma for_each_raises {S X} (body : X -> S -> result S) (x0 : X) :
  (forall s, is_return (body x0 s) = false) ->
  forall (xs : list X) (s : S),
    x0 ∈ xs -> is_return (for_each xs body s) = false.
Proof.
  intros Hx0. induction xs as [|x xs IH]; intros s Hin.
  - inversion Hin.
  - simpl. destruct (body x s) as [s'|e] eqn:E; [| reflexivity].
    simpl. apply elem_of_cons in Hin as [-> | Hin].
    + specialize (Hx0 s). rewrite E in Hx0. discriminate.
    + apply IH, Hin.
Qed.

Lemma gradient_loops_raise (matrix : list (list bool))
    (colors : list Color) (img : Image) :
  length colors = 3%nat ->
  has_dark_module matrix ->
  is_return
    (for_each (seq 0 (length matrix)) (fun y img =>
       for_each (seq 0 (length matrix)) (fun x img =>
         gradient_module config matrix colors y x img) img)
       img) = false.
Proof.
  intros Hlen (y & x & row & Hy & Hx & Hlt).
  apply (for_each_raises _ y).
  - intros img'. apply (for_each_raises _ x).
    + intros img''.
      now rewrite (gradient_module_dark _ _ _ _ _ _ Hlen Hy Hx).
    + apply elem_of_seq. lia.
  - apply elem_of_seq. apply lookup_lt_Some in Hy. lia.
Qed.

(** C3 (what the code does instead): whenever the QR matrix has a dark
    module, as every QR symbol has, [_create_gradient_qr] draws nothing
    and raises [GenerationError]: the box of the first dark module reads
    the unbound name [self_config]. *)
Theorem C3_gradient_qr_raises (data : string)
    (Hdark : forall matrix,
       qrcode_matrix B (version config) ERROR_CORRECT_H (box_size config)
         (border config) data = Return matrix ->
       has_dark_module matrix) :
  exists msg,
    _create_gradient_qr B config data = Raise (MkExc GenerationError msg).
Proof.
  unfold _create_gradient_qr.
  destruct (qrcode_matrix B (version config) ERROR_CORRECT_H
              (box_size config) (border config) data) as [matrix|e] eqn:Em;
    simpl; [| eauto].
  specialize (Hdark matrix eq_refl).
  destruct (image_new B _ (back_color config)) as [img|e]; simpl; [| eauto].
  destruct (gradient_colors config) as [colors|e] eqn:Ec; simpl; [| eauto].
  pose proof (gradient_loops_raise matrix colors img
                (gradient_colors_length colors Ec) Hdark) as Hloop.
  destruct (for_each _ _ img) as [img'|e]; [discriminate |].
  simpl. eauto.
Qed.

(** [generate] either returns the result of its body or raises
    [GenerationError] with the message of what the body raised. *)
Lemma generate_wraps_body (data output_path : string) :
  match generate B config data output_path with
  | Return r => generate_body B config data output_path = Return r
  | Raise e =>
      exc_cls e = GenerationError
      /\ exists cause,
           generate_body B config data output_path = Raise cause
           /\ exc_msg e = "Failed to generate QR code: " ++ exc_msg cause
  end.
Proof.
  unfold generate, try_except.
  destruct (generate_body B config data output_path) as [r|cause].
  - reflexivity.
  - split; [reflexivity |]. exists cause. split; reflexivity.
Qed.

(** A loop raises what its body raises at the first element where it
    raises, and raises only so. *)
Lemma for_each_raise_at {S X} (body : X -> S -> result S)
    (before after : list X) (x : X) (cause : PyExc) :
  forall s s' : S,
    for_each before body s = Return s' ->
    body x s' = Raise cause ->
    for_each (before ++ x :: after) body s = Raise cause.
Proof.
  induction before as [|y before IH]; intros s s' Hbefore Hx.
  - injection Hbefore as ->. simpl. now rewrite Hx.
  - simpl in *. destruct (body y s) as [s1|e]; simpl in *;
      [now apply (IH s1 s') | discriminate].
Qed.

Lemma for_each_raise_inv {S X} (body : X -> S -> result S) (cause : PyExc) :
  forall (xs : list X) (s : S),
    for_each xs body s = Raise cause ->
    exists before x after s',
      xs = (before ++ x :: after)%list
      /\ for_each before body s = Return s'
      /\ body x s' = Raise cause.
Proof.
  induction xs as [|y xs IH]; intros s H; [discriminate |].
  simpl in H. destruct (body y s) as [s1|e] eqn:E; simpl in H.
  - destruct (IH s1 H) as (before & x & after & s' & -> & Hbefore & Hx).
    exists (y :: before), x, after, s'.
    split; [reflexivity |]. split; [| exact Hx].
    simpl. rewrite E. exact Hbefore.
  - injection H as ->. exists [], y, xs, s. auto.
Qed.

(** The [try] block of [generate] is its stages run in order. *)
Lemma generate_body_stages (data output_path : string) :
  generate_body B config data output_path
  = (qr_img ← qr_stage B config data;
     background ← background_stage B config
                     (layout_stage B config (logo_stage B config qr_img));
     final_img ← for_each
                    (canvas_stages B config data (logo_stage B config qr_img)
                       (layout_stage B config (logo_stage B config qr_img)))
                    run_stage background;
     _ ← save B final_img output_path;
     file_size ← getsize B output_path;
     Return {| filepath := output_path;
               size_bytes := file_size;
               size_formatted := format_file_size B file_size;
               dimensions := img_size B final_img;
               address := data;
               style := if has_gradient config then "gradient"
                        else "standard" |}).
Proof.
  unfold generate_body, qr_stage, background_stage, layout_stage, logo_stage,
    canvas_stages, run_stage.
  cbn [for_each].
  repeat match goal with
         | |- context [mbind _ ?m] =>
             destruct m as [?|?]; simpl; try reflexivity
         end.
Qed.

(** C4: whenever a stage of [generate] raises, the stages before it
    having returned, [generate] raises [GenerationError] with the message
    "Failed to generate QR code: " followed by the message of what the
    stage raised; and whatever [generate] raises is a [GenerationError]
    with the message of what one of its stages raised: no exception of
    another class leaves [generate]. *)
Theorem C4_failing_stage_raises_GenerationError
    (data output_path : string) :
  (forall cause : PyExc,
     stage_raises B config data output_path cause ->
     generate B config data output_path
     = Raise (MkExc GenerationError
                ("Failed to generate QR code: " ++ exc_msg cause)))
  /\ (forall e : PyExc,
        generate B config data output_path = Raise e ->
        exc_cls e = GenerationError
        /\ exists cause : PyExc,
             stage_raises B config data output_path cause
             /\ exc_msg e = "Failed to generate QR code: " ++ exc_msg cause).
Proof.
  split.
  - intros cause H. unfold generate. rewrite generate_body_stages.
    destruct H as [Hq | q Hq Hb | q b img before after stage Hq Hb Hs Hbefore Hst
                   | q b img Hq Hb Hc Hsave | q b img Hq Hb Hc Hsave Hsize];
      rewrite Hq; cbn [mbind result_bind bind try_except];
      try reflexivity;
      rewrite Hb; cbn [mbind result_bind bind try_except];
      try reflexivity.
    + rewrite Hs, (for_each_raise_at _ _ _ _ _ _ _ Hbefore Hst). reflexivity.
    + rewrite Hc. cbn [mbind result_bind bind]. rewrite Hsave. reflexivity.
    + rewrite Hc. cbn [mbind result_bind bind]. rewrite Hsave.
      cbn [mbind result_bind bind]. rewrite Hsize. reflexivity.
  - intros e H. unfold generate in H. rewrite generate_body_stages in H.
    destruct (qr_stage B config data) as [q|c] eqn:Hq;
      cbn [mbind result_bind bind try_except] in H.
    2: { injection H as <-. split; [reflexivity |].
         exists c. split; [now apply qr_raises | reflexivity]. }
    destruct (background_stage B config _) as [b|c] eqn:Hb;
      cbn [mbind result_bind bind try_except] in H.
    2: { injection H as <-. split; [reflexivity |].
         exists c. split; [now apply (background_raises _ _ _ _ _ q)
                          | reflexivity]. }
    destruct (for_each _ run_stage b) as [img|c] eqn:Hc;
      cbn [mbind result_bind bind try_except] in H.
    2: { injection H as <-. split; [reflexivity |].
         destruct (for_each_raise_inv _ _ _ _ Hc)
           as (before & stage & after & img & Hs & Hbefore & Hst).
         exists c. split; [| reflexivity].
         now apply (canvas_raises _ _ _ _ _ q b img before after stage). }
    destruct (save B img output_path) as [[]|c] eqn:Hsave;
      cbn [mbind result_bind bind try_except] in H.
    2: { injection H as <-. split; [reflexivity |].
         exists c. split; [now apply (save_raises _ _ _ _ _ q b img)
                          | reflexivity]. }
    destruct (getsize B output_path) as [sz|c] eqn:Hsize;
      cbn [mbind result_bind bind try_except] in H; [discriminate |].
    injection H as <-. split; [reflexivity |].
    exists c. split; [now apply (getsize_raises _ _ _ _ _ q b img)
                     | reflexivity].
Qed.

(** What is raised while the logo is put on is not raised by the logo
    stage: the QR image goes on without a logo. *)
Lemma logo_failure_keeps_qr (qr_img : Image) (e : PyExc) :
  logo_overlay B config qr_img = Raise e ->
  logo_stage B config qr_img = qr_img.
Proof.
  intros H. unfold logo_stage, _add_logo. rewrite H.
  destruct (add_logo config); [| reflexivity].
  now destruct (_ || _).
Qed.

(** The cause of a failed QR encoding comes through both wrappers. *)
Lemma generate_base_qr_failure (data output_path : string) (cause : PyExc) :
  has_gradient config = false ->
  qrcode_image B (version config) (ec_level config) (box_size config)
    (border config) data (fill_color config) (back_color config)
  = Raise cause ->
  generate B config data output_path
  = Raise (MkExc GenerationError
             ("Failed to generate QR code: Failed to create base QR code: "
              ++ exc_msg cause)).
Proof.
  intros Hg Hq. unfold generate, generate_body, _create_base_qr.
  rewrite Hg, Hq. reflexivity.
Qed.

(** A result names the data string it was generated from. *)
Lemma generate_address (data output_path : string) :
  forall r, generate B config data output_path = Return r -> address r = data.
Proof.
  intros r. unfold generate, try_except, generate_body.
  repeat match goal with
         | |- context [mbind _ ?m] =>
             destruct m as [?|?]; simpl; try discriminate
         end.
  intros [= <-]. reflexivity.
Qed.

(** *** The loop of generate_batch *)

Variables (output_dir : string) (total : nat)
          (progress_callback : option (nat -> nat -> string -> result unit)).

(** The loop adds, item by item and in order, the results of the items
    that succeed, the callback calls and the printed lines. *)
Lemma batch_fold (items : list (nat * string)) :
  forall run : BatchRun,
    fold_left (batch_step B config output_dir total progress_callback)
              items run
    = MkBatchRun
        (results run ++ omap (item_result B config output_dir) items)
        (callback_calls run
         ++ calls_made B config output_dir total progress_callback items)
        (printed run
         ++ omap (item_line B config output_dir total progress_callback)
                 items).
Proof.
  unfold calls_made.
  induction items as [|[i addr] items IH]; intros [rs cs ps].
  - simpl. destruct progress_callback; now rewrite !app_nil_r.
  - cbn [fold_left]. rewrite IH. clear IH.
    unfold batch_step, item_result, item_line, succeeds.
    cbn [omap list_omap List.filter fst snd].
    destruct (generate B config addr (item_path B output_dir i addr))
      as [r|e]; cbn [is_return results callback_calls printed].
    + destruct progress_callback as [callback|].
      * destruct (callback i total addr) as [[]|e];
          cbn [results callback_calls printed map];
          now rewrite <- ?app_assoc.
      * cbn [results callback_calls printed]. now rewrite <- ?app_assoc.
    + cbn [results callback_calls printed]. now rewrite <- ?app_assoc.
Qed.




Lemma calls_length_results (items : list (nat * string)) :
  length (List.filter (succeeds B config output_dir) items)
  = length (omap (item_result B config output_dir) items).
Proof.
  induction items as [|it items IH];
    cbn [omap list_omap List.filter length]; [reflexivity |].
  unfold succeeds at 1, item_result at 1.
  destruct (generate B config (snd it) _);
    cbn [is_return length]; now rewrite IH.
Qed.

Hypothesis makedirs_ok : makedirs B output_dir = Return tt.

Lemma generate_batch_run (addresses : list string) (cb : option _) :
  generate_batch B config addresses output_dir cb
  = Return (fold_left (batch_step B config output_dir (length addresses) cb)
                      (enumerate 1 addresses) (MkBatchRun [] [] [])).
Proof. unfold generate_batch. rewrite makedirs_ok. reflexivity. Qed.

End GeneratorFacts.




(** C2 (as amended): once the output directory is there, [generate_batch]
    calls a supplied progress callback exactly once for each item whose
    generation succeeds, with the 1-based index of the item, the total
    count and the data string, and not at all for an item whose generation
    fails; there are as many calls as results. *)
Theorem C2_callback_once_per_success {Image : Type}
    (B : Generator.Backend Image) (config : Styles.QRConfig)
    (addresses : list string) (output_dir : string)
    (callback : nat -> nat -> string -> result unit)
    (Hdir : Generator.makedirs B output_dir = Return tt) :
  exists run,
    Generator.generate_batch B config addresses output_dir (Some callback)
      = Return run
    /\ Generator.callback_calls run
       = map (fun it => (fst it, length addresses, snd it))
             (List.filter (Generator.succeeds B config output_dir)
                          (Generator.enumerate 1 addresses))
    /\ length (Generator.callback_calls run)
       = length (Generator.results run).
Proof.
  eexists. split; [apply generate_batch_run, Hdir |].
  rewrite batch_fold.
  cbn [Generator.results Generator.callback_calls Generator.calls_made app].
  split; [reflexivity |].
  rewrite length_map. apply calls_length_results.
Qed.

Lemma C2_callback_once_per_success_witness :
  exists run,
    Generator.generate_batch Scenario.lib Styles.default_config
      Scenario.batch3 "out" (Some Scenario.quiet_callback) = Return run
    /\ Generator.callback_calls run
       = [(1, 3, Scenario.eth_address); (3, 3, Scenario.btc_address)]%nat.
Proof.
  destruct (C2_callback_once_per_success Scenario.lib Styles.default_config
              Scenario.batch3 "out" Scenario.quiet_callback eq_refl)
    as (run & Hrun & Hcalls & _).
  exists run. split; [exact Hrun |].
  rewrite Hcalls. vm_compute. reflexivity.
Defined.

(** C2 fails as stated: in a batch of three addresses whose second one is
    too long for any QR symbol, generation fails for that item alone, and
    the callback is called twice, for items 1 and 3, not three times. *)
Lemma C2_counterexample :
  map (Generator.succeeds Scenario.lib Styles.default_config "out")
      (Generator.enumerate 1 Scenario.batch3) = [true; false; true]
  /\ exists run,
       Generator.generate_batch Scenario.lib Styles.default_config
         Scenario.batch3 "out" (Some Scenario.quiet_callback) = Return run
       /\ Generator.callback_calls run
          = [(1, 3, Scenario.eth_address); (3, 3, Scenario.btc_address)]%nat
       /\ length (Generator.callback_calls run) <> 3%nat
       /\ length (Generator.results run) = 2%nat.
Proof.
  split; [vm_compute; reflexivity |].
  eexists. split; [vm_compute; reflexivity |].
  split; [reflexivity |]. split; [simpl; lia | reflexivity].
Qed.

Lemma C3_gradient_qr_raises_witness :
  (forall matrix,
     Generator.qrcode_matrix Scenario.lib 4 Generator.ERROR_CORRECT_H 12 3
       Scenario.eth_address = Return matrix ->
     Generator.has_dark_module matrix)
  /\ exists msg,
       Generator._create_gradient_qr Scenario.lib Styles.preset_gradient
         Scenario.eth_address = Raise (MkExc GenerationError msg).
Proof.
  assert (Hdark : forall matrix,
            Generator.qrcode_matrix Scenario.lib 4 Generator.ERROR_CORRECT_H
              12 3 Scenario.eth_address = Return matrix ->
            Generator.has_dark_module matrix).
  { intros matrix [= <-]. exists 0%nat, 0%nat. eexists.
    split; [reflexivity |]. split; [reflexivity |]. vm_compute. lia. }
  split; [exact Hdark |].
  apply (C3_gradient_qr_raises Scenario.lib Styles.preset_gradient
           Scenario.eth_address Hdark).
Defined.

Lemma C4_failing_stage_raises_GenerationError_witness :
  Generator.stage_raises Scenario.read_only_lib Styles.default_config
    Scenario.eth_address "out/qr.png"
    (MkExc (Other "PermissionError")
       "[Errno 13] Permission denied: 'out/qr.png'")
  /\ Generator.generate Scenario.read_only_lib Styles.default_config
       Scenario.eth_address "out/qr.png"
     = Raise (MkExc GenerationError
         "Failed to generate QR code: [Errno 13] Permission denied: 'out/qr.png'").
Proof.
  assert (Hsave : Generator.stage_raises Scenario.read_only_lib
                    Styles.default_config Scenario.eth_address "out/qr.png"
                    (MkExc (Other "PermissionError")
                       "[Errno 13] Permission denied: 'out/qr.png'")).
  { eapply Generator.save_raises; vm_compute; reflexivity. }
  split; [exact Hsave |].
  exact (proj1 (C4_failing_stage_raises_GenerationError
                  Scenario.read_only_lib Styles.default_config
                  Scenario.eth_address "out/qr.png") _ Hsave).
Defined.

(** At the gradient preset nothing is drawn: the NameError comes out
    wrapped, from [_create_gradient_qr] and from [generate]. *)
Example gradient_qr_at_preset :
  Generator._create_gradient_qr Scenario.lib Styles.preset_gradient
    Scenario.eth_address
  = Raise (MkExc GenerationError
             "Failed to create gradient QR code: name 'self_config' is not defined").
Proof. vm_compute. reflexivity. Qed.

Example generate_gradient_preset_fails :
  Generator.generate Scenario.lib Styles.preset_gradient
    Scenario.eth_address "out/qr.png"
  = Raise (MkExc GenerationError
      "Failed to generate QR code: Failed to create gradient QR code: name 'self_config' is not defined").
Proof. vm_compute. reflexivity. Qed.

Example generate_invalid_config :
  Generator.generate Scenario.lib
    (Styles.MkQRConfig 1 "H" 0 4 "#2E86C1" "white" "CRYPTO WALLET" "" true
       true false None 80 "" ∅)
    "UQDe1kBdULQE3RBtE24jIZYDD7nPov5S-xM-PA3dCzGXHc7X" "out/test_invalid.png"
  = Raise (MkExc GenerationError
      "Failed to generate QR code: Failed to create base QR code: Invalid box size (was 0, expected larger than 0)").
Proof. vm_compute. reflexivity. Qed.

Example generate_minimalist_dimensions :
  match Generator.generate Scenario.lib Styles.preset_minimalist
          Scenario.eth_address "out/qr.png" with
  | Return r => Generator.dimensions r = (665, 705)%Z
                /\ Generator.style r = "standard"
  | Raise _ => False
  end.
Proof. vm_compute. split; reflexivity. Qed.

(** On a file system that cannot be written, the PermissionError of
    [Image.save] reaches the caller as a [GenerationError] with its
    message. *)
Example generate_save_failure :
  Generator.generate Scenario.read_only_lib Styles.default_config
    Scenario.eth_address "out/qr.png"
  = Raise (MkExc GenerationError
      "Failed to generate QR code: [Errno 13] Permission denied: 'out/qr.png'")
  /\ Generator.stage_raises Scenario.read_only_lib Styles.default_config
       Scenario.eth_address "out/qr.png"
       (Scenario.permission_denied "out/qr.png").
Proof.
  split; [vm_compute; reflexivity |].
  eapply Generator.save_raises; vm_compute; reflexivity.
Qed.

(** A logo file that cannot be opened stops nothing: the image is made
    without a logo and [generate] returns. *)
Example generate_without_logo_file :
  Generator.logo_overlay Scenario.no_logo_lib Scenario.logo_config (588, 588)%Z
  = Raise (MkExc (Other "FileNotFoundError")
             "[Errno 2] No such file or directory: 'logo.png'")
  /\ is_return (Generator.generate Scenario.no_logo_lib Scenario.logo_config
                  Scenario.eth_address "out/qr.png") = true.
Proof. split; vm_compute; reflexivity. Qed.

(* ===================================================================== *)
(** * Further properties *)
(* ===================================================================== *)

(** ** What a match tells about the subject *)

Section MatcherSound.

Import Re Utils Notions.

Lemma append_String (c : ascii) (s t : string) :
  String c s ++ t = String c (s ++ t).
Proof. reflexivity. Qed.

Lemma append_assoc' (s t u : string) : (s ++ t) ++ u = s ++ (t ++ u).
Proof.
  induction s as [|c s IH]; [reflexivity |].
  rewrite !append_String. now rewrite IH.
Qed.

Lemma all_chars_app (p : ascii -> bool) (s t : string) :
  all_chars p (s ++ t) = all_chars p s && all_chars p t.
Proof.
  induction s as [|c s IH]; [reflexivity |].
  rewrite append_String. simpl. rewrite IH. apply andb_assoc.
Qed.

Lemma rep_m_sound (mr : string -> (string -> bool) -> bool)
    (cs : ascii -> bool)
    (Hmr : forall s k, mr s k = true -> consumed cs s k) :
  forall (n lo : nat) (s : string) (k : string -> bool),
    rep_m mr lo n s k = true -> consumed cs s k.
Proof.
  induction n as [|n IH]; intros lo s k H.
  - rewrite rep_m_0 in H. apply andb_true_iff in H as [_ Hk].
    exists "", s. repeat split; assumption.
  - rewrite rep_m_S in H. apply orb_true_iff in H as [H | H].
    + apply Hmr in H as (p1 & s1 & -> & H1 & Hp1).
      apply IH in H1 as (p2 & s2 & -> & H2 & Hp2).
      exists (p1 ++ p2), s2. rewrite append_assoc', all_chars_app, Hp1, Hp2.
      repeat split; assumption.
    + apply andb_true_iff in H as [_ Hk].
      exists "", s. repeat split; assumption.
Qed.

Lemma m_sound (r : regex) :
  forall (s : string) (k : string -> bool),
    m r s k = true ->
    exists p s',
      s = p ++ s' /\ k s' = true /\ all_chars (chars_of r) p = true
      /\ (eol_last r = true -> at_end s' = true).
Proof.
  induction r as [| c | ranges | r1 IH1 r2 IH2 | r1 IH1 r2 IH2
                  | r IH lo hi | ]; intros s k H; simpl in H.
  - exists "", s. repeat split; [assumption | discriminate].
  - destruct s as [|c' s]; [discriminate |].
    apply andb_true_iff in H as [Hc Hk].
    exists (String c' ""), s. simpl. rewrite Hc.
    repeat split; [assumption | discriminate].
  - destruct s as [|c' s]; [discriminate |].
    apply andb_true_iff in H as [Hc Hk].
    exists (String c' ""), s. simpl. rewrite Hc.
    repeat split; [assumption | discriminate].
  - apply IH1 in H as (p1 & s1 & -> & H1 & Hp1 & _).
    apply IH2 in H1 as (p2 & s2 & -> & H2 & Hp2 & Hend).
    exists (p1 ++ p2), s2. rewrite append_assoc', all_chars_app.
    repeat split; [assumption | | exact Hend].
    simpl. apply andb_true_iff. split.
    + revert Hp1. apply all_chars_impl. intros c ->. reflexivity.
    + revert Hp2. apply all_chars_impl. intros c ->. apply orb_true_r.
  - apply orb_true_iff in H as [H | H].
    + apply IH1 in H as (p1 & s1 & -> & H1 & Hp1 & Hend).
      exists p1, s1. repeat split; [assumption | |].
      * revert Hp1. apply all_chars_impl. simpl. intros c ->. reflexivity.
      * simpl. intros He. apply andb_true_iff in He as [He _]. auto.
    + apply IH2 in H as (p1 & s1 & -> & H1 & Hp1 & Hend).
      exists p1, s1. repeat split; [assumption | |].
      * revert Hp1. apply all_chars_impl. simpl. intros c ->.
        apply orb_true_r.
      * simpl. intros He. apply andb_true_iff in He as [_ He]. auto.
  - apply (rep_m_sound (m r) (chars_of r)) in H.
    + destruct H as (p & s' & -> & Hk & Hp).
      exists p, s'. repeat split; [assumption | assumption | discriminate].
    + intros s0 k0 H0. apply IH in H0 as (p & s' & -> & Hk & Hp & _).
      exists p, s'. repeat split; assumption.
  - apply andb_true_iff in H as [He Hk].
    exists "", s. repeat split; [assumption | intros _; exact He].
Qed.

(** A literal string in front of the subject. *)
Lemma m_str_inv (q s : string) (k : string -> bool) :
  m (str q) s k = true -> exists t, s = q ++ t /\ k t = true.
Proof.
  revert s. induction q as [|c q IH]; intros s H; simpl in H.
  - exists s. split; [reflexivity | assumption].
  - destruct s as [|c' s]; [discriminate |].
    apply andb_true_iff in H as [Hc H].
    apply Ascii.eqb_eq in Hc. subst c'.
    apply IH in H as (t & -> & Hk). exists t. split; [reflexivity | assumption].
Qed.

(** A repetition of a set consumes between [lo] and [n] characters of it. *)
Lemma rep_class_inv (ranges : list (ascii * ascii)) :
  forall (n lo : nat) (s : string) (k : string -> bool),
    rep_m (m (Cls ranges)) lo n s k = true ->
    exists p s',
      s = p ++ s' /\ k s' = true
      /\ all_chars (fun c => in_class c ranges) p = true
      /\ (lo <= String.length p <= n)%nat.
Proof.
  induction n as [|n IH]; intros lo s k H.
  - rewrite rep_m_0 in H. apply andb_true_iff in H as [Hlo Hk].
    apply Nat.eqb_eq in Hlo. exists "", s.
    repeat split; [assumption | simpl; lia | simpl; lia].
  - rewrite rep_m_S in H. apply orb_true_iff in H as [H | H].
    + simpl in H. destruct s as [|c s]; [discriminate |].
      apply andb_true_iff in H as [Hc H].
      apply IH in H as (p & s' & -> & Hk & Hp & Hlen).
      exists (String c p), s'. simpl. rewrite Hc, Hp.
      repeat split; [assumption | lia | lia].
    + apply andb_true_iff in H as [Hlo Hk].
      apply Nat.eqb_eq in Hlo. exists "", s.
      repeat split; [assumption | simpl; lia | simpl; lia].
Qed.

End MatcherSound.

(** ** Trimming *)

Section Trimming.

Import Utils.

Lemma rstrip_length (s : string) :
  (String.length (rstrip s) <= String.length s)%nat.
Proof.
  induction s as [|c s IH]; simpl; [lia |].
  destruct (rstrip s); [destruct (is_space c) |]; simpl in *; lia.
Qed.

Lemma lstrip_length (s : string) :
  (String.length (lstrip s) <= String.length s)%nat.
Proof.
  induction s as [|c s IH]; simpl; [lia |].
  destruct (is_space c); simpl; lia.
Qed.

(** What [rstrip] leaves does not end in whitespace. *)
Lemma rstrip_last (s : string) :
  forall p c, rstrip s = p ++ String c "" -> is_space c = false.
Proof.
  induction s as [|d s IH]; intros p c H; simpl in H.
  - destruct p; discriminate.
  - destruct (rstrip s) as [|e r] eqn:E.
    + destruct (is_space d) eqn:Ed; [destruct p; discriminate |].
      destruct p as [|d' [|? ?]]; try discriminate.
      injection H as -> . exact Ed.
    + destruct p as [|d' p]; [discriminate |].
      rewrite append_String in H. injection H as -> H.
      apply (IH p c). exact H.
Qed.

Lemma rstrip_fixed (s : string) :
  (forall p c, s = p ++ String c "" -> is_space c = false) -> rstrip s = s.
Proof.
  induction s as [|d s IH]; intros H; simpl; [reflexivity |].
  rewrite IH.
  - destruct s as [|e s]; [| reflexivity].
    now rewrite (H "" d eq_refl).
  - intros p c ->. apply (H (String d p) c). reflexivity.
Qed.

Lemma rstrip_idem (s : string) : rstrip (rstrip s) = rstrip s.
Proof. apply rstrip_fixed. intros p c. apply rstrip_last. Qed.

Lemma rstrip_keeps_head (c : ascii) (s : string) :
  is_space c = false -> exists r, rstrip (String c s) = String c r.
Proof.
  intros Hc. simpl. rewrite Hc. destruct (rstrip s); eauto.
Qed.

Lemma strip_idem (s : string) : strip (strip s) = strip s.
Proof.
  unfold strip.
  assert (H : lstrip (rstrip (lstrip s)) = rstrip (lstrip s)).
  { induction s as [|c s IH]; [reflexivity |]. simpl.
    destruct (is_space c) eqn:Ec; [exact IH |].
    destruct (rstrip_keeps_head c s Ec) as [r Hr]. rewrite Hr.
    simpl. now rewrite Ec. }
  rewrite H. apply rstrip_idem.
Qed.

(** A trimmed string that ends where [$] can match ends there. *)
Lemma strip_at_end (a p s' : string) :
  strip a = p ++ s' -> Re.at_end s' = true -> s' = "".
Proof.
  intros H He. unfold Re.at_end in He.
  apply orb_true_iff in He as [He | He]; apply String.eqb_eq in He;
    [assumption |].
  subst s'. unfold strip in H. apply rstrip_last in H. discriminate.
Qed.

Lemma lstrip_spaces (l s : string) :
  all_chars is_space l = true -> lstrip (l ++ s) = lstrip s.
Proof.
  induction l as [|c l IH]; [reflexivity |].
  rewrite append_String. simpl.
  intros H. apply andb_true_iff in H as [Hc Hl].
  rewrite Hc. auto.
Qed.

Lemma rstrip_all_spaces (r : string) :
  all_chars is_space r = true -> rstrip r = "".
Proof.
  induction r as [|c r IH]; [reflexivity |]. simpl.
  intros H. apply andb_true_iff in H as [Hc Hr].
  now rewrite IH, Hc.
Qed.

Lemma rstrip_spaces (s r : string) :
  all_chars is_space r = true -> rstrip (s ++ r) = rstrip s.
Proof.
  intros Hr. induction s as [|c s IH].
  - simpl. change ("" ++ r) with r. now apply rstrip_all_spaces.
  - rewrite append_String. simpl. now rewrite IH.
Qed.

Lemma rstrip_full_length (s : string) :
  String.length (rstrip s) = String.length s -> rstrip s = s.
Proof.
  induction s as [|c s IH]; [reflexivity |]. simpl.
  pose proof (rstrip_length s) as Hle.
  destruct (rstrip s) as [|d r] eqn:E.
  - destruct (is_space c); simpl; intros H'; [lia |].
    simpl in Hle. destruct s; [reflexivity | simpl in H'; lia].
  - simpl in *. intros H'. rewrite IH; [reflexivity | lia].
Qed.

Lemma lstrip_full_length (s : string) :
  String.length (lstrip s) = String.length s -> lstrip s = s.
Proof.
  destruct s as [|c s]; [reflexivity |]. simpl.
  destruct (is_space c); [| reflexivity].
  pose proof (lstrip_length s) as Hle. intros H'. lia.
Qed.

(** A string that [strip] leaves as it is has no whitespace at either
    end. *)
Lemma strip_fixed (s : string) :
  strip s = s -> lstrip s = s /\ rstrip s = s.
Proof.
  unfold strip. intros H.
  pose proof (rstrip_length (lstrip s)) as H1.
  pose proof (lstrip_length s) as H2.
  assert (Hl : lstrip s = s).
  { apply lstrip_full_length. rewrite H in H1. lia. }
  split; [exact Hl |]. now rewrite Hl in H.
Qed.

Lemma strip_padded (l s r : string) :
  strip s = s -> s <> "" ->
  all_chars is_space l = true -> all_chars is_space r = true ->
  strip (l ++ s ++ r) = s.
Proof.
  intros Hs Hne Hl Hr. apply strip_fixed in Hs as [Hls Hrs].
  unfold strip. rewrite (lstrip_spaces l _ Hl).
  destruct s as [|c s]; [contradiction |].
  assert (Hc : is_space c = false).
  { simpl in Hls. destruct (is_space c); [| reflexivity].
    pose proof (lstrip_length s) as Hle. rewrite Hls in Hle.
    simpl in Hle. lia. }
  rewrite append_String. simpl lstrip. rewrite Hc.
  rewrite <- append_String, (rstrip_spaces _ r Hr). exact Hrs.
Qed.

End Trimming.

(** ** More about validate_wallet_address *)

Ltac char_cases c :=
  destruct c as [[|] [|] [|] [|] [|] [|] [|] [|]];
  vm_compute; intros; congruence.

Section Classification.

Import Re Utils Notions.

Lemma first_match_Some (ps : list (string * regex)) (s f : string) :
  first_match ps s = Some f ->
  exists pat, In (f, pat) ps /\ re_match pat s = true.
Proof.
  induction ps as [|[f' pat] ps IH]; simpl; [discriminate |].
  destruct (re_match pat s) eqn:E.
  - intros [= <-]. exists pat. split; [now left | assumption].
  - intros H. apply IH in H as (pat' & Hin & Hm).
    exists pat'. split; [now right | assumption].
Qed.

Lemma first_match_last (ps : list (string * regex)) (s f : string)
    (pat : regex) :
  In (f, pat) ps -> re_match pat s = true ->
  exists f', first_match ps s = Some f'.
Proof.
  induction ps as [|[f' pat'] ps IH]; simpl; [contradiction |].
  intros [[= -> ->] | Hin] Hm.
  - rewrite Hm. eauto.
  - destruct (re_match pat' s); eauto.
Qed.

(** Every pattern stays within the alphabet of the generic one, ends with
    [$] and needs at least one character. *)
Lemma patterns_generic (f : string) (pat : regex) (c : ascii) :
  In (f, pat) patterns -> chars_of pat c = true -> is_generic c = true.
Proof.
  unfold patterns. simpl In.
  intros [H | [H | [H | [H | [H | [H | []]]]]]];
    injection H as <- <-; char_cases c.
Qed.

Lemma patterns_shape (f : string) (pat : regex) :
  In (f, pat) patterns -> eol_last pat = true /\ (1 <= min_len pat)%nat.
Proof.
  unfold patterns. simpl In.
  intros [H | [H | [H | [H | [H | [H | []]]]]]];
    injection H as <- <-; split; try reflexivity; vm_compute; lia.
Qed.

(** A match of one of the patterns on a trimmed string covers all of it. *)
Lemma pattern_match_generic (a f : string) (pat : regex) :
  In (f, pat) patterns -> re_match pat (strip a) = true ->
  strip a <> "" /\ all_chars is_generic (strip a) = true.
Proof.
  intros Hin Hm. destruct (patterns_shape f pat Hin) as [Heol Hmin].
  split.
  - intros He. rewrite He in Hm.
    rewrite re_match_too_short in Hm; [discriminate | simpl; lia].
  - unfold re_match in Hm.
    apply m_sound in Hm as (p & s' & Hs & _ & Hp & Hend).
    rewrite (strip_at_end a p s' Hs (Hend Heol)) in Hs.
    rewrite append_empty_r in Hs. rewrite Hs.
    revert Hp. apply all_chars_impl. intros c.
    apply (patterns_generic f pat c Hin).
Qed.

Lemma generic_accepts (s : string) :
  s <> "" -> all_chars is_generic s = true ->
  re_match (Seq (Rep (Cls [rg "A" "Z"; rg "a" "z"; rg "0" "9"; one "-";
                           one "_"; one "+"; one "="; one "/"; one "."])
                   1 None) Eol) s = true.
Proof.
  intros Hne Hall. unfold re_match.
  change (m (Seq (Rep ?c 1 None) Eol) s ?k)
    with (rep_m (m c) 1 (1 + String.length s) s (fun s' => m Eol s' k)).
  rewrite <- (append_empty_r s) at 2.
  apply rep_class_run; [reflexivity | exact Hall | | lia].
  destruct s; [contradiction | simpl; lia].
Qed.

(** X1: [validate_wallet_address] answers (false, "invalid") exactly for the
    inputs of fewer than 10 characters, the empty string among them; a
    longer input that fails is "unknown". *)
Theorem invalid_iff_short (a : string) :
  validate_wallet_address a = (false, "invalid")
  <-> (String.length a < 10)%nat.
Proof.
  unfold validate_wallet_address. split.
  - destruct (negb (truthy_str a) || (String.length a <? 10)%nat) eqn:E.
    + intros _. apply orb_true_iff in E as [E | E].
      * destruct a; [simpl; lia | discriminate].
      * now apply Nat.ltb_lt.
    + destruct (first_match patterns (strip a)); discriminate.
  - intros H. apply Nat.ltb_lt in H. rewrite H, orb_true_r. reflexivity.
Qed.

(** X2: an address is valid exactly when it has at least 10 characters as
    given and its trimmed form is not empty and uses only the alphabet of
    the generic pattern, [A-Za-z0-9] and [-_+=/.]: no pattern accepts
    anything the generic one rejects. *)
Theorem valid_iff_generic_alphabet (a : string) :
  fst (validate_wallet_address a) = true
  <-> (10 <= String.length a)%nat /\ strip a <> ""
      /\ all_chars is_generic (strip a) = true.
Proof.
  unfold validate_wallet_address.
  destruct (negb (truthy_str a) || (String.length a <? 10)%nat) eqn:E.
  - split; [discriminate |]. intros (Hlen & _ & _).
    apply orb_true_iff in E as [E | E].
    + destruct a; [simpl in Hlen; lia | discriminate].
    + apply Nat.ltb_lt in E. lia.
  - apply orb_false_iff in E as [_ E]. apply Nat.ltb_ge in E.
    split.
    + destruct (first_match patterns (strip a)) as [f|] eqn:Ef;
        [| discriminate].
      intros _. apply first_match_Some in Ef as (pat & Hin & Hm).
      split; [exact E |]. exact (pattern_match_generic a f pat Hin Hm).
    + intros (_ & Hne & Hall).
      destruct (first_match_last patterns (strip a) "generic" _
                  ltac:(unfold patterns; simpl; tauto)
                  (generic_accepts _ Hne Hall)) as [f' ->].
      reflexivity.
Qed.

End Classification.

Section Families.

Import Re Utils Notions.

Lemma hex_class_is_hex (c : ascii) :
  in_class c [rg "a" "f"; rg "A" "F"; rg "0" "9"] = true ->
  is_hex_digit c = true.
Proof. char_cases c. Qed.

Lemma ethereum_inv (a : string) :
  re_match (Seq (str "0x")
              (Seq (Rep (Cls [rg "a" "f"; rg "A" "F"; rg "0" "9"])
                      40 (Some 40)) Eol))
           (strip a) = true ->
  exists h, strip a = "0x" ++ h /\ String.length h = 40%nat
            /\ all_chars is_hex_digit h = true.
Proof.
  unfold re_match.
  change (m (Seq (str "0x") (Seq (Rep ?c 40 (Some 40)) Eol)) ?s ?k)
    with (m (str "0x") s
            (fun s1 => rep_m (m c) 40 40 s1 (fun s2 => at_end s2 && k s2))).
  intros H. apply m_str_inv in H as (t & Ht & H).
  apply rep_class_inv in H as (p & s' & -> & Hk & Hp & Hlen).
  apply andb_true_iff in Hk as [Hend _].
  rewrite <- append_assoc' in Ht.
  rewrite (strip_at_end a _ s' Ht Hend), append_empty_r in Ht.
  exists p. split; [exact Ht |]. split; [lia |].
  revert Hp. apply all_chars_impl, hex_class_is_hex.
Qed.

(** X3: the family "ethereum" is given exactly to the inputs of at least 10
    characters whose trimmed form is "0x" followed by 40 hexadecimal
    digits. *)
Theorem ethereum_iff (a : string) :
  validate_wallet_address a = (true, "ethereum")
  <-> (10 <= String.length a)%nat
      /\ exists h, strip a = "0x" ++ h /\ String.length h = 40%nat
                   /\ all_chars is_hex_digit h = true.
Proof.
  unfold validate_wallet_address.
  destruct (negb (truthy_str a) || (String.length a <? 10)%nat) eqn:E.
  - split; [discriminate |]. intros (Hlen & _).
    apply orb_true_iff in E as [E | E].
    + destruct a; [simpl in Hlen; lia | discriminate].
    + apply Nat.ltb_lt in E. lia.
  - apply orb_false_iff in E as [_ E]. apply Nat.ltb_ge in E.
    unfold patterns, first_match. split.
    + destruct (re_match _ (strip a)); [discriminate |].
      destruct (re_match _ (strip a)) eqn:Eeth.
      * intros _. split; [exact E |]. now apply ethereum_inv.
      * repeat (destruct (re_match _ (strip a)); [discriminate |]).
        discriminate.
    + intros (_ & h & Hs & Hlen & Hhex). rewrite Hs.
      change ("0x" ++ h) with (String "0" (String "x" h)) at 1.
      rewrite bitcoin_rejects_0.
      rewrite (ethereum_accepts h Hlen Hhex). reflexivity.
Qed.

Ltac case_family name E :=
  match goal with
  | |- context [if re_match ?p ?s then Some name else _] =>
      destruct (re_match p s) eqn:E
  end.

Lemma litecoin_class_in_bitcoin (c : ascii) :
  in_class c [rg "a" "k"; rg "m" "z"; rg "A" "H"; rg "J" "N"; rg "P" "Z";
              rg "1" "9"] = true ->
  in_class c [rg "a" "z"; rg "A" "H"; rg "J" "N"; rg "P" "Z"; rg "0" "9"]
  = true.
Proof. char_cases c. Qed.

Lemma litecoin_head (c : ascii) :
  in_class c [one "L"; one "M"; one "3"] = true ->
  c = ch "L" \/ c = ch "M" \/ c = ch "3".
Proof.
  destruct c as [[|] [|] [|] [|] [|] [|] [|] [|]]; vm_compute;
    intros; try congruence; tauto.
Qed.

(** X4: an address reported as "litecoin" starts with L or M.  The litecoin
    pattern also allows a leading 3, but such a string has the bitcoin
    shape too, and bitcoin is tried first. *)
Theorem litecoin_starts_with_L_or_M (a : string) :
  validate_wallet_address a = (true, "litecoin") ->
  exists c t, strip a = String c t /\ (c = ch "L" \/ c = ch "M").
Proof.
  unfold validate_wallet_address.
  destruct (negb (truthy_str a) || (String.length a <? 10)%nat);
    [discriminate |].
  unfold patterns, first_match.
  case_family "bitcoin" Ebtc; [discriminate |].
  case_family "ethereum" Eeth; [discriminate |].
  case_family "litecoin" Eltc.
  2:{ case_family "solana" Esol; [discriminate |].
      case_family "base64" Eb64; [discriminate |].
      case_family "generic" Egen; discriminate. }
  intros _. unfold re_match in Eltc.
  change (m (Seq (Cls ?h) (Seq (Rep ?c 26 (Some 33)) Eol)) ?s ?k)
    with (m (Cls h) s
            (fun s1 => rep_m (m c) 26 33 s1 (fun s2 => at_end s2 && k s2)))
    in Eltc.
  destruct (strip a) as [|c t] eqn:Es; [discriminate |].
  change (m (Cls ?h) (String c t) ?K) with (in_class c h && K t) in Eltc.
  cbv beta in Eltc. apply andb_true_iff in Eltc as [Hhead Hrest].
  exists c, t. split; [reflexivity |].
  destruct (litecoin_head c Hhead) as [-> | [-> | ->]]; [tauto | tauto |].
  exfalso.
  apply rep_class_inv in Hrest as (p & s' & -> & Hk & Hp & Hlen).
  assert (Hb : re_match
            (Seq (Alt (str "bc1") (Cls [one "1"; one "3"]))
               (Seq (Rep (Cls [rg "a" "z"; rg "A" "H"; rg "J" "N";
                               rg "P" "Z"; rg "0" "9"]) 25 (Some 39)) Eol))
            (String (ch "3") (p ++ s')) = true).
  { unfold re_match.
    change (m (Seq (Alt (str "bc1") (Cls ?h)) (Seq (Rep ?c 25 (Some 39)) Eol))
              (String (ch "3") ?s) ?k)
      with (rep_m (m c) 25 39 s (fun s2 => at_end s2 && k s2)).
    apply rep_class_run; [exact Hk | | lia | lia].
    revert Hp. apply all_chars_impl, litecoin_class_in_bitcoin. }
  rewrite Hb in Ebtc. discriminate.
Qed.

(** X5: whitespace around an address of at least 10 characters does not
    change its classification. *)
Theorem validate_ignores_padding (l s r : string)
    (Hlen : (10 <= String.length s)%nat)
    (Htrim : strip s = s)
    (Hl : all_chars is_space l = true)
    (Hr : all_chars is_space r = true) :
  validate_wallet_address (l ++ s ++ r) = validate_wallet_address s.
Proof.
  assert (Hne : s <> "") by (intros ->; simpl in Hlen; lia).
  unfold validate_wallet_address.
  rewrite (strip_padded l s r Htrim Hne Hl Hr), Htrim.
  assert (H1 : negb (truthy_str s) || (String.length s <? 10)%nat = false).
  { destruct s; [contradiction |]. simpl.
    apply Nat.ltb_ge. exact Hlen. }
  assert (H2 : negb (truthy_str (l ++ s ++ r))
               || (String.length (l ++ s ++ r) <? 10)%nat = false).
  { apply orb_false_iff. split.
    - apply negb_false_iff.
      destruct l; [destruct s; [contradiction | reflexivity] | reflexivity].
    - apply Nat.ltb_ge. rewrite !length_append. lia. }
  now rewrite H1, H2.
Qed.

End Families.

(** ** File names *)

Section FileNames.

Import Utils Notions Render.

Lemma digits_value_acc (s : string) :
  forall acc,
    digits_value acc s
    = (acc * 10 ^ N.of_nat (String.length s) + digits_value 0 s)%N.
Proof.
  induction s as [|c s IH]; intros acc.
  - simpl. lia.
  - cbn [digits_value String.length].
    rewrite IH, (IH (10 * 0 + _)%N), Nat2N.inj_succ, N.pow_succ_r'. lia.
Qed.

Lemma pretty_N_char_value (d : N) :
  (d < 10)%N -> (N_of_ascii (pretty_N_char d) - 48)%N = d.
Proof.
  intros H.
  assert (d = 0 \/ d = 1 \/ d = 2 \/ d = 3 \/ d = 4 \/ d = 5 \/ d = 6
          \/ d = 7 \/ d = 8 \/ d = 9)%N as Hd by lia.
  repeat (destruct Hd as [-> | Hd]; [reflexivity |]). now subst.
Qed.

Lemma pretty_N_char_digit (d : N) : is_digit (pretty_N_char d) = true.
Proof. unfold pretty_N_char. repeat case_match; reflexivity. Qed.

Lemma pretty_N_go_value (x : N) :
  forall s,
    digits_value 0 (pretty_N_go x s)
    = (x * 10 ^ N.of_nat (String.length s) + digits_value 0 s)%N.
Proof.
  induction (N.lt_wf_0 x) as [x _ IH]; intros s.
  assert (x = 0 \/ 0 < x)%N as [-> | Hpos] by lia.
  - rewrite pretty_N_go_0. lia.
  - rewrite pretty_N_go_step by assumption.
    rewrite IH by (apply N.div_lt; lia).
    cbn [digits_value String.length].
    rewrite digits_value_acc, N.mul_0_r, N.add_0_l.
    rewrite pretty_N_char_value by (apply N.mod_lt; lia).
    rewrite Nat2N.inj_succ, N.pow_succ_r'.
    pose proof (N.div_mod x 10 ltac:(lia)) as Hdm. nia.
Qed.

Lemma pretty_N_go_digits (x : N) :
  forall s, all_chars is_digit s = true ->
            all_chars is_digit (pretty_N_go x s) = true.
Proof.
  induction (N.lt_wf_0 x) as [x _ IH]; intros s Hs.
  assert (x = 0 \/ 0 < x)%N as [-> | Hpos] by lia.
  - now rewrite pretty_N_go_0.
  - rewrite pretty_N_go_step by assumption.
    apply IH; [apply N.div_lt; lia |].
    simpl. now rewrite pretty_N_char_digit.
Qed.

Lemma pretty_nat_value (n : nat) : digits_value 0 (pretty n) = N.of_nat n.
Proof.
  unfold pretty, pretty_nat, pretty, pretty_N.
  case_decide as H0.
  - rewrite H0. reflexivity.
  - rewrite pretty_N_go_value. simpl. lia.
Qed.

Lemma pretty_nat_digits (n : nat) : all_chars is_digit (pretty n) = true.
Proof.
  unfold pretty, pretty_nat, pretty, pretty_N.
  case_decide; [reflexivity |]. now apply pretty_N_go_digits.
Qed.

Lemma fmt_03d_zeros (i : nat) :
  exists z, fmt_03d i = z ++ pretty i /\ all_chars (Ascii.eqb (ch "0")) z = true.
Proof.
  unfold fmt_03d.
  destruct (String.length (pretty i)) as [|[|[|n]]].
  - exists "". split; reflexivity.
  - exists "00". split; reflexivity.
  - exists "0". split; reflexivity.
  - exists "". split; reflexivity.
Qed.

Lemma zeros_value (z s : string) :
  all_chars (Ascii.eqb (ch "0")) z = true ->
  digits_value 0 (z ++ s) = digits_value 0 s
  /\ all_chars is_digit z = true.
Proof.
  induction z as [|c z IH]; [split; reflexivity |].
  cbn [all_chars]. intros H. apply andb_true_iff in H as [Hc Hz].
  apply Ascii.eqb_eq in Hc. subst c.
  rewrite append_String. cbn [digits_value].
  change (10 * 0 + (N_of_ascii (ch "0") - 48))%N with 0%N.
  destruct (IH Hz) as [-> ->]. split; reflexivity.
Qed.

Lemma fmt_03d_value (i : nat) :
  digits_value 0 (fmt_03d i) = N.of_nat i
  /\ all_chars is_digit (fmt_03d i) = true.
Proof.
  destruct (fmt_03d_zeros i) as (z & -> & Hz).
  destruct (zeros_value z (pretty i) Hz) as [-> Hd].
  rewrite pretty_nat_value, all_chars_app, Hd, pretty_nat_digits.
  split; reflexivity.
Qed.

Lemma leading_digits_app (d : string) (c : ascii) (r : string) :
  all_chars is_digit d = true -> is_digit c = false ->
  leading_digits (d ++ String c r) = d.
Proof.
  intros Hd Hc. induction d as [|e d IH].
  - change ("" ++ String c r) with (String c r). simpl. now rewrite Hc.
  - simpl in Hd. apply andb_true_iff in Hd as [He Hd].
    rewrite append_String. simpl. now rewrite He, IH.
Qed.

Lemma filename_index_of (md5_hexdigest : string -> string)
    (address style : string) (i : nat) :
  filename_index (generate_filename md5_hexdigest address style (Some i)) = i.
Proof.
  unfold filename_index, generate_filename.
  change (drop_str 3 ("qr_" ++ ?x)) with x.
  change ("_" ++ ?x) with (String (ch "_") x).
  destruct (fmt_03d_value i) as [Hv Hd].
  rewrite leading_digits_app by (assumption || reflexivity).
  rewrite Hv. apply Nat2N.id.
Qed.

(** X6: the index of a batch file name can be read back from it (the digits
    after "qr_"), so two names written for different indices differ,
    whatever the addresses, styles and hashes. *)
Theorem generate_filename_index (md5_hexdigest : string -> string)
    (address address' style style' : string) (i j : nat) :
  filename_index (generate_filename md5_hexdigest address style (Some i)) = i
  /\ (generate_filename md5_hexdigest address style (Some i)
      = generate_filename md5_hexdigest address' style' (Some j) -> i = j).
Proof.
  split; [apply filename_index_of |].
  intros H. apply (f_equal filename_index) in H.
  now rewrite !filename_index_of in H.
Qed.

End FileNames.

(** ** More about generate and generate_batch *)

Section BatchFacts.

Import Styles Generator Notions Render.

Context {Image : Type} (B : Backend Image) (config : QRConfig).

Lemma append_inj_l (p s t : string) : p ++ s = p ++ t -> s = t.
Proof.
  induction p as [|c p IH]; [trivial |].
  rewrite !append_String. intros [= H]. auto.
Qed.

Lemma drop_str_app (p s : string) : drop_str (String.length p) (p ++ s) = s.
Proof.
  induction p as [|c p IH]; [reflexivity |].
  rewrite append_String. exact IH.
Qed.

Lemma path_join_prefix (output_dir : string) :
  exists p, forall filename, path_join output_dir filename = p ++ filename.
Proof.
  unfold path_join.
  destruct (negb (truthy_str output_dir) || ends_with_slash output_dir).
  - exists output_dir. reflexivity.
  - exists (output_dir ++ "/"). intros f. now rewrite append_assoc'.
Qed.

Lemma enumerate_fst (addresses : list string) :
  forall start,
    map fst (enumerate start addresses) = seq start (length addresses).
Proof.
  induction addresses as [|a l IH]; intros start; simpl;
    [reflexivity | now rewrite IH].
Qed.

(** X7: the output paths of the items of one batch are pairwise distinct,
    also when addresses repeat or their hashes collide. *)
Theorem batch_paths_distinct (output_dir : string) (addresses : list string) :
  NoDup (map (fun it => item_path B output_dir (fst it) (snd it))
             (enumerate 1 addresses)).
Proof.
  destruct (path_join_prefix output_dir) as [p Hp].
  set (f := fun it : nat * string =>
              item_path B output_dir (fst it) (snd it)).
  set (g := fun path => filename_index (drop_str (String.length p) path)).
  assert (Hg : map g (map f (enumerate 1 addresses))
               = seq 1 (length addresses)).
  { rewrite map_map, <- enumerate_fst. apply map_ext.
    intros [i a]. unfold g, f, item_path. cbn [fst snd].
    rewrite Hp, drop_str_app. apply filename_index_of. }
  apply (NoDup_fmap_1 g).
  change (NoDup (map g (map f (enumerate 1 addresses)))).
  rewrite Hg. apply NoDup_seq.
Qed.

(** The gradient path of [_create_gradient_qr], once more, with the
    message kept. *)
Lemma gradient_qr_fails (data : string) :
  (forall matrix,
     qrcode_matrix B (version config) ERROR_CORRECT_H (box_size config)
       (border config) data = Return matrix ->
     has_dark_module matrix) ->
  exists cause,
    _create_gradient_qr B config data
    = Raise (MkExc GenerationError
               ("Failed to create gradient QR code: " ++ exc_msg cause)).
Proof.
  intros Hdark. unfold _create_gradient_qr.
  destruct (qrcode_matrix B (version config) ERROR_CORRECT_H
              (box_size config) (border config) data) as [matrix|e] eqn:Em;
    simpl; [| eauto].
  specialize (Hdark matrix eq_refl).
  destruct (image_new B _ (back_color config)) as [img|e]; simpl; [| eauto].
  destruct (gradient_colors config) as [colors|e] eqn:Ec; simpl; [| eauto].
  pose proof (gradient_loops_raise config matrix colors img
                (gradient_colors_length config colors Ec) Hdark) as Hloop.
  destruct (for_each _ _ img) as [img'|e]; [discriminate |].
  simpl. eauto.
Qed.

Lemma generate_gradient_raises (data output_path : string) :
  is_Some (custom_css config !! "gradient") ->
  (forall matrix,
     qrcode_matrix B (version config) ERROR_CORRECT_H (box_size config)
       (border config) data = Return matrix ->
     has_dark_module matrix) ->
  exists cause,
    generate B config data output_path
    = Raise (MkExc GenerationError
               ("Failed to generate QR code: "
                ++ "Failed to create gradient QR code: " ++ exc_msg cause)).
Proof.
  intros Hkey Hdark.
  destruct (gradient_qr_fails data Hdark) as [cause Hc].
  exists cause. unfold generate, generate_body, has_gradient.
  rewrite (bool_decide_eq_true_2 _ Hkey), Hc. reflexivity.
Qed.

(** X8: when [custom_css] has the key "gradient", whatever its value,
    [generate] fails: it raises GenerationError with the message of
    [_create_gradient_qr] inside its own (every QR matrix having a dark
    module). *)
Theorem generate_gradient_key_fails (data output_path : string) (v : PyVal)
    (Hkey : custom_css config !! "gradient" = Some v)
    (Hdark : forall matrix,
       qrcode_matrix B (version config) ERROR_CORRECT_H (box_size config)
         (border config) data = Return matrix ->
       has_dark_module matrix) :
  exists cause,
    generate B config data output_path
    = Raise (MkExc GenerationError
               ("Failed to generate QR code: "
                ++ "Failed to create gradient QR code: " ++ exc_msg cause)).
Proof.
  apply generate_gradient_raises; [| exact Hdark].
  rewrite Hkey. eauto.
Qed.

(** X9: a result that [generate] returns comes from a configuration
    without the key "gradient", has the style tag "standard", and names the
    output path and the data string it was called with. *)
Theorem generate_result_fields (data output_path : string)
    (r : GenerationResult)
    (Hdark : forall matrix,
       qrcode_matrix B (version config) ERROR_CORRECT_H (box_size config)
         (border config) data = Return matrix ->
       has_dark_module matrix)
    (Hret : generate B config data output_path = Return r) :
  custom_css config !! "gradient" = None
  /\ style r = "standard"
  /\ filepath r = output_path
  /\ address r = data.
Proof.
  destruct (custom_css config !! "gradient") as [v|] eqn:Ek.
  - destruct (generate_gradient_raises data output_path) as [c Hc].
    + rewrite Ek. eauto.
    + exact Hdark.
    + rewrite Hc in Hret. discriminate.
  - split; [reflexivity |].
    revert Hret. unfold generate, try_except, generate_body, has_gradient.
    rewrite Ek.
    rewrite (bool_decide_eq_false_2 _ (is_Some_None (A := PyVal))).
    repeat match goal with
           | |- context [mbind _ ?m] =>
               destruct m as [?|?]; simpl; try discriminate
           end.
    intros [= <-]. repeat split.
Qed.

End BatchFacts.

Section BatchRuns.

Import Styles Generator.

Context {Image : Type} (B : Backend Image) (config : QRConfig).
Variables (output_dir : string) (addresses : list string).

Lemma filter_all {A} (f : A -> bool) (l : list A) :
  (forall x, In x l -> f x = true) -> List.filter f l = l.
Proof.
  induction l as [|x l IH]; intros H; simpl; [reflexivity |].
  rewrite (H x (or_introl eq_refl)), IH; [reflexivity |].
  intros y Hy. apply H. now right.
Qed.

Lemma omap_none {A C} (f : A -> option C) (l : list A) :
  (forall x, In x l -> f x = None) -> omap f l = [].
Proof.
  induction l as [|x l IH]; intros H; cbn [omap list_omap]; [reflexivity |].
  rewrite (H x (or_introl eq_refl)). apply IH.
  intros y Hy. apply H. now right.
Qed.

Lemma results_addresses_all (start : nat) (l : list string) :
  (forall it, In it (enumerate start l) ->
              succeeds B config output_dir it = true) ->
  map address (omap (item_result B config output_dir) (enumerate start l))
  = l.
Proof.
  revert start. induction l as [|a l IH]; intros start H; [reflexivity |].
  cbn [enumerate omap list_omap].
  pose proof (H (start, a) (or_introl eq_refl)) as Ha.
  unfold succeeds in Ha. unfold item_result at 1. cbn [fst snd] in *.
  destruct (generate B config a (item_path B output_dir start a))
    as [r|e] eqn:E; [| discriminate].
  cbn [map]. rewrite (generate_address B config _ _ _ E), IH;
    [reflexivity |].
  intros it Hit. apply H. now right.
Qed.

(** X10: when every item of a batch succeeds and the callback returns
    normally, the results are those of all the addresses in input order,
    the callback has been called with the indices 1 to N in order, and
    nothing is printed. *)
Theorem batch_all_succeed
    (callback : nat -> nat -> string -> result unit)
    (Hdir : makedirs B output_dir = Return tt)
    (Hall : forall it, In it (enumerate 1 addresses) ->
                       succeeds B config output_dir it = true)
    (Hcb : forall i total a, callback i total a = Return tt) :
  exists run,
    generate_batch B config addresses output_dir (Some callback) = Return run
    /\ map address (results run) = addresses
    /\ callback_calls run
       = map (fun it => (fst it, length addresses, snd it))
             (enumerate 1 addresses)
    /\ printed run = [].
Proof.
  eexists. split; [apply generate_batch_run, Hdir |].
  rewrite batch_fold.
  cbn [results callback_calls printed calls_made app].
  split; [now apply results_addresses_all |].
  split; [now rewrite filter_all |].
  apply omap_none. intros [i a] Hin. specialize (Hall _ Hin).
  unfold succeeds in Hall. unfold item_line. cbn [fst snd] in *.
  destruct (generate B config a (item_path B output_dir i a));
    [| discriminate].
  now rewrite Hcb.
Qed.

(** X11: when the callback raises for an item that was generated, the
    result of the item stays in the list and the line
    "Error generating QR for address i: " with the message of the
    callback's exception is printed for it; the batch goes on: the result
    list holds the results of all the items that are generated, in input
    order, and every one of them, before or after, has its result in the
    list and its callback call made. *)
Theorem batch_callback_error_keeps_result
    (callback : nat -> nat -> string -> result unit)
    (i : nat) (a : string) (r : GenerationResult) (e : PyExc)
    (Hdir : makedirs B output_dir = Return tt)
    (Hin : (i, a) ∈ enumerate 1 addresses)
    (Hgen : generate B config a (item_path B output_dir i a) = Return r)
    (Hcb : callback i (length addresses) a = Raise e) :
  exists run,
    generate_batch B config addresses output_dir (Some callback) = Return run
    /\ r ∈ results run
    /\ (i, length addresses, a) ∈ callback_calls run
    /\ ("Error generating QR for address " ++ pretty i ++ ": "
        ++ exc_msg e) ∈ printed run
    /\ results run
       = omap (item_result B config output_dir) (enumerate 1 addresses)
    /\ (forall j b r',
          (j, b) ∈ enumerate 1 addresses ->
          generate B config b (item_path B output_dir j b) = Return r' ->
          r' ∈ results run
          /\ (j, length addresses, b) ∈ callback_calls run).
Proof.
  assert (Hmade : forall j b r',
            (j, b) ∈ enumerate 1 addresses ->
            generate B config b (item_path B output_dir j b) = Return r' ->
            r' ∈ omap (item_result B config output_dir)
                      (enumerate 1 addresses)
            /\ (j, length addresses, b)
               ∈ map (fun it => (fst it, length addresses, snd it))
                     (List.filter (succeeds B config output_dir)
                                  (enumerate 1 addresses))).
  { intros j b r' Hj Hb. split.
    - apply list_elem_of_omap. exists (j, b). split; [assumption |].
      unfold item_result. cbn [fst snd]. now rewrite Hb.
    - apply list_elem_of_In, in_map_iff. exists (j, b).
      split; [reflexivity |]. apply filter_In.
      split; [now apply list_elem_of_In |].
      unfold succeeds. cbn [fst snd]. now rewrite Hb. }
  eexists. split; [apply generate_batch_run, Hdir |].
  rewrite batch_fold.
  cbn [results callback_calls printed calls_made app].
  split; [exact (proj1 (Hmade i a r Hin Hgen)) |].
  split; [exact (proj2 (Hmade i a r Hin Hgen)) |].
  split; [| split; [reflexivity | exact Hmade]].
  apply list_elem_of_omap. exists (i, a). split; [assumption |].
  unfold item_line. cbn [fst snd]. rewrite Hgen, Hcb. reflexivity.
Qed.

End BatchRuns.

(** ** More about Layout.auto *)

Section LayoutMore.

Import Styles.
Local Open Scope Z_scope.

(** X12: the QR block is 40 pixels from the left edge and 40 from the
    right one, starts at least 60 pixels from the top and ends at least 60
    above the bottom, for every size and configuration. *)
Theorem auto_qr_block_inside (qr_width qr_height : Z) (config : QRConfig) :
  let l := auto (qr_width, qr_height) config in
  fst (qr_position l) = 40
  /\ width l - (fst (qr_position l) + qr_width) = 40
  /\ 60 <= snd (qr_position l)
  /\ snd (qr_position l) + qr_height + 60 <= height l.
Proof.
  unfold auto; simpl.
  destruct (truthy_str (title config)), (truthy_str (subtitle config)),
           (show_address config), (truthy_str (watermark config));
    repeat split; lia.
Qed.

(** X13: the title row is always above the top of the QR block; the
    subtitle row (y = 70) is above it exactly when there is a title.
    Without a title the QR block starts at y = 60, above the subtitle
    row. *)
Theorem auto_subtitle_above_qr_iff_title (qr_size : Z * Z)
    (config : QRConfig) :
  let l := auto qr_size config in
  snd (title_position l) < snd (qr_position l)
  /\ (snd (subtitle_position l) < snd (qr_position l)
      <-> truthy_str (title config) = true).
Proof.
  destruct qr_size as [w h]. unfold auto; simpl.
  destruct (truthy_str (title config)); simpl; split; try lia;
    split; intros; try lia; try reflexivity; discriminate.
Qed.

End LayoutMore.

(** ** The address text of generate *)

Section AddressText.

Import Styles Utils Render.

Lemma take_drop (k : nat) (s : string) : take_str k s ++ drop_str k s = s.
Proof.
  revert s. induction k as [|k IH]; intros [|c s]; try reflexivity.
  simpl. rewrite append_String. now rewrite IH.
Qed.

Lemma drop_drop (a b : nat) (s : string) :
  drop_str b (drop_str a s) = drop_str (a + b) s.
Proof.
  revert s. induction a as [|a IH]; intros s; [reflexivity |].
  destruct s as [|c s]; simpl; [destruct b; reflexivity | apply IH].
Qed.

Lemma length_take (k : nat) (s : string) :
  String.length (take_str k s) = Nat.min k (String.length s).
Proof.
  revert s. induction k as [|k IH]; intros [|c s]; try reflexivity.
  simpl. now rewrite IH.
Qed.

Lemma length_drop (k : nat) (s : string) :
  String.length (drop_str k s) = (String.length s - k)%nat.
Proof.
  revert s. induction k as [|k IH]; intros [|c s]; simpl;
    try reflexivity; try lia.
  apply IH.
Qed.

Lemma drop_ge (k : nat) (s : string) :
  (String.length s <= k)%nat -> drop_str k s = "".
Proof.
  revert s. induction k as [|k IH]; intros [|c s]; simpl; intros H;
    try reflexivity; try lia.
  apply IH. lia.
Qed.

Lemma take_app_exact (p s : string) : take_str (String.length p) (p ++ s) = p.
Proof.
  induction p as [|c p IH]; [destruct s; reflexivity |].
  rewrite append_String. simpl. now rewrite IH.
Qed.

Lemma concat_cons (x : string) (xs : list string) :
  String.concat "" (x :: xs) = x ++ String.concat "" xs.
Proof.
  destruct xs as [|y ys]; [simpl; now rewrite append_empty_r | reflexivity].
Qed.

Lemma chunks_from (data : string) :
  forall fuel start,
    (String.length data - start <= fuel)%nat ->
    String.concat ""
      (map (fun i => slice i (i + 50) data)
           (range_fuel fuel start (String.length data) 50))
    = drop_str start data.
Proof.
  induction fuel as [|fuel IH]; intros start Hfuel.
  - simpl. symmetry. apply drop_ge. lia.
  - cbn [range_fuel].
    destruct (start <? String.length data)%nat eqn:E.
    + cbn [map]. rewrite concat_cons, IH by lia.
      unfold slice. replace (start + 50 - start)%nat with 50%nat by lia.
      rewrite <- drop_drop. apply take_drop.
    + apply Nat.ltb_ge in E. simpl. symmetry. now apply drop_ge.
Qed.

Lemma range_length_upper (stop : nat) :
  forall fuel start,
    (length (range_fuel fuel start stop 50) * 50 <= (stop - start) + 49)%nat.
Proof.
  induction fuel as [|fuel IH]; intros start; simpl; [lia |].
  destruct (start <? stop)%nat eqn:E; simpl; [| lia].
  apply Nat.ltb_lt in E. specialize (IH (start + 50)%nat). lia.
Qed.

Lemma range_length_lower (stop : nat) :
  forall fuel start,
    (stop - start <= fuel)%nat ->
    (stop - start <= length (range_fuel fuel start stop 50) * 50)%nat.
Proof.
  induction fuel as [|fuel IH]; intros start Hfuel; simpl; [lia |].
  destruct (start <? stop)%nat eqn:E; simpl.
  - specialize (IH (start + 50)%nat). lia.
  - apply Nat.ltb_ge in E. lia.
Qed.

Lemma full_address_lines_count (data : string) :
  (length (full_address_lines data) * 50
   <= Nat.max 50 (String.length data + 49))%nat.
Proof.
  unfold full_address_lines.
  destruct (50 <? String.length data)%nat eqn:E.
  - unfold chunks, range. rewrite length_map.
    pose proof (range_length_upper (String.length data)
                  (String.length data) 0). lia.
  - simpl. lia.
Qed.

(** X14: the lines the full address is drawn in, joined, give the
    address back; none is longer than 50 characters; there are no more
    lines than the length divided by 50, rounded up (one for a short
    address). *)
Theorem full_address_lines_complete (data : string) :
  String.concat "" (full_address_lines data) = data
  /\ Forall (fun line => (String.length line <= 50)%nat)
            (full_address_lines data)
  /\ (length (full_address_lines data) * 50
      <= Nat.max 50 (String.length data + 49))%nat.
Proof.
  unfold full_address_lines.
  destruct (50 <? String.length data)%nat eqn:E.
  - unfold chunks, range. split; [| split].
    + now rewrite chunks_from by lia.
    + apply Forall_forall. intros line Hin.
      apply list_elem_of_In, in_map_iff in Hin as (i & <- & _).
      unfold slice. rewrite length_take. lia.
    + rewrite length_map.
      pose proof (range_length_upper (String.length data)
                    (String.length data) 0). lia.
  - apply Nat.ltb_ge in E. split; [reflexivity |]. split.
    + constructor; [exact E | constructor].
    + simpl. lia.
Qed.

(** X15: the shortened address is at most 33 characters long and keeps
    the first 15 and the last 15 characters of the address. *)
Theorem display_addr_keeps_ends (data : string) :
  (String.length (display_addr data) <= 33)%nat
  /\ take_str 15 (display_addr data) = take_str 15 data
  /\ last_chars 15 (display_addr data) = last_chars 15 data.
Proof.
  unfold display_addr.
  destruct (30 <? String.length data)%nat eqn:E.
  - apply Nat.ltb_lt in E.
    assert (Ht : String.length (take_str 15 data) = 15%nat)
      by (rewrite length_take; lia).
    assert (Hl : String.length (last_chars 15 data) = 15%nat)
      by (unfold last_chars; rewrite length_drop; lia).
    split; [| split].
    + rewrite !length_append, Ht, Hl. simpl. lia.
    + rewrite <- Ht at 1. apply take_app_exact.
    + unfold last_chars at 1.
      rewrite !length_append, Ht, Hl.
      rewrite <- append_assoc'.
      replace (15 + (String.length "..." + 15) - 15)%nat
        with (String.length (take_str 15 data ++ "...")).
      * apply drop_str_app.
      * rewrite length_append, Ht. reflexivity.
  - apply Nat.ltb_ge in E. split; [lia | split; reflexivity].
Qed.

End AddressText.

Section AddressRows.

Import Styles Utils Render.
Local Open Scope Z_scope.

Lemma rows_from_bounds (x y : Z) (lines : list string) :
  forall i,
    Forall (fun row =>
              fst (fst row) = x
              /\ y + Z.of_nat i * 15 <= snd (fst row)
                 <= y + (Z.of_nat i + Z.of_nat (length lines) - 1) * 15)
           (rows_from x y i lines).
Proof.
  induction lines as [|l lines IH]; intros i; simpl; constructor.
  - simpl. split; [reflexivity | lia].
  - eapply Forall_impl; [apply IH |].
    intros row (Hx & Hlo & Hhi). split; [exact Hx | lia].
Qed.

Lemma rows_from_lookup (x y : Z) (lines : list string) :
  forall i k line,
    lines !! k = Some line ->
    ((x, y + Z.of_nat (i + k) * 15), line) ∈ rows_from x y i lines.
Proof.
  induction lines as [|l lines IH]; intros i k line H; [discriminate |].
  destruct k as [|k]; simpl in *.
  - injection H as ->. rewrite Nat.add_0_r. apply list_elem_of_here.
  - apply list_elem_of_further.
    replace (i + S k)%nat with (S i + k)%nat by lia. now apply IH.
Qed.

(** X16: with the address block on, every text of the block (label,
    shortened address, lines of the full address) of an address of at most
    250 characters starts on the canvas. *)
Theorem address_block_on_canvas (qr_width qr_height : Z) (config : QRConfig)
    (data : string)
    (Hshow : show_address config = true)
    (Hw : 0 <= qr_width) (Hh : 0 <= qr_height)
    (Hlen : (String.length data <= 250)%nat) :
  let l := auto (qr_width, qr_height) config in
  Forall (fun row => within (width l) (height l) (fst row))
         (address_block l data).
Proof.
  intros l. unfold address_block.
  pose proof (full_address_lines_count data) as Hn.
  assert (Hn5 : (length (full_address_lines data) <= 5)%nat) by lia.
  pose proof (rows_from_bounds (padding l) (snd (address_position l) + 25 + 30)
                (full_address_lines data) 0) as Hrows.
  subst l. revert Hrows. unfold auto, within. simpl. rewrite Hshow.
  intros Hrows.
  destruct (truthy_str (title config)), (truthy_str (subtitle config)),
           (truthy_str (watermark config));
    (constructor; [simpl; lia |]); (constructor; [simpl; lia |]);
    (eapply Forall_impl; [exact Hrows |]);
    intros row (Hx & Hlo & Hhi); rewrite Hx; lia.
Qed.

(** X17: with no title, subtitle or watermark, an address longer than
    250 characters has a line of the full address starting at or below the
    bottom edge of the canvas: the height does not grow with the address. *)
Theorem address_block_cut_off (qr_width qr_height : Z) (config : QRConfig)
    (data : string)
    (Hshow : show_address config = true)
    (Htitle : title config = "") (Hsub : subtitle config = "")
    (Hmark : watermark config = "")
    (Hlen : (250 < String.length data)%nat) :
  let l := auto (qr_width, qr_height) config in
  exists row, row ∈ address_block l data /\ height l <= snd (fst row).
Proof.
  intros l.
  assert (Hlines : (6 <= length (full_address_lines data))%nat).
  { unfold full_address_lines.
    replace (50 <? String.length data)%nat with true
      by (symmetry; apply Nat.ltb_lt; lia).
    unfold chunks, range. rewrite length_map.
    pose proof (range_length_lower (String.length data)
                  (String.length data) 0). lia. }
  destruct (lookup_lt_is_Some_2 (full_address_lines data) 5) as [line Hl];
    [lia |].
  exists ((padding l, snd (address_position l) + 25 + 30
                      + Z.of_nat (0 + 5) * 15), line).
  split.
  - unfold address_block. do 2 apply list_elem_of_further.
    now apply rows_from_lookup.
  - subst l. unfold auto. simpl. rewrite Hshow, Htitle, Hsub, Hmark.
    simpl. lia.
Qed.

End AddressRows.

(** ** The emboss frame *)

Section Emboss.

Import Styles Utils Render.
Local Open Scope Z_scope.

Lemma hex_value_bounds (c : ascii) (v : Z) :
  hex_value c = Some v -> 0 <= v <= 15.
Proof.
  unfold hex_value.
  repeat match goal with
         | |- context [if ?b then _ else _] => destruct b eqn:?
         end; intros [= <-];
    repeat match goal with
           | H : (_ && _)%bool = true |- _ =>
               apply andb_true_iff in H as [? ?]
           | H : (_ <=? _)%nat = true |- _ => apply Nat.leb_le in H
           end; lia.
Qed.

Lemma int16_bounds (s : string) (v : Z) :
  int16 s = Some v -> -15 <= v <= 255.
Proof.
  unfold int16.
  destruct (int_rstrip (int_lstrip s)) as [|c1 [|c2 [|c3 t]]];
    try discriminate.
  - intros H. apply hex_value_bounds in H. lia.
  - destruct (Ascii.eqb c1 (ch "+")).
    + intros H. apply hex_value_bounds in H. lia.
    + destruct (Ascii.eqb c1 (ch "-")).
      * destruct (hex_value c2) as [h|] eqn:E; [| discriminate].
        intros [= <-]. apply hex_value_bounds in E. lia.
      * destruct (hex_value c1) as [h1|] eqn:E1; [| discriminate].
        destruct (hex_value c2) as [h2|] eqn:E2; [| discriminate].
        intros [= <-].
        apply hex_value_bounds in E1. apply hex_value_bounds in E2. lia.
Qed.

Lemma int16_empty : int16 "" = None.
Proof. reflexivity. Qed.

(** X18: when the colors of the emboss frame can be computed, the fill
    color has at least 6 characters (a name such as "black" raises
    ValueError), every light component lies in 25..255 and every dark one
    in 0..215. *)
Theorem emboss_colors_bounds (fill_color : string)
    (light dark : Z * Z * Z)
    (Hsome : emboss_colors fill_color = Some (light, dark)) :
  (6 <= String.length fill_color)%nat
  /\ rgb_in 25 255 light /\ rgb_in 0 215 dark.
Proof.
  unfold emboss_colors in Hsome.
  destruct (int16 (slice 1 3 fill_color)) as [r|] eqn:Er; [| discriminate].
  destruct (int16 (slice 3 5 fill_color)) as [g|] eqn:Eg; [| discriminate].
  destruct (int16 (slice 5 7 fill_color)) as [b|] eqn:Eb; [| discriminate].
  simpl in Hsome. injection Hsome as <- <-.
  split.
  - destruct (Nat.le_gt_cases 6 (String.length fill_color)) as [H | H];
      [exact H |].
    unfold slice in Eb. rewrite drop_ge in Eb by lia. discriminate.
  - apply int16_bounds in Er, Eg, Eb. unfold rgb_in. lia.
Qed.

Lemma hex_value_defined (c : ascii) :
  is_hex_digit c = true ->
  is_Some (hex_value c)
  /\ Ascii.eqb c (ch "+") = false /\ Ascii.eqb c (ch "-") = false.
Proof.
  destruct c as [[|] [|] [|] [|] [|] [|] [|] [|]]; vm_compute;
    intros; try congruence; repeat split; eauto.
Qed.

Lemma hex_not_int_space (c : ascii) :
  is_hex_digit c = true -> is_int_space c = false.
Proof.
  destruct c as [[|] [|] [|] [|] [|] [|] [|] [|]]; vm_compute; congruence.
Qed.

(** The separators 0x1c to 0x1f are white space for [str.strip] and not
    for [int]: a slice that holds one of them is no number. *)
Example int16_separator :
  is_space (ascii_of_nat 28) = true
  /\ int16 (String (ascii_of_nat 28) "a") = None
  /\ int16 " a" = Some 10.
Proof. repeat split. Qed.

Lemma int16_two_hex (a b : ascii) :
  is_hex_digit a = true -> is_hex_digit b = true ->
  is_Some (int16 (String a (String b ""))).
Proof.
  intros Ha Hb. unfold int16.
  cbn [int_lstrip]. rewrite (hex_not_int_space a Ha).
  cbn [int_rstrip]. rewrite (hex_not_int_space b Hb).
  destruct (hex_value_defined a Ha) as ([va Ea] & -> & ->).
  destruct (hex_value_defined b Hb) as ([vb Eb] & _ & _).
  rewrite Ea, Eb. simpl. eauto.
Qed.

(** X19: for a fill color made of any character followed by six
    hexadecimal digits the colors of the emboss frame are computed: the
    first character is never looked at. *)
Theorem emboss_colors_hex (c0 : ascii) (h : string)
    (Hlen : String.length h = 6%nat)
    (Hhex : all_chars is_hex_digit h = true) :
  is_Some (emboss_colors (String c0 h)).
Proof.
  destruct h as [|h1 [|h2 [|h3 [|h4 [|h5 [|h6 [|? ?]]]]]]];
    try discriminate.
  simpl in Hhex.
  repeat match goal with
         | H : (_ && _)%bool = true |- _ =>
             apply andb_true_iff in H as [? ?]
         end.
  unfold emboss_colors.
  change (slice 1 3 _) with (String h1 (String h2 "")).
  change (slice 3 5 _) with (String h3 (String h4 "")).
  change (slice 5 7 _) with (String h5 (String h6 "")).
  destruct (int16_two_hex h1 h2) as [r ->]; [assumption | assumption |].
  destruct (int16_two_hex h3 h4) as [g ->]; [assumption | assumption |].
  destruct (int16_two_hex h5 h6) as [b ->]; [assumption | assumption |].
  simpl. eauto.
Qed.

(** X20: the emboss frame, laid out from the canvas edges, goes around the
    QR block exactly when border * box_size is at most 55. *)
Theorem emboss_frame_encloses_qr_iff (qr_width qr_height : Z)
    (config : QRConfig) :
  let l := auto (qr_width, qr_height) config in
  encloses (emboss_rect config (width l, height l))
           (qr_position l) (qr_width, qr_height)
  <-> border config * box_size config <= 55.
Proof.
  unfold auto, emboss_rect, encloses. simpl.
  destruct (truthy_str (title config)), (truthy_str (subtitle config)),
           (show_address config), (truthy_str (watermark config));
    simpl; lia.
Qed.

End Emboss.

(** ** More about QRConfig *)

Section ConfigMore.

Import Styles.

Lemma lower_ascii_idem (c : ascii) : lower_ascii (lower_ascii c) = lower_ascii c.
Proof. destruct c as [[|] [|] [|] [|] [|] [|] [|] [|]]; reflexivity. Qed.

Lemma lower_idem (s : string) : lower (lower s) = lower s.
Proof.
  induction s as [|c s IH]; [reflexivity |].
  simpl. now rewrite lower_ascii_idem, IH.
Qed.

(** X21: [from_preset] does not depend on the case of the name, and it
    returns the dataclass defaults exactly for the names that, in lower
    case, are none of the six presets; the defaults are none of the
    presets. *)
Theorem from_preset_default_iff_unknown (preset : string) :
  from_preset (lower preset) = from_preset preset
  /\ (from_preset preset = default_config
      <-> ~ In (lower preset) (map fst presets)).
Proof.
  split; [unfold from_preset; now rewrite lower_idem |].
  unfold from_preset, presets, assoc_get. cbn [map fst In].
  repeat match goal with
         | |- context [String.eqb ?a ?b] =>
             destruct (String.eqb_spec a b) as [<- | ?]
         end;
    (split; [intros H; try discriminate H; intuition congruence
            | intros H; try reflexivity; exfalso; apply H; tauto]).
Qed.

End ConfigMore.

Section FromDict.

Import Styles.

Lemma unexpected_keyword_Some (data : gmap string PyVal) (k : string) :
  unexpected_keyword data = Some k ->
  is_Some (data !! k) /\ ~ In k field_names.
Proof.
  unfold unexpected_keyword. intros H.
  apply head_Some_elem_of, list_elem_of_filter in H as [HP Hin].
  split.
  - apply list_elem_of_In, in_map_iff in Hin as ([k' v] & <- & Hin).
    apply list_elem_of_In, elem_of_map_to_list in Hin. simpl. eauto.
  - intros Hf. apply Is_true_true, negb_true_iff in HP.
    assert (existsb (String.eqb k) field_names = true) as Hex.
    { apply existsb_exists. exists k. split; [exact Hf |].
      apply String.eqb_refl. }
    congruence.
Qed.

Lemma unexpected_keyword_None (data : gmap string PyVal) :
  unexpected_keyword data = None ->
  forall k, is_Some (data !! k) -> In k field_names.
Proof.
  unfold unexpected_keyword. intros H k [v Hk].
  apply head_None in H.
  destruct (existsb (String.eqb k) field_names) eqn:E.
  - apply existsb_exists in E as (k' & Hin & Heq).
    apply String.eqb_eq in Heq. now subst k'.
  - exfalso. eapply (filter_nil_not_elem_of _ _ k H).
    + apply Is_true_true, negb_true_iff, E.
    + apply list_elem_of_In, in_map_iff. exists (k, v).
      split; [reflexivity |]. now apply list_elem_of_In, elem_of_map_to_list.
Qed.

(** One keyword argument that did not stop the call: its value is the one
    given, converted, or the default. *)
Lemma kwarg_inv {A} (data : gmap string PyVal) (name : string)
    (conv : PyVal -> option A) (def : A) (k : A -> from_dict_outcome)
    (o : from_dict_outcome) :
  (forall f, o <> IllTyped f) ->
  kwarg data name conv def k = o ->
  exists a, k a = o
    /\ ((data !! name = None /\ a = def)
        \/ exists v, data !! name = Some v /\ conv v = Some a).
Proof.
  intros Ho. unfold kwarg.
  destruct (data !! name) as [v|].
  - destruct (conv v) as [a|] eqn:E.
    + intros H. exists a. split; [exact H |]. right. eauto.
    + intros H. symmetry in H. now apply Ho in H.
  - intros H. exists def. split; [exact H |]. now left.
Qed.

(** X22: [from_dict] raises for an unexpected keyword exactly when the
    dict has a key that is no field of QRConfig, and the key it names is
    such a key. *)
Theorem from_dict_unexpected_keyword (data : gmap string PyVal) :
  ((exists k, from_dict data = UnexpectedKeyword k)
   <-> exists k, is_Some (data !! k) /\ ~ In k field_names)
  /\ forall k, from_dict data = UnexpectedKeyword k ->
               is_Some (data !! k) /\ ~ In k field_names.
Proof.
  assert (Hnamed : forall k, from_dict data = UnexpectedKeyword k ->
                             is_Some (data !! k) /\ ~ In k field_names).
  { intros k. unfold from_dict.
    destruct (unexpected_keyword data) as [k'|] eqn:E.
    - intros [= <-]. now apply unexpected_keyword_Some.
    - intros H. exfalso.
      repeat (apply kwarg_inv in H as (? & H & _); [| discriminate]).
      discriminate. }
  split; [| exact Hnamed]. split.
  - intros [k Hk]. exists k. now apply Hnamed.
  - intros (k & Hk & Hnot). unfold from_dict.
    destruct (unexpected_keyword data) as [k'|] eqn:E; [eauto |].
    exfalso. apply Hnot. now apply (unexpected_keyword_None data E).
Qed.

End FromDict.

Section FromDictDefaults.

Import Styles.

Lemma as_int_inv v z : as_int v = Some z -> v = PInt z.
Proof. destruct v; simpl; congruence. Qed.
Lemma as_str_inv v s : as_str v = Some s -> v = PStr s.
Proof. destruct v; simpl; congruence. Qed.
Lemma as_bool_inv v b : as_bool v = Some b -> v = PBool b.
Proof. destruct v; simpl; congruence. Qed.
Lemma as_opt_str_inv v o : as_opt_str v = Some o -> v = opt_str_val o.
Proof.
  destruct v; simpl; intros H; try discriminate;
    injection H as <-; reflexivity.
Qed.
Lemma as_dict_inv v d : as_dict v = Some d -> v = PDict d.
Proof. destruct v; simpl; congruence. Qed.

Lemma to_dict_other (c : QRConfig) (k : string) :
  ~ In k field_names -> to_dict c !! k = None.
Proof.
  intros H. unfold to_dict. apply not_elem_of_list_to_map_1.
  intros Hin. apply H. apply list_elem_of_In. exact Hin.
Qed.

Ltac use_kwarg H :=
  destruct H as [[Hd ->] | (v & Hd & Hc)]; rewrite Hd;
  [ vm_compute; reflexivity
  | first [ apply as_int_inv in Hc | apply as_str_inv in Hc
          | apply as_bool_inv in Hc | apply as_opt_str_inv in Hc
          | apply as_dict_inv in Hc ];
    subst v; vm_compute; reflexivity ].

(** X23: a configuration built by [from_dict] holds every value given and
    the dataclass default for every field left out: its [to_dict] is the
    given dict completed by the [to_dict] of the defaults. *)
Theorem from_dict_fills_defaults (data : gmap string PyVal) (c : QRConfig)
    (Hbuilt : from_dict data = Built c) :
  to_dict c = data ∪ to_dict default_config.
Proof.
  unfold from_dict in Hbuilt.
  destruct (unexpected_keyword data) as [k'|] eqn:E; [discriminate |].
  apply kwarg_inv in Hbuilt as (a1 & Hbuilt & H1); [| discriminate].
  apply kwarg_inv in Hbuilt as (a2 & Hbuilt & H2); [| discriminate].
  apply kwarg_inv in Hbuilt as (a3 & Hbuilt & H3); [| discriminate].
  apply kwarg_inv in Hbuilt as (a4 & Hbuilt & H4); [| discriminate].
  apply kwarg_inv in Hbuilt as (a5 & Hbuilt & H5); [| discriminate].
  apply kwarg_inv in Hbuilt as (a6 & Hbuilt & H6); [| discriminate].
  apply kwarg_inv in Hbuilt as (a7 & Hbuilt & H7); [| discriminate].
  apply kwarg_inv in Hbuilt as (a8 & Hbuilt & H8); [| discriminate].
  apply kwarg_inv in Hbuilt as (a9 & Hbuilt & H9); [| discriminate].
  apply kwarg_inv in Hbuilt as (a10 & Hbuilt & H10); [| discriminate].
  apply kwarg_inv in Hbuilt as (a11 & Hbuilt & H11); [| discriminate].
  apply kwarg_inv in Hbuilt as (a12 & Hbuilt & H12); [| discriminate].
  apply kwarg_inv in Hbuilt as (a13 & Hbuilt & H13); [| discriminate].
  apply kwarg_inv in Hbuilt as (a14 & Hbuilt & H14); [| discriminate].
  apply kwarg_inv in Hbuilt as (a15 & Hbuilt & H15); [| discriminate].
  injection Hbuilt as <-.
  apply map_eq. intros k. rewrite lookup_union.
  destruct (decide (k = "version")) as [-> | N1]; [use_kwarg H1 |].
  destruct (decide (k = "error_correction")) as [-> | N2]; [use_kwarg H2 |].
  destruct (decide (k = "box_size")) as [-> | N3]; [use_kwarg H3 |].
  destruct (decide (k = "border")) as [-> | N4]; [use_kwarg H4 |].
  destruct (decide (k = "fill_color")) as [-> | N5]; [use_kwarg H5 |].
  destruct (decide (k = "back_color")) as [-> | N6]; [use_kwarg H6 |].
  destruct (decide (k = "title")) as [-> | N7]; [use_kwarg H7 |].
  destruct (decide (k = "subtitle")) as [-> | N8]; [use_kwarg H8 |].
  destruct (decide (k = "show_address")) as [-> | N9]; [use_kwarg H9 |].
  destruct (decide (k = "show_qr_border")) as [-> | N10]; [use_kwarg H10 |].
  destruct (decide (k = "add_logo")) as [-> | N11]; [use_kwarg H11 |].
  destruct (decide (k = "logo_path")) as [-> | N12]; [use_kwarg H12 |].
  destruct (decide (k = "logo_size")) as [-> | N13]; [use_kwarg H13 |].
  destruct (decide (k = "watermark")) as [-> | N14]; [use_kwarg H14 |].
  destruct (decide (k = "custom_css")) as [-> | N15]; [use_kwarg H15 |].
  assert (Hnot : ~ In k field_names).
  { unfold field_names. simpl. intros H.
    repeat (destruct H as [H | H]; [symmetry in H; contradiction |]).
    exact H. }
  rewrite !to_dict_other by exact Hnot.
  destruct (data !! k) as [v|] eqn:Ek; [| reflexivity].
  exfalso. apply Hnot. apply (unexpected_keyword_None data E). eauto.
Qed.

End FromDictDefaults.

(** ** StyleManager *)

Section ManagerFacts.

Import Styles Manager.

Lemma from_dict_to_dict_built (c : QRConfig) :
  from_dict (to_dict c) = Built c.
Proof.
  unfold from_dict. rewrite to_dict_no_unexpected_keyword.
  destruct c as [? ? ? ? ? ? ? ? ? ? ? [p|] ? ? ?]; vm_compute; reflexivity.
Qed.

(** X24: a fresh StyleManager knows the six presets under any case of
    their names, and answers None, not the default configuration, for any
    other name. *)
Theorem get_style_default (name : string) :
  get_style default_styles name
  = if bool_decide (In (lower name) preset_names)
    then Some (from_preset name) else None.
Proof.
  unfold get_style, from_preset.
  destruct (decide (lower name = "professional")) as [-> | N1];
    [vm_compute; reflexivity |].
  destruct (decide (lower name = "minimalist")) as [-> | N2];
    [vm_compute; reflexivity |].
  destruct (decide (lower name = "dark")) as [-> | N3];
    [vm_compute; reflexivity |].
  destruct (decide (lower name = "gradient")) as [-> | N4];
    [vm_compute; reflexivity |].
  destruct (decide (lower name = "business")) as [-> | N5];
    [vm_compute; reflexivity |].
  destruct (decide (lower name = "premium")) as [-> | N6];
    [vm_compute; reflexivity |].
  assert (Hnot : ~ In (lower name) preset_names).
  { unfold preset_names. simpl. intros H.
    repeat (destruct H as [H | H]; [symmetry in H; contradiction |]).
    exact H. }
  rewrite (bool_decide_eq_false_2 _ Hnot).
  unfold default_styles. apply not_elem_of_list_to_map_1.
  intros Hin. apply Hnot. apply list_elem_of_In. exact Hin.
Qed.

(** X25: after [add_style], [get_style] returns the added configuration
    for every name equal to the added one up to case, and answers as
    before for the others. *)
Theorem get_style_add_style (styles : gmap string QRConfig)
    (name query : string) (config : QRConfig) :
  get_style (add_style styles name config) query
  = if bool_decide (lower query = lower name)
    then Some config else get_style styles query.
Proof.
  unfold get_style, add_style. rewrite lookup_insert.
  destruct (decide (lower name = lower query)) as [E | E].
  - now rewrite bool_decide_eq_true_2.
  - rewrite bool_decide_eq_false_2; [reflexivity | congruence].
Qed.

(** X26: loading what [save_styles] wrote gives every saved style back,
    equal to what it was, in place of a style of the same name and beside
    the other styles. *)
Theorem load_styles_save_styles (saved styles : gmap string QRConfig) :
  load_styles (save_styles saved) styles = Some (saved ∪ styles).
Proof.
  unfold load_styles, save_styles.
  assert (Hall : map_Forall (fun _ d => is_Some (built (from_dict d)))
                            (to_dict <$> saved)).
  { intros k d Hk. rewrite lookup_fmap in Hk.
    destruct (saved !! k) as [c|]; [| discriminate].
    injection Hk as <-. rewrite from_dict_to_dict_built. simpl. eauto. }
  destruct (decide _) as [_ | Hno]; [| contradiction].
  f_equal. f_equal. apply map_eq. intros k.
  rewrite lookup_omap, lookup_fmap.
  destruct (saved !! k) as [c|]; [| reflexivity].
  simpl. now rewrite from_dict_to_dict_built.
Qed.

(** X27: [load_styles] keeps the names of the file as they are: a style
    stored under a name with an upper-case letter is in the table, but no
    [get_style] call reaches it. *)
Theorem load_styles_keeps_case (styles_data : gmap string (gmap string PyVal))
    (styles loaded : gmap string QRConfig) (name : string)
    (c : QRConfig) (d : gmap string PyVal)
    (Hcase : lower name <> name)
    (Hentry : styles_data !! name = Some d)
    (Hbuilt : from_dict d = Built c)
    (Hload : load_styles styles_data styles = Some loaded) :
  loaded !! name = Some c
  /\ forall query,
       get_style loaded query = get_style (delete name loaded) query.
Proof.
  split.
  - unfold load_styles in Hload.
    destruct (decide _); [| discriminate]. injection Hload as <-.
    apply lookup_union_Some_l. rewrite lookup_omap, Hentry. simpl.
    now rewrite Hbuilt.
  - intros query. unfold get_style. rewrite lookup_delete_ne; [reflexivity |].
    intros ->. apply Hcase. apply lower_idem.
Qed.

End ManagerFacts.

(** ** The command line *)

Section CliFacts.

Import Styles Utils Notions Generator Cli.

Lemma valid_is_generic (addr : string) :
  fst (validate_wallet_address addr) = true ->
  all_chars is_generic (strip addr) = true.
Proof.
  unfold validate_wallet_address.
  destruct (negb (truthy_str addr) || (String.length addr <? 10)%nat);
    [discriminate |].
  destruct (first_match patterns (strip addr)) as [f|] eqn:Ef;
    [| discriminate].
  intros _. apply first_match_Some in Ef as (pat & Hin & Hm).
  exact (proj2 (pattern_match_generic addr f pat Hin Hm)).
Qed.

Lemma starts_with_hash (line : string) :
  starts_with "#" line = true -> exists rest, line = String (ch "#") rest.
Proof.
  unfold starts_with. destruct line as [|c rest]; [discriminate |].
  simpl. destruct (Ascii.eqb c "#") eqn:E; [| destruct rest; discriminate].
  apply Ascii.eqb_eq in E. subst c. eauto.
Qed.

(** A line the first filter drops would not have validated. *)
Lemma dropped_line_invalid (line : string) :
  truthy_str (strip line) && negb (starts_with "#" line) = false ->
  fst (validate_wallet_address (strip line)) = false.
Proof.
  intros H. destruct (fst (validate_wallet_address (strip line))) eqn:V;
    [| reflexivity].
  exfalso. apply andb_false_iff in H as [H | H].
  - destruct (strip line); [discriminate V | discriminate H].
  - apply negb_false_iff, starts_with_hash in H as [rest ->].
    apply valid_is_generic in V. rewrite strip_idem in V.
    assert (Hs : exists r, strip (String (ch "#") rest) = String (ch "#") r).
    { unfold strip. rewrite lstrip_id by reflexivity.
      now apply rstrip_keeps_head. }
    destruct Hs as [r Hr]. rewrite Hr in V. discriminate V.
Qed.

(** X28: the addresses loaded from a file are the trimmed lines that
    validate, in file order; dropping blank lines and [#] lines first
    changes nothing, as neither validates.  Every loaded address is valid,
    trimmed and at least 10 characters long. *)
Theorem load_addresses_valid_trimmed (lines : list string) :
  _load_addresses lines
  = List.filter (fun addr => fst (validate_wallet_address addr))
                (map strip lines)
  /\ Forall (fun addr => fst (validate_wallet_address addr) = true
                         /\ strip addr = addr
                         /\ (10 <= String.length addr)%nat)
            (_load_addresses lines).
Proof.
  assert (Heq : _load_addresses lines
                = List.filter (fun addr => fst (validate_wallet_address addr))
                              (map strip lines)).
  { unfold _load_addresses. induction lines as [|line lines IH];
      [reflexivity |].
    cbn [List.filter map].
    destruct (truthy_str (strip line) && negb (starts_with "#" line)) eqn:E.
    - cbn [List.filter map]. now rewrite IH.
    - rewrite (dropped_line_invalid line E). exact IH. }
  split; [exact Heq |]. rewrite Heq.
  apply Forall_forall. intros addr Hin.
  apply list_elem_of_In, filter_In in Hin as [Hin Hv].
  apply in_map_iff in Hin as (line & <- & _).
  split; [exact Hv |]. split; [apply strip_idem |].
  unfold validate_wallet_address in Hv.
  destruct (negb (truthy_str (strip line))
            || (String.length (strip line) <? 10)%nat) eqn:E;
    [discriminate |].
  apply orb_false_iff in E as [_ E]. now apply Nat.ltb_ge in E.
Qed.

(** X29: of the preset chosen by [--style], the command line keeps only
    the title, the subtitle and [custom_css]; every other field comes from
    the other arguments.  The box size is between 8 and 26 and the version
    between 2 and 12, whatever [--size] is. *)
Theorem create_qr_config_style_scope (args : Args) (style : string) :
  let c := _create_qr_config args in
  let c' := _create_qr_config (with_style style args) in
  set_title (title c) (set_subtitle (subtitle c)
    (set_custom_css (custom_css c) c')) = c
  /\ (8 <= box_size c <= 26)%Z /\ (2 <= version c <= 12)%Z.
Proof.
  split; [reflexivity |].
  unfold _create_qr_config, size_map. cbn [box_size version].
  repeat match goal with
         | |- context [(?a =? ?b)%Z] => destruct (a =? b)%Z
         end; simpl; lia.
Qed.

(** X30: with [--style gradient] every generation fails with
    GenerationError (every QR matrix having a dark module). *)
Theorem cli_gradient_style_fails {Image : Type} (B : Backend Image)
    (args : Args) (data output_path : string)
    (Hstyle : arg_style args = "gradient")
    (Hdark : forall matrix,
       qrcode_matrix B (fst (size_map (arg_size args))) ERROR_CORRECT_H
         (snd (size_map (arg_size args))) (arg_border args) data
       = Return matrix ->
       has_dark_module matrix) :
  exists cause,
    generate B (_create_qr_config args) data output_path
    = Raise (MkExc GenerationError
               ("Failed to generate QR code: "
                ++ "Failed to create gradient QR code: " ++ exc_msg cause)).
Proof.
  apply generate_gradient_raises; [| exact Hdark].
  unfold _create_qr_config. cbn [custom_css]. rewrite Hstyle.
  vm_compute. eauto.
Qed.

End CliFacts.

(** ** The further properties at work *)

Lemma litecoin_starts_with_L_or_M_witness :
  Utils.validate_wallet_address "Lc7g9hUJ8GJgUPUg7nz9JN6bgh8J7hK9t8"
    = (true, "litecoin")
  /\ exists c t,
       Utils.strip "Lc7g9hUJ8GJgUPUg7nz9JN6bgh8J7hK9t8" = String c t
       /\ (c = Utils.ch "L" \/ c = Utils.ch "M").
Proof.
  split; [vm_compute; reflexivity |].
  apply (litecoin_starts_with_L_or_M "Lc7g9hUJ8GJgUPUg7nz9JN6bgh8J7hK9t8").
  vm_compute. reflexivity.
Defined.

Lemma validate_ignores_padding_witness :
  Utils.strip Scenario.eth_address = Scenario.eth_address
  /\ Utils.validate_wallet_address
       ("  " ++ Scenario.eth_address ++ Re.newline)
     = Utils.validate_wallet_address Scenario.eth_address.
Proof.
  split; [vm_compute; reflexivity |].
  apply (validate_ignores_padding "  " Scenario.eth_address Re.newline);
    [vm_compute; lia | vm_compute; reflexivity | reflexivity | reflexivity].
Defined.

Lemma scenario_dark_module (v box brd : Z) (data : string) :
  (0 < v)%Z ->
  forall matrix,
    Generator.qrcode_matrix Scenario.lib v Generator.ERROR_CORRECT_H box brd
      data = Return matrix ->
    Generator.has_dark_module matrix.
Proof.
  intros Hv matrix. simpl. unfold Scenario.qr_check.
  destruct (box <=? 0)%Z; [discriminate |].
  destruct (Scenario.qr_capacity <? String.length data)%nat; [discriminate |].
  simpl. intros [= <-].
  assert (Hn : exists n, Z.to_nat (Scenario.modules v) = S n).
  { exists (Z.to_nat (Scenario.modules v) - 1)%nat.
    unfold Scenario.modules. lia. }
  destruct Hn as [n ->].
  exists 0%nat, 0%nat. eexists. split; [reflexivity |].
  split; [reflexivity |].
  unfold Scenario.checker. rewrite length_map, length_seq. lia.
Qed.

Lemma generate_gradient_key_fails_witness :
  Styles.custom_css
    (Styles.set_custom_css {[ "gradient" := PBool false ]}
       Styles.default_config) !! "gradient" = Some (PBool false)
  /\ exists cause,
       Generator.generate Scenario.lib
         (Styles.set_custom_css {[ "gradient" := PBool false ]}
            Styles.default_config)
         Scenario.eth_address "out/qr.png"
       = Raise (MkExc GenerationError
                  ("Failed to generate QR code: "
                   ++ "Failed to create gradient QR code: " ++ exc_msg cause)).
Proof.
  split; [reflexivity |].
  apply (generate_gradient_key_fails Scenario.lib
           (Styles.set_custom_css {[ "gradient" := PBool false ]}
              Styles.default_config)
           Scenario.eth_address "out/qr.png" (PBool false));
    [reflexivity | apply scenario_dark_module; simpl; lia].
Defined.

Lemma generate_result_fields_witness :
  exists r,
    Generator.generate Scenario.lib Styles.preset_premium
      Scenario.eth_address "out/qr.png" = Return r
    /\ Generator.style r = "standard"
    /\ Generator.filepath r = "out/qr.png".
Proof.
  eexists. split; [vm_compute; reflexivity |].
  edestruct (generate_result_fields Scenario.lib Styles.preset_premium
               Scenario.eth_address "out/qr.png")
    as (_ & Hstyle & Hpath & _);
    [apply scenario_dark_module; simpl; lia | vm_compute; reflexivity |].
  split; [exact Hstyle | exact Hpath].
Defined.

Lemma batch_all_succeed_witness :
  exists run,
    Generator.generate_batch Scenario.lib Styles.default_config
      [Scenario.eth_address; Scenario.btc_address] "out"
      (Some Scenario.quiet_callback) = Return run
    /\ map Generator.address (Generator.results run)
       = [Scenario.eth_address; Scenario.btc_address]
    /\ Generator.callback_calls run
       = [(1, 2, Scenario.eth_address); (2, 2, Scenario.btc_address)]%nat
    /\ Generator.printed run = [].
Proof.
  apply (batch_all_succeed Scenario.lib Styles.default_config "out"
           [Scenario.eth_address; Scenario.btc_address]
           Scenario.quiet_callback).
  - reflexivity.
  - intros it [<- | [<- | []]]; vm_compute; reflexivity.
  - reflexivity.
Defined.

Lemma batch_callback_error_keeps_result_witness :
  exists run,
    Generator.generate_batch Scenario.lib Styles.default_config
      Scenario.batch3 "out" (Some Scenario.failing_callback) = Return run
    /\ "Error generating QR for address 1: display closed"
       ∈ Generator.printed run
    /\ map Generator.address (Generator.results run)
       = [Scenario.eth_address; Scenario.btc_address].
Proof.
  edestruct (batch_callback_error_keeps_result Scenario.lib
               Styles.default_config "out" Scenario.batch3
               Scenario.failing_callback 1 Scenario.eth_address)
    as (run & Hrun & _ & _ & Hline & Hres & _).
  - reflexivity.
  - apply list_elem_of_here.
  - vm_compute. reflexivity.
  - reflexivity.
  - exists run. split; [exact Hrun |]. split; [exact Hline |].
    rewrite Hres. vm_compute. reflexivity.
Defined.

Lemma address_block_on_canvas_witness :
  Styles.show_address Styles.preset_professional = true
  /\ Forall (fun row =>
               Styles.within
                 (Styles.width
                    (Styles.auto (585, 585)%Z Styles.preset_professional))
                 (Styles.height
                    (Styles.auto (585, 585)%Z Styles.preset_professional))
                 (fst row))
            (Render.address_block
               (Styles.auto (585, 585)%Z Styles.preset_professional)
               Scenario.eth_address).
Proof.
  split; [reflexivity |].
  apply (address_block_on_canvas 585 585 Styles.preset_professional
           Scenario.eth_address); [reflexivity | lia | lia | vm_compute; lia].
Defined.

Lemma address_block_cut_off_witness :
  (250 < String.length Scenario.oversized)%nat
  /\ exists row,
       row ∈ Render.address_block
               (Styles.auto (585, 585)%Z
                  (Styles.set_title "" Styles.default_config))
               Scenario.oversized
       /\ (Styles.height
             (Styles.auto (585, 585)%Z
                (Styles.set_title "" Styles.default_config))
           <= snd (fst row))%Z.
Proof.
  assert (H : (250 < String.length Scenario.oversized)%nat)
    by (vm_compute; lia).
  split; [exact H |].
  apply (address_block_cut_off 585 585
           (Styles.set_title "" Styles.default_config) Scenario.oversized);
    [reflexivity | reflexivity | reflexivity | reflexivity | exact H].
Defined.

Lemma emboss_colors_bounds_witness :
  Render.emboss_colors "#2E86C1"
    = Some ((86, 174, 233)%Z, (6, 94, 153)%Z)
  /\ (6 <= String.length "#2E86C1")%nat
  /\ Render.rgb_in 25 255 (86, 174, 233)%Z
  /\ Render.rgb_in 0 215 (6, 94, 153)%Z.
Proof.
  split; [vm_compute; reflexivity |].
  apply (emboss_colors_bounds "#2E86C1"). vm_compute. reflexivity.
Defined.

Lemma emboss_colors_hex_witness :
  String.length "F39C12" = 6%nat
  /\ is_Some (Render.emboss_colors (String (Utils.ch "#") "F39C12")).
Proof.
  split; [reflexivity |].
  apply (emboss_colors_hex (Utils.ch "#") "F39C12"); reflexivity.
Defined.

Lemma from_dict_fills_defaults_witness :
  Styles.from_dict {[ "title" := PStr "CUSTOM WALLET" ]}
    = Styles.Built (Styles.set_title "CUSTOM WALLET" Styles.default_config)
  /\ Styles.to_dict (Styles.set_title "CUSTOM WALLET" Styles.default_config)
     = {[ "title" := PStr "CUSTOM WALLET" ]}
       ∪ Styles.to_dict Styles.default_config.
Proof.
  split; [vm_compute; reflexivity |].
  apply (from_dict_fills_defaults {[ "title" := PStr "CUSTOM WALLET" ]}).
  vm_compute. reflexivity.
Defined.

Lemma load_styles_keeps_case_witness :
  Styles.lower "Custom" <> "Custom"
  /\ exists loaded,
       Manager.load_styles
         {[ "Custom" := Styles.to_dict Styles.default_config ]}
         Manager.default_styles = Some loaded
       /\ loaded !! "Custom" = Some Styles.default_config
       /\ Manager.get_style loaded "Custom"
          = Manager.get_style (delete "Custom" loaded) "Custom".
Proof.
  assert (Hcase : Styles.lower "Custom" <> "Custom") by discriminate.
  split; [exact Hcase |].
  destruct (Manager.load_styles
              {[ "Custom" := Styles.to_dict Styles.default_config ]}
              Manager.default_styles) as [loaded|] eqn:Hload.
  - exists loaded. split; [reflexivity |].
    destruct (load_styles_keeps_case
                {[ "Custom" := Styles.to_dict Styles.default_config ]}
                Manager.default_styles loaded "Custom"
                Styles.default_config
                (Styles.to_dict Styles.default_config)
                Hcase (lookup_singleton_eq _ _)
                (from_dict_to_dict_built _) Hload) as [H1 H2].
    split; [exact H1 | apply H2].
  - exfalso. unfold Manager.load_styles in Hload.
    destruct (decide _) as [? | Hno]; [discriminate |].
    apply Hno. intros k d Hk.
    apply lookup_singleton_Some in Hk as [_ <-].
    rewrite from_dict_to_dict_built. simpl. eauto.
Defined.

Lemma cli_gradient_style_fails_witness :
  Cli.arg_style (Cli.default_args "gradient") = "gradient"
  /\ exists cause,
       Generator.generate Scenario.lib
         (Cli._create_qr_config (Cli.default_args "gradient"))
         Scenario.eth_address "out/qr.png"
       = Raise (MkExc GenerationError
                  ("Failed to generate QR code: "
                   ++ "Failed to create gradient QR code: " ++ exc_msg cause)).
Proof.
  split; [reflexivity |].
  apply (cli_gradient_style_fails Scenario.lib (Cli.default_args "gradient")
           Scenario.eth_address "out/qr.png");
    [reflexivity | apply scenario_dark_module; simpl; lia].
Defined.
